(** * Region-guided report generation: orchestration and metric bookkeeping

    A shallow embedding of
      - [src/full_model/report_generation_model.py]
        ([ReportGenerationModel.forward], [get_valid_decoder_input_for_training],
        [get_valid_decoder_input_for_evaluation], [generate]) and
      - [src/full_model/test_set_evaluation_full_model.py] ([get_metric_scores], [main]),
    followed by the properties of the mask propagation, of the empty-selection
    sentinel and of the evaluation loop.

    Conventions of the embedding:
      - a Python call either returns a value or raises: [result];
      - a 2-D tensor is the list of its rows, a 1-D tensor a list;
        [reshape(-1)] is [concat] (row-major);
      - float tensors hold [num]: exact rationals extended with the IEEE
        special values (infinities, NaN).  Rounding is not modelled, the
        special values produced by a division by zero are;
      - the collaborators whose code lives outside these two files (object
        detector, selection head, language model, metric updaters) are the
        fields of the classes [Stages] and [Metrics]. *)

From Stdlib Require Import ZArith QArith Qcanon Ascii String.
From stdpp Require Import base list strings numbers pretty gmap.

Local Open Scope string_scope.
Local Open Scope list_scope.
Local Open Scope Z_scope.

(** ** Python exceptions and results *)

Inductive exn_class :=
  | RuntimeError
  | IndexError
  | ValueError
  | TypeError
  | UnboundLocalError.

Record exn := Exn { exn_cls : exn_class; exn_msg : string }.

Inductive result (A : Type) :=
  | Returns (a : A)
  | Raises (e : exn).
Arguments Returns {A} a.
Arguments Raises {A} e.

#[global] Instance exn_class_eq_dec : EqDecision exn_class.
Proof. solve_decision. Defined.

#[global] Instance result_ret : MRet result := λ A a, Returns a.
#[global] Instance result_bind : MBind result := λ A B f m,
  match m with
  | Returns a => f a
  | Raises e => Raises e
  end.

(** [isinstance(e, RuntimeError)], the test of [except RuntimeError as e]. *)
Definition is_RuntimeError (e : exn) : bool :=
  bool_decide (exn_cls e = RuntimeError).

(** [needle in hay] on Python strings. *)
Fixpoint str_contains (needle hay : string) : bool :=
  String.prefix needle hay ||
  match hay with
  | EmptyString => false
  | String _ rest => str_contains needle rest
  end.

(** ** Tensor elements *)

Inductive num :=
  | Finite (q : Qc)
  | PosInf
  | NegInf
  | NaN.

Definition num_zero : num := Finite 0%Qc.

(** A Python [int] used as the divisor of a float tensor. *)
Definition num_of_Z (z : Z) : num := Finite (Qc_of_Z z).

Definition num_add (x y : num) : num :=
  match x, y with
  | NaN, _ | _, NaN => NaN
  | PosInf, NegInf | NegInf, PosInf => NaN
  | PosInf, _ | _, PosInf => PosInf
  | NegInf, _ | _, NegInf => NegInf
  | Finite a, Finite b => Finite (a + b)%Qc
  end.

(** IEEE division: [0/0] is NaN, [x/0] an infinity of the sign of [x]. *)
Definition num_div (x y : num) : num :=
  match x, y with
  | NaN, _ | _, NaN => NaN
  | (PosInf | NegInf), (PosInf | NegInf) => NaN
  | PosInf, Finite b => if bool_decide (b < 0)%Qc then NegInf else PosInf
  | NegInf, Finite b => if bool_decide (b < 0)%Qc then PosInf else NegInf
  | Finite _, (PosInf | NegInf) => num_zero
  | Finite a, Finite b =>
      if bool_decide (b = 0%Qc) then
        if bool_decide (a = 0%Qc) then NaN
        else if bool_decide (0 < a)%Qc then PosInf else NegInf
      else Finite (a / b)%Qc
  end.

Definition is_nan (x : num) : bool :=
  match x with NaN => true | _ => false end.

Definition is_inf (x : num) : bool :=
  match x with PosInf | NegInf => true | _ => false end.

(** ** Tensor operations *)

(** [torch.zeros(n)]. *)
Definition torch_zeros (n : nat) : list num := replicate n num_zero.

(** [torch.sum(t)] of a 1-D tensor. *)
Definition torch_sum (t : list num) : num := foldr num_add num_zero t.

(** [t / n] for a 1-D tensor and a Python int. *)
Definition tensor_div_scalar (t : list num) (n : Z) : list num :=
  (λ x, num_div x (num_of_Z n)) <$> t.

(** [a / b] for two 1-D tensors of the same shape (broadcasting of
    singleton dimensions is not modelled: a shape mismatch raises). *)
Definition tensor_div (a b : list num) : result (list num) :=
  if decide (length a = length b) then Returns (zip_with num_div a b)
  else Raises (Exn RuntimeError "The size of tensor a must match the size of tensor b").

(** The shape [n x r] of a 2-D tensor given as its rows. *)
Definition shape2 {A} (n r : nat) (t : list (list A)) : Prop :=
  length t = n ∧ Forall (λ row, length row = r) t.

#[global] Instance shape2_dec {A} n r (t : list (list A)) : Decision (shape2 n r t).
Proof. unfold shape2. apply _. Defined.

Definition same_shape2 {A B} (a : list (list A)) (b : list (list B)) : Prop :=
  Forall2 (λ ra rb, length ra = length rb) a b.

#[global] Instance same_shape2_dec {A B} (a : list (list A)) (b : list (list B)) :
  Decision (same_shape2 a b).
Proof. unfold same_shape2. apply _. Defined.

(** [torch.logical_and(a, b)] on two boolean tensors of the same shape. *)
Definition torch_logical_and (a b : list (list bool)) : result (list (list bool)) :=
  if decide (same_shape2 a b) then Returns (zip_with (zip_with andb) a b)
  else Raises (Exn RuntimeError "The size of tensor a must match the size of tensor b").

(** [t.reshape(-1)] of a 2-D tensor: the rows one after the other. *)
Definition reshape_flat {A} (t : list (list A)) : list A := concat t.

(** The rows of [x] at which [mask] is true, in order. *)
Fixpoint select_rows {A} (x : list A) (mask : list bool) : list A :=
  match x, mask with
  | a :: x', b :: mask' =>
      if b then a :: select_rows x' mask' else select_rows x' mask'
  | _, _ => []
  end.

(** [x[mask]] with a 1-D boolean mask over the first dimension of [x]. *)
Definition index_mask {A} (x : list A) (mask : list bool) : result (list A) :=
  if decide (length mask = length x) then Returns (select_rows x mask)
  else Raises (Exn IndexError "The shape of the mask does not match the shape of the indexed tensor").

(** [x[mask]] with a 2-D boolean mask over the first two dimensions of
    [x]: the selected entries in row-major order. *)
Definition index_mask2 {A} (x : list (list A)) (mask : list (list bool)) : result (list A) :=
  if decide (same_shape2 mask x) then Returns (concat (zip_with select_rows x mask))
  else Raises (Exn IndexError "The shape of the mask does not match the shape of the indexed tensor").

(** ** The dense grid, as the specification describes it *)

(** Entry [(i, r)] of a dense mask; [false] outside of it. *)
Definition mask_at (m : list (list bool)) (i r : nat) : bool :=
  default false (m !! i ≫= (.!! r)).

(** The slots [(i, r)] of an [n x r] grid in row-major order. *)
Definition dense_grid (n r : nat) : list (nat * nat) :=
  i ← seq 0 n; (λ j, (i, j)) <$> seq 0 r.

(** Iterating the dense grid in row-major order and keeping only the
    slots where [keep] holds. *)
Definition kept_slots (n r : nat) (keep : nat → nat → bool) : list (nat * nat) :=
  filter (λ p, keep p.1 p.2 = true) (dense_grid n r).

(** Entry [(i, r)] of a flattened tensor holding [r] rows per image. *)
Definition flat_entry {A} (r : nat) (x : list A) (p : nat * nat) : option A :=
  x !! (p.1 * r + p.2)%nat.

(** Entry [(i, r)] of a dense tensor. *)
Definition dense_entry {A} (x : list (list A)) (p : nat * nat) : option A :=
  x !! p.1 ≫= (.!! p.2).

(** [v] is the compacted sequence that holds, at position [k], the entry
    of the [k]-th slot of [slots]. *)
Definition compacted_by {A} (slots : list (nat * nat)) (read : nat * nat → option A)
    (v : list A) : Prop :=
  Some <$> v = read <$> slots.

(** ** Calls that leave a trace

    [forward] and [generate] call the language model; whether they do is
    part of their contract, so these calls are recorded. *)

Definition traced (E A : Type) : Type := (list E * result A)%type.

#[global] Instance traced_ret {E} : MRet (traced E) := λ A a, ([], Returns a).
#[global] Instance traced_bind {E} : MBind (traced E) := λ A B f m,
  match m with
  | (t, Returns a) => let '(t', r) := f a in (t ++ t', r)
  | (t, Raises e) => (t, Raises e)
  end.

(** A call that leaves no trace. *)
Definition silent {E A} (r : result A) : traced E A := ([], r).

(** A call recorded as the event [ev]. *)
Definition recorded {E A} (ev : E) (r : result A) : traced E A := ([ev], r).

Abbreviation mask := (list (list bool)).

(** The model object: [self.training] and the constructor argument. *)
Record ReportGenerationModel := {
  training : bool;
  pretrain_without_lm_model : bool;
}.

(** [ReportGenerationModel(pretrain_without_lm_model=False)]: a fresh
    [nn.Module] is in training mode. *)
Definition ReportGenerationModel_init (pretrain : bool) : ReportGenerationModel :=
  {| training := true; pretrain_without_lm_model := pretrain |}.

(** [model.eval()]. *)
Definition eval_mode (self : ReportGenerationModel) : ReportGenerationModel :=
  {| training := false; pretrain_without_lm_model := pretrain_without_lm_model self |}.

(** The keyword arguments of [generate]. *)
Record generation_args := {
  max_length : option Z;
  num_beams : Z;
  num_beam_groups : Z;
  do_sample : bool;
  num_return_sequences : Z;
  early_stopping : bool;
}.

(** ** Collaborators

    The stages whose code lives outside the two files embedded here, and the
    payloads the orchestration only passes along. *)

Class Stages := {
  Image : Type;
  Target : Type;
  LossDict : Type;
  Loss : Type;
  Detections : Type;
  Feature : Type;
  Ids : Type;
  Att : Type;
  PastKeyValues : Type;
  PositionIds : Type;
  OutputIds : Type;

  (** [self.object_detector(images, image_targets)] in training mode. *)
  object_detector_train :
    list Image → list Target → result (LossDict * list (list Feature) * mask);

  (** [self.object_detector(images, image_targets)] in evaluation mode;
      [generate] passes no targets. *)
  object_detector_eval :
    list Image → option (list Target) →
    result (LossDict * Detections * list (list Feature) * mask);

  (** The decision of the selection head for one region feature vector,
      and its loss against the ground truth. *)
  classifier_selects : Feature → bool;
  classifier_loss : list (list Feature) → mask → mask → result Loss;

  (** [self.language_model(...)] and [self.language_model.generate(...)]. *)
  language_model :
    list Ids → list Att → list Feature → bool →
    option PastKeyValues → option PositionIds → bool → result Loss;
  language_model_generate : list Feature → generation_args → result OutputIds;
}.

Section Pipeline.

Context `{Stages}.

(** The calls of the language model, as recorded. *)
Inductive lm_event :=
  | LMForward (valid_input_ids : list Ids) (valid_attention_mask : list Att)
              (valid_region_features : list Feature)
  | LMGenerate (selected_region_features : list Feature).

(** What [forward] and [generate] hand back: the int [-1] or a tuple. *)
Inductive value :=
  | VLossDict (d : LossDict)
  | VLoss (l : Loss)
  | VDetections (d : Detections)
  | VBoolTensor (m : mask)
  | VOutputIds (o : OutputIds).

Inductive model_output :=
  | OutInt (z : Z)
  | OutTuple (components : list value).

(** The EmptySelection sentinel. *)
Definition EmptySelection : model_output := OutInt (-1).

(** *** The region selector *)

(** Modelled from the spec: the body of [BinaryClassifierRegionSelection]
    (src/binary_classifier/binary_classifier_region_selection.py) is not
    among the sources.  The selector takes the dense features and the
    detected mask, masks its own predictions with the detected mask
    ("selected ⇒ detected must hold by construction of the selector's own
    masking") and returns the selected mask with the features compacted
    by it. *)
Definition select_regions (top_region_features : list (list Feature))
    (class_detected : mask) : result (mask * list Feature) :=
  if decide (same_shape2 class_detected top_region_features) then
    let selected_regions :=
      zip_with (zip_with (λ f d, classifier_selects f && d))
        top_region_features class_detected in
    selected_region_features ← index_mask2 top_region_features selected_regions;
    mret (selected_regions, selected_region_features)
  else Raises (Exn RuntimeError "The size of tensor a must match the size of tensor b").

(** Modelled from the spec: the selector called in training mode with
    [return_loss=True] (body not among the sources); it returns its loss
    only. *)
Definition binary_classifier_region_selection_train
    (top_region_features : list (list Feature)) (class_detected region_has_sentence : mask)
    : result Loss :=
  classifier_loss top_region_features class_detected region_has_sentence.

(** Modelled from the spec: the selector called in evaluation mode with
    [return_loss=True] (body not among the sources); it returns the loss,
    the selected mask and the compacted features. *)
Definition binary_classifier_region_selection_eval
    (top_region_features : list (list Feature)) (class_detected region_has_sentence : mask)
    : result (Loss * mask * list Feature) :=
  loss ← classifier_loss top_region_features class_detected region_has_sentence;
  '(selected_regions, selected_region_features) ←
    select_regions top_region_features class_detected;
  mret (loss, selected_regions, selected_region_features).

(** Modelled from the spec: the selector called with [return_loss=False]
    (body not among the sources); it returns the selected mask and the
    compacted features. *)
Definition binary_classifier_region_selection_infer
    (top_region_features : list (list Feature)) (class_detected : mask)
    : result (mask * list Feature) :=
  select_regions top_region_features class_detected.

(** *** [ReportGenerationModel] *)

Definition get_valid_decoder_input_for_training
    (class_detected region_has_sentence : mask)
    (input_ids : list Ids) (attention_mask : list Att)
    (region_features : list (list Feature))
    : result (list Ids * list Att * list Feature) :=
  valid ← torch_logical_and class_detected region_has_sentence;
  let valid_reshaped := reshape_flat valid in
  valid_input_ids ← index_mask input_ids valid_reshaped;
  valid_attention_mask ← index_mask attention_mask valid_reshaped;
  valid_region_features ← index_mask2 region_features valid;
  mret (valid_input_ids, valid_attention_mask, valid_region_features).

Definition get_valid_decoder_input_for_evaluation
    (selected_regions : mask) (input_ids : list Ids) (attention_mask : list Att)
    : result (list Ids * list Att) :=
  let selected_regions := reshape_flat selected_regions in
  valid_input_ids ← index_mask input_ids selected_regions;
  valid_attention_mask ← index_mask attention_mask selected_regions;
  mret (valid_input_ids, valid_attention_mask).

(** The end of [forward], shared by both modes: the early return on an
    empty [valid_input_ids], the call of the language model, and the
    return; [pack] builds the tuple of the mode from the language-model
    loss. *)
Definition decode_or_return_early
    (valid_input_ids : list Ids) (valid_attention_mask : list Att)
    (valid_region_features : list Feature)
    (return_loss : bool) (past_key_values : option PastKeyValues)
    (position_ids : option PositionIds) (use_cache : bool)
    (pack : Loss → model_output) : traced lm_event model_output :=
  if decide (length valid_input_ids = 0%nat) then mret EmptySelection
  else
    language_model_loss ←
      recorded (LMForward valid_input_ids valid_attention_mask valid_region_features)
        (language_model valid_input_ids valid_attention_mask valid_region_features
           return_loss past_key_values position_ids use_cache);
    mret (pack language_model_loss).

Definition forward (self : ReportGenerationModel)
    (images : list Image) (image_targets : list Target)
    (input_ids : list Ids) (attention_mask : list Att)
    (region_has_sentence region_is_abnormal : mask)
    (return_loss : bool) (past_key_values : option PastKeyValues)
    (position_ids : option PositionIds) (use_cache : bool)
    : traced lm_event model_output :=
  if training self then
    '(obj_detector_loss_dict, top_region_features, class_detected) ←
      silent (object_detector_train images image_targets);
    classifier_loss_region_selection ←
      silent (binary_classifier_region_selection_train
                top_region_features class_detected region_has_sentence);
    if pretrain_without_lm_model self then
      mret (OutTuple [VLossDict obj_detector_loss_dict;
                      VLoss classifier_loss_region_selection])
    else
      '(valid_input_ids, valid_attention_mask, valid_region_features) ←
        silent (get_valid_decoder_input_for_training
                  class_detected region_has_sentence input_ids attention_mask
                  top_region_features);
      decode_or_return_early valid_input_ids valid_attention_mask valid_region_features
        return_loss past_key_values position_ids use_cache
        (λ language_model_loss,
           OutTuple [VLossDict obj_detector_loss_dict;
                     VLoss classifier_loss_region_selection;
                     VLoss language_model_loss])
  else
    '(obj_detector_loss_dict, detections, top_region_features, class_detected) ←
      silent (object_detector_eval images (Some image_targets));
    '(classifier_loss_region_selection, selected_regions, selected_region_features) ←
      silent (binary_classifier_region_selection_eval
                top_region_features class_detected region_has_sentence);
    if pretrain_without_lm_model self then
      mret (OutTuple [VLossDict obj_detector_loss_dict;
                      VLoss classifier_loss_region_selection;
                      VDetections detections;
                      VBoolTensor class_detected;
                      VBoolTensor selected_regions])
    else
      '(valid_input_ids, valid_attention_mask) ←
        silent (get_valid_decoder_input_for_evaluation
                  selected_regions input_ids attention_mask);
      let valid_region_features := selected_region_features in
      decode_or_return_early valid_input_ids valid_attention_mask valid_region_features
        return_loss past_key_values position_ids use_cache
        (λ language_model_loss,
           OutTuple [VLossDict obj_detector_loss_dict;
                     VLoss classifier_loss_region_selection;
                     VLoss language_model_loss;
                     VDetections detections;
                     VBoolTensor class_detected;
                     VBoolTensor selected_regions]).

Definition generate (self : ReportGenerationModel)
    (images : list Image) (args : generation_args) : traced lm_event model_output :=
  '(_, detections, top_region_features, class_detected) ←
    silent (object_detector_eval images None);
  '(selected_regions, selected_region_features) ←
    silent (binary_classifier_region_selection_infer top_region_features class_detected);
  if decide (length selected_region_features = 0%nat) then mret EmptySelection
  else
    output_ids ←
      recorded (LMGenerate selected_region_features)
        (language_model_generate selected_region_features args);
    mret (OutTuple [VOutputIds output_ids;
                    VBoolTensor selected_regions;
                    VDetections detections;
                    VBoolTensor class_detected]).

End Pipeline.

(** ** The evaluation loop *)

(** The three running sums of [obj_detector_scores], one entry per region. *)
Record obj_detector_sums := {
  sum_intersection_area_per_region : list num;
  sum_union_area_per_region : list num;
  sum_region_detected : list num;
}.

(** A dictionary with the keys "precision", "recall" and "f1". *)
Record scores3 (A : Type) := {
  precision : A;
  recall : A;
  f1 : A;
}.
Arguments precision {A} _.
Arguments recall {A} _.
Arguments f1 {A} _.

(** A dictionary with the keys "all", "normal" and "abnormal". *)
Record by_subset (A : Type) := {
  subset_all : A;
  subset_normal : A;
  subset_abnormal : A;
}.
Arguments subset_all {A} _.
Arguments subset_normal {A} _.
Arguments subset_abnormal {A} _.

(** [obj_detector_scores] as returned: the sums and the scores derived
    from them. *)
Record obj_detector_final := {
  final_sums : obj_detector_sums;
  avg_iou : num;
  avg_iou_per_region : list num;
  avg_num_detected_regions_per_image : num;
  avg_detections_per_region : list num;
}.

(** The metric objects of torchmetrics and the updaters of
    [src.full_model.evaluate_full_model.evaluate_model], which update the
    accumulators they are given from the outputs of one batch. *)
Class Metrics `{Stages} := {
  Metric : Type;
  new_Precision : Metric;
  new_Recall : Metric;
  new_F1Score : Metric;
  (** [score.compute()]: one score per class. *)
  metric_compute : Metric → list num;

  update_object_detector_metrics :
    obj_detector_sums → value → list Target → value → result obj_detector_sums;
  update_region_selection_metrics :
    by_subset (scores3 Metric) → value → mask → mask →
    result (by_subset (scores3 Metric));
  update_region_abnormal_metrics :
    scores3 Metric → value → mask → value → result (scores3 Metric);
}.

Section Evaluation.

Context `{Metrics}.

(** One batch of the test loader. *)
Record batch := {
  images : list Image;
  image_targets : list Target;
  region_has_sentence : mask;
  region_is_abnormal : mask;
  input_ids : list Ids;
  attention_mask : list Att;
}.

(** The locals of [get_metric_scores] that live across iterations;
    [output] is unbound until a call of the model has returned. *)
Record loop_state := {
  obj_detector_scores : obj_detector_sums;
  region_selection_scores : by_subset (scores3 Metric);
  region_abnormal_scores : scores3 Metric;
  oom : bool;
  num_images : Z;
  output : option model_output;
}.

Definition new_scores3 : scores3 Metric :=
  {| precision := new_Precision; recall := new_Recall; f1 := new_F1Score |}.

Definition initial_state : loop_state :=
  {| obj_detector_scores :=
       {| sum_intersection_area_per_region := torch_zeros 29;
          sum_union_area_per_region := torch_zeros 29;
          sum_region_detected := torch_zeros 29 |};
     region_selection_scores :=
       {| subset_all := new_scores3;
          subset_normal := new_scores3;
          subset_abnormal := new_scores3 |};
     region_abnormal_scores := new_scores3;
     oom := false;
     num_images := 0;
     output := None |}.

(** [output == -1]. *)
Definition is_minus_one (out : model_output) : bool :=
  match out with
  | OutInt z => bool_decide (z = -1)
  | OutTuple _ => false
  end.

(** The message of the [ValueError] of a failed 8-way unpacking. *)
Definition unpack_error (got : nat) : exn :=
  Exn ValueError
    (if decide (got < 8)%nat
     then "not enough values to unpack (expected 8, got " +:+ pretty got +:+ ")"
     else "too many values to unpack (expected 8)").

(** The body of the [for] loop for one batch.  [Raises] leaves the
    function; both [continue] and the end of the body return the next
    state.  The writes to stdout are left out. *)
Definition loop_body (model : batch → result model_output)
    (st : loop_state) (b : batch) : result loop_state :=
  let batch_size := Z.of_nat (length (images b)) in
  let num_images := num_images st + batch_size in
  '(oom, output) ←
    match model b with
    | Returns out => Returns (oom st, Some out)
    | Raises e =>
        if is_RuntimeError e then
          if str_contains "out of memory" (exn_msg e) then
            (* oom = True; print(...); raise e *)
            Raises e
          else
            (* the handler falls through: [output] keeps its binding *)
            Returns (oom st, output st)
        else Raises e
    end;
  if oom : bool then
    (* oom = False; num_images -= batch_size; continue *)
    mret {| obj_detector_scores := obj_detector_scores st;
            region_selection_scores := region_selection_scores st;
            region_abnormal_scores := region_abnormal_scores st;
            oom := false;
            num_images := num_images - batch_size;
            output := output |}
  else
    match output with
    | None =>
        Raises (Exn UnboundLocalError
                  "local variable 'output' referenced before assignment")
    | Some out =>
        if is_minus_one out then
          (* num_images -= batch_size; continue *)
          mret {| obj_detector_scores := obj_detector_scores st;
                  region_selection_scores := region_selection_scores st;
                  region_abnormal_scores := region_abnormal_scores st;
                  oom := oom;
                  num_images := num_images - batch_size;
                  output := output |}
        else
          match out with
          | OutTuple [_; _; _; _; detections; class_detected; selected_regions;
                      predicted_abnormal_regions] =>
              obj ← update_object_detector_metrics (obj_detector_scores st)
                      detections (image_targets b) class_detected;
              sel ← update_region_selection_metrics (region_selection_scores st)
                      selected_regions (region_has_sentence b) (region_is_abnormal b);
              abn ← update_region_abnormal_metrics (region_abnormal_scores st)
                      predicted_abnormal_regions (region_is_abnormal b) class_detected;
              mret {| obj_detector_scores := obj;
                      region_selection_scores := sel;
                      region_abnormal_scores := abn;
                      oom := oom;
                      num_images := num_images;
                      output := output |}
          | OutTuple components => Raises (unpack_error (length components))
          | OutInt _ =>
              Raises (Exn TypeError "cannot unpack non-iterable int object")
          end
    end.

(** [for num_batch, batch in enumerate(test_loader)]. *)
Fixpoint run_batches (model : batch → result model_output)
    (st : loop_state) (test_loader : list batch) : result loop_state :=
  match test_loader with
  | [] => Returns st
  | b :: rest => st' ← loop_body model st b; run_batches model st' rest
  end.

(** [score.compute()[1].item()]: the score of the positive class. *)
Definition positive_class_score (score : Metric) : result num :=
  match metric_compute score !! 1%nat with
  | Some x => Returns x
  | None => Raises (Exn IndexError "index 1 is out of bounds for dimension 0")
  end.

Definition compute_scores3 (scores : scores3 Metric) : result (scores3 num) :=
  p ← positive_class_score (precision scores);
  r ← positive_class_score (recall scores);
  f ← positive_class_score (f1 scores);
  mret {| precision := p; recall := r; f1 := f |}.

(** The code of [get_metric_scores] after the loop. *)
Definition finalize (st : loop_state)
    : result (obj_detector_final * by_subset (scores3 num) * scores3 num) :=
  let sum_intersection := sum_intersection_area_per_region (obj_detector_scores st) in
  let sum_union := sum_union_area_per_region (obj_detector_scores st) in
  let avg_iou := num_div (torch_sum sum_intersection) (torch_sum sum_union) in
  avg_iou_per_region ← tensor_div sum_intersection sum_union;
  let sum_region_detected := sum_region_detected (obj_detector_scores st) in
  let avg_num_detected_regions_per_image :=
    torch_sum (tensor_div_scalar sum_region_detected (num_images st)) in
  let avg_detections_per_region :=
    tensor_div_scalar sum_region_detected (num_images st) in
  sel_all ← compute_scores3 (subset_all (region_selection_scores st));
  sel_normal ← compute_scores3 (subset_normal (region_selection_scores st));
  sel_abnormal ← compute_scores3 (subset_abnormal (region_selection_scores st));
  abn ← compute_scores3 (region_abnormal_scores st);
  mret ({| final_sums := obj_detector_scores st;
           avg_iou := avg_iou;
           avg_iou_per_region := avg_iou_per_region;
           avg_num_detected_regions_per_image := avg_num_detected_regions_per_image;
           avg_detections_per_region := avg_detections_per_region |},
        {| subset_all := sel_all;
           subset_normal := sel_normal;
           subset_abnormal := sel_abnormal |},
        abn).

Definition get_metric_scores (model : batch → result model_output)
    (test_loader : list batch)
    : result (obj_detector_final * by_subset (scores3 num) * scores3 num) :=
  st ← run_batches model initial_state test_loader;
  finalize st.

(** [model(images, image_targets, input_ids, attention_mask,
    region_has_sentence, region_is_abnormal)] for a
    [ReportGenerationModel]: the remaining parameters of [forward] take
    their defaults. *)
Definition forward_on (self : ReportGenerationModel) (b : batch)
    : traced lm_event model_output :=
  forward self (images b) (image_targets b) (input_ids b) (attention_mask b)
    (region_has_sentence b) (region_is_abnormal b) true None None false.

Definition call_model (self : ReportGenerationModel) (b : batch)
    : result model_output :=
  (forward_on self b).2.

(** The model of [main]: [ReportGenerationModel()] followed by
    [model.eval()]. *)
Definition main_model : ReportGenerationModel :=
  eval_mode (ReportGenerationModel_init false).

End Evaluation.
(** ** A concrete pipeline *)

(** An image is given by the regions the detector finds in it; the feature
    of slot [(i, r)] is its flattened index. *)
Definition toy_features (images : list (list bool)) : list (list nat) :=
  imap (λ i img, imap (λ r _, (i * 29 + r)%nat) img) images.

(** The detector finds the regions listed in the image, the selection head
    picks the slots with an even feature, and the language model runs out
    of memory on more than three sequences. *)
#[local] Instance toy_stages : Stages := {|
  Image := list bool;
  Target := unit;
  LossDict := unit;
  Loss := nat;
  Detections := unit;
  Feature := nat;
  Ids := list Z;
  Att := list Z;
  PastKeyValues := unit;
  PositionIds := unit;
  OutputIds := list (list Z);
  object_detector_train images _ := Returns ((), toy_features images, images);
  object_detector_eval images _ := Returns ((), (), toy_features images, images);
  classifier_selects f := Nat.even f;
  classifier_loss _ _ _ := Returns 0%nat;
  language_model ids _ features _ _ _ _ :=
    if decide (length ids ≤ 3)%nat then Returns (length features)
    else Raises (Exn RuntimeError "CUDA out of memory. Tried to allocate 2.00 GiB");
  language_model_generate features _ := Returns ((λ f, [Z.of_nat f]) <$> features);
|}.

(** Adds [weight] to the running sum of every region detected in [row]. *)
Definition toy_add_row (weight : Qc) (acc : list num) (row : list bool) : list num :=
  zip_with (λ a (d : bool), if d then num_add a (Finite weight) else a) acc row.

(** Metric updaters for which every detected region contributes an
    intersection of 3, a union of 6 and one detection; the classification
    metrics stay as they are. *)
#[local] Instance toy_metrics : Metrics := {|
  Metric := list num;
  new_Precision := [num_zero; num_zero];
  new_Recall := [num_zero; num_zero];
  new_F1Score := [num_zero; num_zero];
  metric_compute m := m;
  update_object_detector_metrics sums _ _ class_detected :=
    match class_detected with
    | VBoolTensor cd =>
        Returns
          {| sum_intersection_area_per_region :=
               foldl (toy_add_row (Qc_of_Z 3)) (sum_intersection_area_per_region sums) cd;
             sum_union_area_per_region :=
               foldl (toy_add_row (Qc_of_Z 6)) (sum_union_area_per_region sums) cd;
             sum_region_detected :=
               foldl (toy_add_row (Qc_of_Z 1)) (sum_region_detected sums) cd |}
    | _ => Raises (Exn TypeError "class_detected is not a tensor")
    end;
  update_region_selection_metrics scores _ _ _ := Returns scores;
  update_region_abnormal_metrics scores _ _ _ := Returns scores;
|}.

(** A model whose output has the eight components the loop unpacks. *)
Definition toy_model8 (b : batch) : result model_output :=
  Returns (OutTuple [VLossDict (); VLoss 0%nat; VLoss 0%nat; VLoss 0%nat;
                     VDetections (); VBoolTensor (images b);
                     VBoolTensor (images b); VBoolTensor (images b)]).

(** The row of a 29-region mask that is true at [regions]. *)
Definition region_row (regions : list nat) : list bool :=
  (λ r, bool_decide (r ∈ regions)) <$> seq 0 29.

(** A batch of one image in which the regions of [detected] are found and
    the regions of [with_sentence] have a reference sentence; the token
    sequence of region [r] is [[r]]. *)
Definition toy_batch (detected with_sentence : list nat) : batch :=
  {| images := [region_row detected];
     image_targets := [()];
     region_has_sentence := [region_row with_sentence];
     region_is_abnormal := [region_row []];
     input_ids := (λ r, [Z.of_nat r]) <$> seq 0 29;
     attention_mask := replicate 29 [1] |}.

(** Freshly built models, hence in training mode. *)
Definition toy_training_model : ReportGenerationModel := ReportGenerationModel_init false.
Definition toy_pretraining_model : ReportGenerationModel := ReportGenerationModel_init true.

(** ** Counting the selected slots *)

(** The number of true entries of a flattened mask. *)
Definition count_true (m : list bool) : nat :=
  length (filter (λ b, b = true) m).

(** ** Loop states in which no batch has been counted *)

Section Untouched.
Context `{Metrics}.

(** The accumulators and the image count are those of the initial state,
    and the out-of-memory flag is down. *)
Definition untouched (st : loop_state) : Prop :=
  obj_detector_scores st = obj_detector_scores initial_state ∧
  region_selection_scores st = region_selection_scores initial_state ∧
  region_abnormal_scores st = region_abnormal_scores initial_state ∧
  num_images st = 0 ∧
  oom st = false.

(** Detector scores in which every quotient is [0 / 0]. *)
Definition undefined_scores (obj : obj_detector_final) : Prop :=
  final_sums obj = obj_detector_scores initial_state ∧
  avg_iou obj = NaN ∧
  avg_iou_per_region obj = replicate 29 NaN ∧
  avg_num_detected_regions_per_image obj = NaN ∧
  avg_detections_per_region obj = replicate 29 NaN.

End Untouched.

(** ** The generation of sentences in the evaluation *)

(** The keyword arguments of the call of [generate] in
    [evaluate_language_model]; the others take their defaults. *)
Definition NUM_BEAMS : Z := 4.
Definition MAX_NUM_TOKENS_GENERATE : Z := 300.
Definition evaluation_generation_args : generation_args :=
  {| max_length := Some MAX_NUM_TOKENS_GENERATE; num_beams := NUM_BEAMS;
     num_beam_groups := 1; do_sample := false; num_return_sequences := 1;
     early_stopping := true |}.

(** * Checkpoints, the dataset and files

    The code around the pipeline: the renaming of checkpoint keys in
    [ReportGenerationModel.__init__] and [main], the preparation of the
    phrases in [get_dataset] and [get_tokenized_dataset], and the functions
    of [test_set_evaluation_full_model.py] that read and write files.

    Conventions:
      - a string is a sequence of code points below 256;
      - a [dict] with string keys is a [gmap] where only lookups matter, and
        a list of pairs in insertion order where it is iterated;
      - the file system maps a path to the text of the file; directories,
        permissions and encodings are not modelled. *)

(** The exceptions of this part: those of the pipeline and the loop, and
    those of dictionaries and files. *)
Inductive error :=
  | ModelError (e : exn)
  | KeyError (key : string)
  | FileNotFoundError (path : string)
  | AttributeError (msg : string).

Inductive outcome (A : Type) :=
  | Done (a : A)
  | Failed (e : error).
Arguments Done {A} a.
Arguments Failed {A} e.

#[global] Instance outcome_ret : MRet outcome := λ A a, Done a.
#[global] Instance outcome_bind : MBind outcome := λ A B f m,
  match m with
  | Done a => f a
  | Failed e => Failed e
  end.

(** A call of the first part inside this one. *)
Definition of_result {A} (r : result A) : outcome A :=
  match r with
  | Returns a => Done a
  | Raises e => Failed (ModelError e)
  end.

(** ** Checkpoint keys *)

(** [d.pop(key)]. *)
Definition dict_pop {V} (key : string) (d : gmap string V)
    : outcome (V * gmap string V) :=
  match d !! key with
  | Some v => Done (v, delete key d)
  | None => Failed (KeyError key)
  end.

(** [d[new] = d.pop(old)]: the right-hand side is evaluated first. *)
Definition rename_key {V} (new old : string) (d : gmap string V)
    : outcome (gmap string V) :=
  '(v, d) ← dict_pop old d;
  mret (<[new := v]> d).

(** The two assignments of [ReportGenerationModel.__init__] on the state
    dict of the object detector. *)
Definition rename_object_detector_keys {V} (checkpoint : gmap string V)
    : outcome (gmap string V) :=
  checkpoint ← rename_key "rpn.head.conv.weight" "rpn.head.conv.0.0.weight" checkpoint;
  rename_key "rpn.head.conv.bias" "rpn.head.conv.0.0.bias" checkpoint.

(** [checkpoint["model"]]. *)
Definition checkpoint_model {V} (checkpoint : gmap string (gmap string V))
    : outcome (gmap string V) :=
  match checkpoint !! "model" with
  | Some model => Done model
  | None => Failed (KeyError "model")
  end.

(** The two assignments of [main] on [checkpoint["model"]]; the inner
    dict is updated in place, so that the outer one holds the result. *)
Definition rename_full_model_keys {V} (checkpoint : gmap string (gmap string V))
    : outcome (gmap string (gmap string V)) :=
  model ← checkpoint_model checkpoint;
  model ← rename_key "object_detector.rpn.head.conv.weight"
            "object_detector.rpn.head.conv.0.0.weight" model;
  let checkpoint := <["model" := model]> checkpoint in
  model ← checkpoint_model checkpoint;
  model ← rename_key "object_detector.rpn.head.conv.bias"
            "object_detector.rpn.head.conv.0.0.bias" model;
  mret (<["model" := model]> checkpoint).

(** ** The phrases of the dataset *)

(** The columns [get_dataset] reads. *)
Record dataset_row := {
  study_id : Z;
  mimic_image_file_path : string;
  bbox_coordinates : list (list Z);
  bbox_labels : list Z;
  bbox_phrases : list string;
  bbox_phrase_exists : list bool;
  bbox_is_abnormal : list bool;
}.

(** The lambda of [get_dataset]: every empty phrase becomes "#". *)
Definition replace_empty_phrases (bbox_phrases : list string) : list string :=
  (λ phrase, if decide (String.length phrase ≠ 0%nat) then phrase else "#")
    <$> bbox_phrases.

Definition NUM_IMAGES_TO_USE_IN_TEST_SET : nat := 5000.

(** [get_dataset], from the rows that [pd.read_csv] returns. *)
Definition get_dataset (rows : list dataset_row) : list dataset_row :=
  take NUM_IMAGES_TO_USE_IN_TEST_SET
    ((λ row,
        {| study_id := study_id row;
           mimic_image_file_path := mimic_image_file_path row;
           bbox_coordinates := bbox_coordinates row;
           bbox_labels := bbox_labels row;
           bbox_phrases := replace_empty_phrases (bbox_phrases row);
           bbox_phrase_exists := bbox_phrase_exists row;
           bbox_is_abnormal := bbox_is_abnormal row |}) <$> rows).

(** The reference sentence as [write_sentences] writes it. *)
Definition written_reference (ref_sent : string) : string :=
  if decide (ref_sent ≠ "#") then ref_sent else "".

Definition bos_token : string := "<|endoftext|>".
Definition eos_token : string := "<|endoftext|>".

(** The strings that [tokenize_function] hands to the tokenizer. *)
Definition phrases_with_special_tokens (phrases : list string) : list string :=
  (λ phrase, bos_token +:+ phrase +:+ eos_token) <$> phrases.

(** [tokenize_function], for a tokenizer called with [truncation=True] and
    [max_length=1024]. *)
Definition tokenize_function {T} (tokenizer : list string → bool → Z → T)
    (example : dataset_row) : T :=
  let phrases := bbox_phrases example in
  tokenizer (phrases_with_special_tokens phrases) true 1024.

(** ** Strings *)

Definition LF : ascii := "010"%char.
Definition CR : ascii := "013"%char.
Definition TAB : ascii := "009"%char.

(** The strings of one line feed and of one tabulator. *)
Definition nl : string := String LF "".
Definition tab : string := String TAB "".

(** [c.isspace()]. *)
Definition isspace (c : ascii) : bool :=
  let n := nat_of_ascii c in
  bool_decide (9 ≤ n ≤ 13)%nat || bool_decide (28 ≤ n ≤ 32)%nat ||
  bool_decide (n = 133)%nat || bool_decide (n = 160)%nat.

(** Whether some character of [s] is white space. *)
Fixpoint contains_space (s : string) : bool :=
  match s with
  | EmptyString => false
  | String c s => isspace c || contains_space s
  end.

(** [s.split()], reading [s] from the left: the maximal runs of characters
    that are not white space.  [word] is the run being read, if any. *)
Fixpoint split_from (word : option string) (s : string) : list string :=
  match s with
  | EmptyString =>
      match word with
      | Some w => [w]
      | None => []
      end
  | String c s =>
      if isspace c then
        match word with
        | Some w => w :: split_from None s
        | None => split_from None s
        end
      else split_from (Some (default "" word +:+ String c "")) s
  end.

Definition str_split (s : string) : list string := split_from None s.

(** A word: not empty and without white space. *)
Definition is_word (w : string) : Prop := w ≠ "" ∧ contains_space w = false.

(** [sep.join(words)]. *)
Definition str_join (sep : string) (words : list string) : string :=
  String.concat sep words.

(** [c.lower()]: the letters A to Z and the capital letters of Latin-1. *)
Definition lower_char (c : ascii) : ascii :=
  let n := nat_of_ascii c in
  if bool_decide (65 ≤ n ≤ 90)%nat || (bool_decide (192 ≤ n ≤ 222)%nat && bool_decide (n ≠ 215)%nat)
  then ascii_of_nat (n + 32)
  else c.

(** [s.lower()]. *)
Fixpoint str_lower (s : string) : string :=
  match s with
  | EmptyString => EmptyString
  | String c s => String (lower_char c) (str_lower s)
  end.

(** ["_".join(name.split())]. *)
Definition underscored (name : string) : string := str_join "_" (str_split name).

(** [s * n]. *)
Fixpoint str_repeat (s : string) (n : nat) : string :=
  match n with
  | O => ""
  | S n => s +:+ str_repeat s n
  end.

(** Whether [path] ends with the separator. *)
Fixpoint ends_with_sep (path : string) : bool :=
  match path with
  | EmptyString => false
  | String c EmptyString => bool_decide (c = "/"%char)
  | String _ path => ends_with_sep path
  end.

(** [os.path.join(a, b)] of [posixpath]. *)
Definition os_path_join (a b : string) : string :=
  if String.prefix "/" b then b
  else if bool_decide (a = "") || ends_with_sep a then a +:+ b
  else a +:+ "/" +:+ b.

(** ** Files *)

(** The text files by their paths. *)
Abbreviation files := (gmap string string).

(** [f.readline()] on a file just opened for reading: the first line with
    its end, which the text mode turns into one line feed. *)
Fixpoint readline (text : string) : string :=
  match text with
  | EmptyString => ""
  | String c text =>
      if bool_decide (c = LF) || bool_decide (c = CR) then nl
      else String c (readline text)
  end.

(** The text of the file that [open(path)] opens for reading. *)
Definition read_text (fs : files) (path : string) : outcome string :=
  match fs !! path with
  | Some text => Done text
  | None => Failed (FileNotFoundError path)
  end.

(** Code that reads and writes files: it returns the files it leaves
    behind whether it succeeds or fails. *)
Definition io (A : Type) : Type := files → files * outcome A.

#[global] Instance io_ret : MRet io := λ A a fs, (fs, Done a).
#[global] Instance io_bind : MBind io := λ A B f m fs,
  match m fs with
  | (fs, Done a) => f a fs
  | (fs, Failed e) => (fs, Failed e)
  end.

(** Code that touches no file. *)
Definition lift {A} (o : outcome A) : io A := λ fs, (fs, o).

(** Code that only reads files. *)
Definition reading {A} (f : files → outcome A) : io A := λ fs, (fs, f fs).

(** [open(path, "w")]: the file is created or emptied. *)
Definition open_w (path : string) : io unit := λ fs, (<[path := ""]> fs, Done ()).

(** [open(path, "a")]: the file is created if it does not exist. *)
Definition open_a (path : string) : io unit :=
  λ fs, (<[path := default "" (fs !! path)]> fs, Done ()).

(** [f.write(text)] on the file opened at [path] for writing or appending. *)
Definition write (path text : string) : io unit :=
  λ fs, (<[path := default "" (fs !! path) +:+ text]> fs, Done ()).

(** A [for] loop whose body returns nothing. *)
Fixpoint for_each {A} (l : list A) (body : A → io unit) : io unit :=
  match l with
  | [] => mret ()
  | x :: l => body x;; for_each l body
  end.

(** What a piece of code does to the file at [path]: *)

(** - [fs'] is [fs] with text added at the end of the file, which is
      created at most; *)
Definition appended (path : string) (fs fs' : files) : Prop :=
  (∀ p, p ≠ path → fs' !! p = fs !! p) ∧
  (is_Some (fs !! path) → is_Some (fs' !! path)) ∧
  ∃ text, default "" (fs' !! path) = default "" (fs !! path) +:+ text.

(** - the code only adds text at the end of the file, whether it succeeds
      or fails; *)
Definition appends {A} (path : string) (m : io A) : Prop :=
  ∀ fs, appended path fs (m fs).1.

(** - the code succeeds and adds [text] at the end of the open file; *)
Definition emits (path text : string) (m : io unit) : Prop :=
  ∀ fs old, fs !! path = Some old → m fs = (<[path := old +:+ text]> fs, Done ()).

(** - the same for a text that does not depend on the files. *)
Definition emitting (path : string) (m : io unit) : Prop := ∃ text, emits path text m.

(** ** The reports of MIMIC-CXR *)

Definition path_to_test_mimic_reports_folder : string :=
  "/u/home/tanida/datasets/mimic-cxr-reports/test_2000_reports".
Definition path_to_test_mimic_reports_folder_findings_only : string :=
  "/u/home/tanida/datasets/mimic-cxr-reports/test_2000_reports_findings_only".

(** [os.path.join(folder, f"s{study_id}.txt")], for a study id that is a
    string. *)
Definition study_txt_file_path (folder study_id : string) : string :=
  os_path_join folder ("s" +:+ study_id +:+ ".txt").

(** The two files of a study. *)
Definition main_report_path (study_id : string) : string :=
  study_txt_file_path path_to_test_mimic_reports_folder study_id.
Definition findings_report_path (study_id : string) : string :=
  study_txt_file_path path_to_test_mimic_reports_folder_findings_only study_id.

(** The dictionary that [get_reference_reports_mimic] returns. *)
Record mimic_reports := {
  report_mimic : list string;
  report_mimic_findings_only : list (option string);
}.

(** The body of the loop of [get_reference_reports_mimic] for the study
    ids that are left. *)
Fixpoint reference_reports_loop (fs : files) (reference_reports_mimic : mimic_reports)
    (study_ids : list string) : outcome mimic_reports :=
  match study_ids with
  | [] => mret reference_reports_mimic
  | study_id :: study_ids =>
      text ← read_text fs (study_txt_file_path path_to_test_mimic_reports_folder study_id);
      let report := readline text in
      let reference_reports_mimic :=
        {| report_mimic := report_mimic reference_reports_mimic ++ [report];
           report_mimic_findings_only :=
             report_mimic_findings_only reference_reports_mimic |} in
      let path :=
        study_txt_file_path path_to_test_mimic_reports_folder_findings_only study_id in
      findings ←
        (if bool_decide (is_Some (fs !! path)) then
           text ← read_text fs path;
           mret (Some (readline text))
         else mret None);
      reference_reports_loop fs
        {| report_mimic := report_mimic reference_reports_mimic;
           report_mimic_findings_only :=
             report_mimic_findings_only reference_reports_mimic ++ [findings] |}
        study_ids
  end.

Definition get_reference_reports_mimic (fs : files) (study_ids : list string)
    : outcome mimic_reports :=
  reference_reports_loop fs {| report_mimic := []; report_mimic_findings_only := [] |}
    study_ids.

(** ** Sentences, reports and scores *)

(** The two dictionaries of lists that [evaluate_language_model] fills. *)
Record sentence_lists := {
  generated_sentences : list string;
  generated_sentences_normal_selected_regions : list string;
  generated_sentences_abnormal_selected_regions : list string;
  reference_sentences : list string;
  reference_sentences_normal_selected_regions : list string;
  reference_sentences_abnormal_selected_regions : list string;
}.

Record report_lists := {
  generated_reports : list string;
  removed_similar_generated_sentences : list (list (string * list string));
  reference_reports : list string;
  reference_reports_mimic : list string;
  reference_reports_mimic_findings_only : list (option string);
}.

(** A score, or a dictionary of scores in the order of its keys. *)
#[warnings="-register-all"] Inductive pyval :=
  | PyFloat (x : num)
  | PyDict (items : list (string * pyval)).

(** [d[key]] for a dictionary given by its items. *)
Definition getitem {V} (items : list (string * V)) (key : string) : outcome V :=
  match list_find (λ item, item.1 = key) items with
  | Some (_, (_, v)) => Done v
  | None => Failed (KeyError key)
  end.

(** [v.items()]. *)
Definition items_of (v : pyval) : outcome (list (string * pyval)) :=
  match v with
  | PyDict items => Done items
  | PyFloat _ => Failed (AttributeError "'float' object has no attribute 'items'")
  end.

Definition scores3_items {A} (scores : scores3 A) : list (string * A) :=
  [("precision", precision scores); ("recall", recall scores); ("f1", f1 scores)].

Definition by_subset_items {A} (scores : by_subset A) : list (string * A) :=
  [("all", subset_all scores); ("normal", subset_normal scores);
   ("abnormal", subset_abnormal scores)].

Definition RUN : Z := 43.
Definition CHECKPOINT : string := "checkpoint_val_loss_23.803_overall_steps_180901".
Definition BERTSCORE_SIMILARITY_THRESHOLD : num := Finite (Q2Qc (9 # 10)).
Definition NUM_BATCHES_OF_GENERATED_SENTENCES_TO_SAVE_TO_FILE : nat := 100.
Definition NUM_BATCHES_OF_GENERATED_REPORTS_TO_SAVE_TO_FILE : nat := 100.
Definition NUM_BATCHES_TO_PROCESS_FOR_LANGUAGE_MODEL_EVALUATION : nat := 500.

Definition src_folder : string :=
  "/u/home/tanida/region-guided-chest-x-ray-report-generation/src/".
Definition final_scores_txt_file : string := os_path_join src_folder "final_scores.txt".
Definition generated_sentences_txt : string :=
  os_path_join src_folder "generated_sentences.txt".
Definition generated_abnormal_sentences_txt : string :=
  os_path_join src_folder "generated_abnormal_sentences.txt".
Definition generated_reports_txt : string :=
  os_path_join src_folder "generated_reports.txt".

(** The functions of [src.full_model.evaluate_full_model.evaluate_language_model],
    the tokenizers and the formatting of Python.  The functions called
    inside the loop of [evaluate_language_model] work on the sentences they
    are given; [compute_language_model_scores] may read and write files. *)
Class Reporting `{Stages} := {
  SentenceTokenizer : Type;
  (** [spacy.load(name)]. *)
  spacy_load : string → outcome SentenceTokenizer;
  (** [tokenizer.batch_decode(ids, skip_special_tokens=True,
      clean_up_tokenization_spaces=True)]. *)
  batch_decode : value → outcome (list string);
  get_ref_sentences_for_selected_regions :
    list (list string) → value → outcome (list string);
  get_sents_for_normal_abnormal_selected_regions :
    mask → value → list string → list string →
    outcome (list string * list string * list string * list string);
  get_generated_and_reference_reports :
    list string → list (list string) → value → SentenceTokenizer → num →
    outcome (list string * list string * list (list (string * list string)));
  compute_language_model_scores :
    sentence_lists → report_lists → io (list (string * pyval));
  (** [str(x)] for a score or a dictionary, and for a list of strings. *)
  py_str : pyval → string;
  py_str_list : list string → string;
  (** [src.dataset.constants.ANATOMICAL_REGIONS]. *)
  ANATOMICAL_REGIONS : list string;
}.

Section Reports.
Context `{Reporting}.

(** A batch of the test loader: the keys read by [get_metric_scores], and
    [batch["reference_sentences"]] and [batch["study_ids"]]. *)
Record test_batch := {
  metric_inputs : batch;
  batch_reference_sentences : list (list string);
  batch_study_ids : list string;
}.

(** *** [write_all_scores_to_file] *)

Definition write_obj_detector_scores (obj_detector_scores : obj_detector_final)
    : io unit :=
  open_a final_scores_txt_file;;
  write final_scores_txt_file
    ("avg_num_detected_regions_per_image: "
     +:+ py_str (PyFloat (avg_num_detected_regions_per_image obj_detector_scores)) +:+ nl);;
  write final_scores_txt_file
    ("avg_iou: " +:+ py_str (PyFloat (avg_iou obj_detector_scores)) +:+ nl);;
  let anatomical_regions := underscored <$> ANATOMICAL_REGIONS in
  let avg_detections_per_region := avg_detections_per_region obj_detector_scores in
  let avg_iou_per_region := avg_iou_per_region obj_detector_scores in
  for_each (zip anatomical_regions avg_detections_per_region)
    (λ '(region_, avg_detections_region),
       open_a final_scores_txt_file;;
       write final_scores_txt_file
         ("num_detected_" +:+ region_ +:+ ": "
          +:+ py_str (PyFloat avg_detections_region) +:+ nl));;
  for_each (zip anatomical_regions avg_iou_per_region)
    (λ '(region_, avg_iou_region),
       open_a final_scores_txt_file;;
       write final_scores_txt_file
         ("iou_" +:+ region_ +:+ ": " +:+ py_str (PyFloat avg_iou_region) +:+ nl)).

Definition write_region_selection_scores
    (region_selection_scores : by_subset (scores3 num)) : io unit :=
  for_each (by_subset_items region_selection_scores)
    (λ '(subset, scores),
       for_each (scores3_items scores)
         (λ '(metric, score),
            open_a final_scores_txt_file;;
            write final_scores_txt_file
              ("region_select_" +:+ subset +:+ "_" +:+ metric +:+ ": "
               +:+ py_str (PyFloat score) +:+ nl))).

Definition write_region_abnormal_scores (region_abnormal_scores : scores3 num)
    : io unit :=
  for_each (scores3_items region_abnormal_scores)
    (λ '(metric, score),
       open_a final_scores_txt_file;;
       write final_scores_txt_file
         ("region_abnormal_" +:+ metric +:+ ": " +:+ py_str (PyFloat score) +:+ nl)).

Definition metrics : list string := ["precision"; "recall"; "f1"; "acc"].

Definition write_clinical_efficacy_scores (subset : string) (ce_score_dict : pyval)
    : io unit :=
  items ← lift (items_of ce_score_dict);
  for_each items
    (λ '(k, v),
       if bool_decide (k ∈ metrics) then
         open_a final_scores_txt_file;;
         write final_scores_txt_file
           ("language_model_" +:+ subset +:+ "_CE_" +:+ k +:+ ": " +:+ py_str v +:+ nl)
       else
         let condition_name := str_join "_" (str_split (str_lower k)) in
         condition ← lift (getitem items k);
         scores ← lift (items_of condition);
         for_each scores
           (λ '(metric, score),
              open_a final_scores_txt_file;;
              write final_scores_txt_file
                ("language_model_" +:+ subset +:+ "_CE_" +:+ condition_name +:+ "_"
                 +:+ metric +:+ ": " +:+ py_str score +:+ nl))).

Definition write_language_model_scores (language_model_scores : list (string * pyval))
    : io unit :=
  for_each language_model_scores
    (λ '(subset, _),
       scores ← lift (getitem language_model_scores subset);
       items ← lift (items_of scores);
       for_each items
         (λ '(metric, score),
            open_a final_scores_txt_file;;
            if bool_decide (metric = "CE") then
              scores ← lift (getitem language_model_scores subset);
              items ← lift (items_of scores);
              ce_score_dict ← lift (getitem items "CE");
              write_clinical_efficacy_scores subset ce_score_dict
            else
              write final_scores_txt_file
                ("language_model_" +:+ subset +:+ "_" +:+ metric +:+ ": "
                 +:+ py_str score +:+ nl))).

(** The first three lines that [write_all_scores_to_file] writes. *)
Definition scores_header : string :=
  (("Run: " +:+ pretty RUN +:+ nl)
   +:+ ("Checkpoint: " +:+ CHECKPOINT +:+ nl))
  +:+ ("BertScore: " +:+ py_str (PyFloat BERTSCORE_SIMILARITY_THRESHOLD) +:+ nl).

Definition write_all_scores_to_file (obj_detector_scores : obj_detector_final)
    (region_selection_scores : by_subset (scores3 num))
    (region_abnormal_scores : scores3 num)
    (language_model_scores : list (string * pyval)) : io unit :=
  open_a final_scores_txt_file;;
  write final_scores_txt_file ("Run: " +:+ pretty RUN +:+ nl);;
  write final_scores_txt_file ("Checkpoint: " +:+ CHECKPOINT +:+ nl);;
  write final_scores_txt_file
    ("BertScore: " +:+ py_str (PyFloat BERTSCORE_SIMILARITY_THRESHOLD) +:+ nl);;
  write_obj_detector_scores obj_detector_scores;;
  write_region_selection_scores region_selection_scores;;
  write_region_abnormal_scores region_abnormal_scores;;
  write_language_model_scores language_model_scores.

(** *** [write_sentences_and_reports_to_file] *)

Definition write_sentences
    (generated_sentences generated_sentences_abnormal_regions
     reference_sentences reference_sentences_abnormal_regions : list string) : io unit :=
  let txt_file_name := generated_sentences_txt in
  let txt_file_name_abnormal := generated_abnormal_sentences_txt in
  open_w txt_file_name;;
  for_each (zip generated_sentences reference_sentences)
    (λ '(gen_sent, ref_sent),
       write txt_file_name ("Generated sentence: " +:+ gen_sent +:+ nl);;
       write txt_file_name
         ("Reference sentence: " +:+ written_reference ref_sent +:+ nl +:+ nl));;
  open_w txt_file_name_abnormal;;
  for_each (zip generated_sentences_abnormal_regions reference_sentences_abnormal_regions)
    (λ '(gen_sent, ref_sent),
       write txt_file_name_abnormal ("Generated sentence: " +:+ gen_sent +:+ nl);;
       write txt_file_name_abnormal
         ("Reference sentence: " +:+ written_reference ref_sent +:+ nl +:+ nl)).

Definition write_reports (generated_reports reference_reports
    reference_reports_mimic : list string)
    (reference_reports_mimic_findings_only : list (option string))
    (removed_similar_generated_sentences : list (list (string * list string)))
    : io unit :=
  let txt_file_name := generated_reports_txt in
  open_w txt_file_name;;
  for_each
    (zip generated_reports
       (zip reference_reports
          (zip reference_reports_mimic
             (zip reference_reports_mimic_findings_only
                removed_similar_generated_sentences))))
    (λ '(gen_report, (ref_report, (ref_report_mimic,
          (ref_report_mimic_findings_only, removed_similar_gen_sents)))),
       write txt_file_name ("Generated report: " +:+ gen_report +:+ nl +:+ nl);;
       write txt_file_name ("Reference report: " +:+ ref_report +:+ nl +:+ nl);;
       write txt_file_name ("Ref report mimic: " +:+ ref_report_mimic +:+ nl +:+ nl);;
       write txt_file_name
         ("Ref report mimic findings only: "
          +:+ default "[EMPTY]" ref_report_mimic_findings_only +:+ nl +:+ nl);;
       write txt_file_name ("Generated sentences that were removed:" +:+ nl);;
       for_each removed_similar_gen_sents
         (λ '(gen_sent, list_similar_gen_sents),
            write txt_file_name
              (tab +:+ gen_sent +:+ " == " +:+ py_str_list list_similar_gen_sents +:+ nl));;
       write txt_file_name nl;;
       write txt_file_name (str_repeat "=" 30);;
       write txt_file_name (nl +:+ nl)).

Definition write_sentences_and_reports_to_file
    (gen_and_ref_sentences : sentence_lists)
    (gen_and_ref_reports : report_lists) : io unit :=
  let n := NUM_BATCHES_OF_GENERATED_SENTENCES_TO_SAVE_TO_FILE in
  write_sentences
    (take n (generated_sentences gen_and_ref_sentences))
    (take n (generated_sentences_abnormal_selected_regions gen_and_ref_sentences))
    (take n (reference_sentences gen_and_ref_sentences))
    (take n (reference_sentences_abnormal_selected_regions gen_and_ref_sentences));;
  let n := NUM_BATCHES_OF_GENERATED_REPORTS_TO_SAVE_TO_FILE in
  write_reports
    (take n (generated_reports gen_and_ref_reports))
    (take n (reference_reports gen_and_ref_reports))
    (take n (reference_reports_mimic gen_and_ref_reports))
    (take n (reference_reports_mimic_findings_only gen_and_ref_reports))
    (take n (removed_similar_generated_sentences gen_and_ref_reports)).

(** *** [evaluate_language_model] *)

(** The message of the [ValueError] of a failed 4-way unpacking. *)
Definition unpack_error4 (got : nat) : exn :=
  Exn ValueError
    (if decide (got < 4)%nat
     then "not enough values to unpack (expected 4, got " +:+ pretty got +:+ ")"
     else "too many values to unpack (expected 4)").

(** [beam_search_output, selected_regions, _, _ = output]. *)
Definition unpack4 (output : model_output) : outcome (value * value * value * value) :=
  match output with
  | OutTuple [a; b; c; d] => Done (a, b, c, d)
  | OutTuple components => Failed (ModelError (unpack_error4 (length components)))
  | OutInt _ => Failed (ModelError (Exn TypeError "cannot unpack non-iterable int object"))
  end.

(** [v.detach().cpu().numpy()]: a tensor stays what it is, a dictionary
    has no such method. *)
Definition detach_cpu_numpy (v : value) : outcome value :=
  match v with
  | VLossDict _ | VDetections _ =>
      Failed (AttributeError "'dict' object has no attribute 'detach'")
  | _ => Done v
  end.

Definition empty_sentences : sentence_lists :=
  {| generated_sentences := [];
     generated_sentences_normal_selected_regions := [];
     generated_sentences_abnormal_selected_regions := [];
     reference_sentences := [];
     reference_sentences_normal_selected_regions := [];
     reference_sentences_abnormal_selected_regions := [] |}.

Definition empty_reports : report_lists :=
  {| generated_reports := [];
     removed_similar_generated_sentences := [];
     reference_reports := [];
     reference_reports_mimic := [];
     reference_reports_mimic_findings_only := [] |}.

(** The body of the loop of [evaluate_language_model] after the test for
    the number of batches: it reads the reports of the batch and writes no
    file. *)
Definition language_model_step (self : ReportGenerationModel)
    (sentence_tokenizer : SentenceTokenizer)
    (gen_and_ref_sentences : sentence_lists)
    (gen_and_ref_reports : report_lists) (b : test_batch) (fs : files)
    : outcome (sentence_lists * report_lists) :=
  let images := images (metric_inputs b) in
  let region_is_abnormal := region_is_abnormal (metric_inputs b) in
  let reference_sentences_of_batch := batch_reference_sentences b in
  let study_ids := batch_study_ids b in
  output ← of_result (generate self images evaluation_generation_args).2;
  '(beam_search_output, selected_regions, _, _) ← unpack4 output;
  selected_regions ← detach_cpu_numpy selected_regions;
  generated_sentences_for_selected_regions ← batch_decode beam_search_output;
  reference_sentences_for_selected_regions ←
    get_ref_sentences_for_selected_regions reference_sentences_of_batch selected_regions;
  '(gen_sents_for_normal_selected_regions, gen_sents_for_abnormal_selected_regions,
    ref_sents_for_normal_selected_regions, ref_sents_for_abnormal_selected_regions) ←
    get_sents_for_normal_abnormal_selected_regions region_is_abnormal selected_regions
      generated_sentences_for_selected_regions reference_sentences_for_selected_regions;
  '(generated_reports_of_batch, reference_reports_of_batch,
    removed_similar_generated_sentences_of_batch) ←
    get_generated_and_reference_reports generated_sentences_for_selected_regions
      reference_sentences_of_batch selected_regions sentence_tokenizer
      BERTSCORE_SIMILARITY_THRESHOLD;
  reference_reports_mimic_of_batch ← get_reference_reports_mimic fs study_ids;
  mret
    ({| generated_sentences :=
          generated_sentences gen_and_ref_sentences
          ++ generated_sentences_for_selected_regions;
        generated_sentences_normal_selected_regions :=
          generated_sentences_normal_selected_regions gen_and_ref_sentences
          ++ gen_sents_for_normal_selected_regions;
        generated_sentences_abnormal_selected_regions :=
          generated_sentences_abnormal_selected_regions gen_and_ref_sentences
          ++ gen_sents_for_abnormal_selected_regions;
        reference_sentences :=
          reference_sentences gen_and_ref_sentences
          ++ reference_sentences_for_selected_regions;
        reference_sentences_normal_selected_regions :=
          reference_sentences_normal_selected_regions gen_and_ref_sentences
          ++ ref_sents_for_normal_selected_regions;
        reference_sentences_abnormal_selected_regions :=
          reference_sentences_abnormal_selected_regions gen_and_ref_sentences
          ++ ref_sents_for_abnormal_selected_regions |},
     {| generated_reports :=
          generated_reports gen_and_ref_reports ++ generated_reports_of_batch;
        removed_similar_generated_sentences :=
          removed_similar_generated_sentences gen_and_ref_reports
          ++ removed_similar_generated_sentences_of_batch;
        reference_reports :=
          reference_reports gen_and_ref_reports ++ reference_reports_of_batch;
        reference_reports_mimic :=
          reference_reports_mimic gen_and_ref_reports
          ++ report_mimic reference_reports_mimic_of_batch;
        reference_reports_mimic_findings_only :=
          reference_reports_mimic_findings_only gen_and_ref_reports
          ++ report_mimic_findings_only reference_reports_mimic_of_batch |}).

(** The loop of [evaluate_language_model] from batch number [num_batch]
    on. *)
Fixpoint language_model_loop (self : ReportGenerationModel)
    (sentence_tokenizer : SentenceTokenizer) (num_batch : nat)
    (gen_and_ref_sentences : sentence_lists)
    (gen_and_ref_reports : report_lists) (test_loader : list test_batch)
    (fs : files) : outcome (sentence_lists * report_lists) :=
  match test_loader with
  | [] => mret (gen_and_ref_sentences, gen_and_ref_reports)
  | b :: test_loader =>
      if decide (NUM_BATCHES_TO_PROCESS_FOR_LANGUAGE_MODEL_EVALUATION ≤ num_batch)%nat
      then mret (gen_and_ref_sentences, gen_and_ref_reports)
      else
        '(gen_and_ref_sentences, gen_and_ref_reports) ←
          language_model_step self sentence_tokenizer gen_and_ref_sentences
            gen_and_ref_reports b fs;
        language_model_loop self sentence_tokenizer (S num_batch)
          gen_and_ref_sentences gen_and_ref_reports test_loader fs
  end.

Definition evaluate_language_model (self : ReportGenerationModel)
    (test_loader : list test_batch) : io (list (string * pyval)) :=
  sentence_tokenizer ← lift (spacy_load "en_core_web_trf");
  '(gen_and_ref_sentences, gen_and_ref_reports) ←
    reading (language_model_loop self sentence_tokenizer 0 empty_sentences empty_reports
               test_loader);
  write_sentences_and_reports_to_file gen_and_ref_sentences gen_and_ref_reports;;
  open_a final_scores_txt_file;;
  write final_scores_txt_file
    ("Num generated reports: "
     +:+ pretty (length (generated_reports gen_and_ref_reports)) +:+ nl);;
  write final_scores_txt_file
    ("Num reference reports findings only: "
     +:+ pretty (length (filter is_Some
                           (reference_reports_mimic_findings_only gen_and_ref_reports)))
     +:+ nl);;
  compute_language_model_scores gen_and_ref_sentences gen_and_ref_reports.

End Reports.

(** *** [evaluate_model] *)

Section EvaluateModel.
Context `{HS : Stages} {HM : Metrics} {HR : Reporting}.

Definition evaluate_model (self : ReportGenerationModel) (test_loader : list test_batch)
    : io unit :=
  '(obj_detector_scores, region_selection_scores, region_abnormal_scores) ←
    lift (of_result (get_metric_scores (call_model self) (metric_inputs <$> test_loader)));
  language_model_scores ← evaluate_language_model self test_loader;
  write_all_scores_to_file obj_detector_scores region_selection_scores
    region_abnormal_scores language_model_scores.

End EvaluateModel.

(** ** More of the concrete pipeline *)

(** A batch of two images. *)
Definition toy_pair_batch : batch (H:=toy_stages) :=
  {| images := [region_row [0; 2]%nat; region_row [1]%nat];
     image_targets := [(); ()];
     region_has_sentence := [region_row []; region_row []];
     region_is_abnormal := [region_row []; region_row []];
     input_ids := (λ r, [Z.of_nat r]) <$> seq 0 58;
     attention_mask := replicate 58 [1] |}.

(** The model of [main] on batches of one image; on larger batches it
    fails with a [RuntimeError] that is not an out-of-memory error. *)
Definition toy_flaky_model (b : batch) : result model_output :=
  if decide (length (images b) = 1%nat) then call_model (H:=toy_stages) main_model b
  else Raises (Exn RuntimeError "CUDA error: an illegal memory access was encountered").

(** A model with eight output components that fails with a [ValueError] on
    batches of more than one image. *)
Definition toy_strict_model (b : batch) : result model_output :=
  if decide (length (images b) = 1%nat) then toy_model8 b
  else Raises (Exn ValueError "Expected input batch_size (2) to match target batch_size (1).").

(** A state dict of the object detector as the checkpoint stores it, its
    entries standing for the tensors. *)
Definition toy_state_dict : gmap string nat :=
  {[ "backbone.0.weight" := 1%nat;
     "rpn.head.conv.0.0.weight" := 2%nat;
     "rpn.head.conv.0.0.bias" := 3%nat ]}.

(** A checkpoint of the full model. *)
Definition toy_checkpoint : gmap string (gmap string nat) :=
  {[ "model" := {[ "object_detector.backbone.0.weight" := 1%nat;
                   "object_detector.rpn.head.conv.0.0.weight" := 2%nat;
                   "object_detector.rpn.head.conv.0.0.bias" := 3%nat ]};
     "optimizer" := {[ "lr" := 0%nat ]} ]}.

(** Two rows of the test set; the second region of the first image has no
    phrase. *)
Definition toy_rows : list dataset_row :=
  [ {| study_id := 50414267;
       mimic_image_file_path := "files/p10/p10000032/s50414267/02aa804e.jpg";
       bbox_coordinates := [[10; 20; 110; 220]; [130; 20; 230; 220]];
       bbox_labels := [1; 2];
       bbox_phrases := ["The lungs are clear."; ""];
       bbox_phrase_exists := [true; false];
       bbox_is_abnormal := [false; false] |};
    {| study_id := 53189527;
       mimic_image_file_path := "files/p10/p10000032/s53189527/2a2277a9.jpg";
       bbox_coordinates := [[15; 25; 115; 225]];
       bbox_labels := [1];
       bbox_phrases := ["Mild cardiomegaly."];
       bbox_phrase_exists := [true];
       bbox_is_abnormal := [true] |} ].

(** Formatting, decoding and scoring for the concrete pipeline: a fraction
    is printed as such, every selected region gets the sentence of its first
    output id, all regions count as normal, and a report joins the sentences
    of a batch. *)
Definition toy_str (v : pyval) : string :=
  match v with
  | PyFloat NaN => "nan"
  | PyFloat PosInf => "inf"
  | PyFloat NegInf => "-inf"
  | PyFloat (Finite q) => pretty (Qnum q) +:+ "/" +:+ pretty (Zpos (Qden q))
  | PyDict _ => "{...}"
  end.

#[local] Instance toy_reporting : Reporting (H:=toy_stages) := {|
  SentenceTokenizer := unit;
  spacy_load _ := Done ();
  batch_decode v :=
    match v with
    | VOutputIds ids => Done ((λ row, "Region " +:+ pretty (default 0 (head row)) +:+ ".") <$> ids)
    | _ => Failed (ModelError (Exn TypeError "batch_decode needs token ids"))
    end;
  get_ref_sentences_for_selected_regions refs selected_regions :=
    match selected_regions with
    | VBoolTensor m => Done (select_rows (concat refs) (reshape_flat m))
    | _ => Failed (ModelError (Exn TypeError "selected_regions is not an array"))
    end;
  get_sents_for_normal_abnormal_selected_regions _ _ gen ref := Done (gen, [], ref, []);
  get_generated_and_reference_reports gen refs _ _ _ :=
    Done ([String.concat " " gen], [String.concat " " (concat refs)], [[]]);
  compute_language_model_scores _ _ :=
    mret [("all",
           PyDict [("bleu_1", PyFloat (Finite (Q2Qc (1 # 2))));
                   ("CE", PyDict [("f1", PyFloat (Finite (Q2Qc (1 # 4))));
                                  ("Pleural Effusion",
                                   PyDict [("f1", PyFloat (Finite (Q2Qc (1 # 3))))])])])];
  py_str := toy_str;
  py_str_list l := "[" +:+ String.concat ", " l +:+ "]";
  ANATOMICAL_REGIONS := ["right lung"; "right upper lung zone"; "right mid lung zone"];
|}.

(** A batch of the test loader with one image of the study 50414267. *)
Definition toy_test_batch (detected : list nat) : test_batch :=
  {| metric_inputs := toy_batch detected [];
     batch_reference_sentences := [replicate 29 "#"];
     batch_study_ids := ["50414267"] |}.

(** The reports of two studies; the second has no report with the findings
    only. *)
Definition toy_files : files :=
  {[ main_report_path "50414267" :=
       "The lungs are clear. No pleural effusion." +:+ nl +:+ "Dictated by";
     findings_report_path "50414267" := "The lungs are clear." +:+ nl;
     main_report_path "53189527" := "Mild cardiomegaly." ]}.

(** * Properties *)

(** ** Selecting rows and the dense grid *)

Section Lists.
Context {A : Type}.
Implicit Types (x : list A) (m : list bool).

Lemma select_rows_nil_r x : select_rows x [] = [].
Proof. by destruct x. Qed.

Lemma select_rows_app x1 x2 m1 m2 :
  length x1 = length m1 →
  select_rows (x1 ++ x2) (m1 ++ m2) = select_rows x1 m1 ++ select_rows x2 m2.
Proof.
  revert m1. induction x1 as [|a x1 IH]; intros [|b m1] Hlen; simplify_eq/=; [done|].
  destruct b; simpl; by rewrite IH.
Qed.

Lemma filter_fmap_comm {B} (f : B → nat) (P : nat → Prop) `{!∀ n, Decision (P n)} (l : list B) :
  filter P (f <$> l) = f <$> filter (λ b, P (f b)) l.
Proof.
  induction l as [|b l IH]; [done|].
  rewrite fmap_cons, !filter_cons. simpl.
  destruct (decide (P (f b))); by rewrite IH.
Qed.

Lemma select_rows_lookup x m :
  length m = length x →
  Some <$> select_rows x m =
  (λ r, x !! r) <$> filter (λ r, m !! r = Some true) (seq 0 (length m)).
Proof.
  revert x. induction m as [|b m IH]; intros [|a x] Hlen; simplify_eq/=; [done|].
  rewrite <-fmap_S_seq, filter_cons, filter_fmap_comm.
  specialize (IH x Hlen).
  assert (Htl : (λ r, (a :: x) !! r) <$>
                (S <$> filter (λ r, (b :: m) !! S r = Some true) (seq 0 (length m)))
                = Some <$> select_rows x m).
  { rewrite <-list_fmap_compose. rewrite IH. done. }
  destruct (decide ((b :: m) !! 0%nat = Some true)) as [Hb|Hb];
    destruct b; simplify_eq/=; by rewrite Htl.
Qed.

Lemma filter_fmap_pair {B} (f : B → nat * nat) (P : nat * nat → Prop)
    `{!∀ p, Decision (P p)} (l : list B) :
  filter P (f <$> l) = f <$> filter (λ b, P (f b)) l.
Proof.
  induction l as [|b l IH]; [done|].
  rewrite fmap_cons, !filter_cons. simpl.
  destruct (decide (P (f b))); by rewrite IH.
Qed.
End Lists.

Lemma dense_grid_S n r :
  dense_grid (S n) r =
  ((λ j, (0%nat, j)) <$> seq 0 r) ++ (prod_map S id <$> dense_grid n r).
Proof.
  unfold dense_grid. rewrite <-cons_seq, bind_cons. f_equal.
  rewrite <-fmap_S_seq, list_fmap_bind.
  generalize (seq 0 n) as l. induction l as [|i l IH]; [done|].
  rewrite !bind_cons, fmap_app, IH. f_equal.
  simpl. by rewrite <-list_fmap_compose.
Qed.

Lemma kept_slots_S n r keep :
  kept_slots (S n) r keep =
  ((λ j, (0%nat, j)) <$> filter (λ j, keep 0%nat j = true) (seq 0 r)) ++
  (prod_map S id <$> kept_slots n r (λ i, keep (S i))).
Proof.
  unfold kept_slots. rewrite dense_grid_S, filter_app.
  by rewrite !filter_fmap_pair.
Qed.

Lemma kept_slots_lt n r keep p :
  p ∈ kept_slots n r keep → (p.1 < n ∧ p.2 < r)%nat ∧ keep p.1 p.2 = true.
Proof.
  unfold kept_slots, dense_grid. rewrite list_elem_of_filter, list_elem_of_bind.
  intros [Hk (i & Hp & Hi)]. apply list_elem_of_fmap in Hp as (j & -> & Hj).
  apply elem_of_seq in Hi, Hj. simpl in *. split; [lia|done].
Qed.

Section Grid.
Context {A : Type}.

Lemma flat_select (M : list (list bool)) (x : list A) (r : nat) :
  Forall (λ row, length row = r) M →
  length x = (length M * r)%nat →
  Some <$> select_rows x (reshape_flat M) =
  (λ p, x !! (p.1 * r + p.2)%nat) <$> kept_slots (length M) r (mask_at M).
Proof.
  unfold reshape_flat. intros HM. revert x.
  induction HM as [|row M Hrow HM IH]; intros x Hx; simpl in *.
  { by rewrite select_rows_nil_r. }
  rewrite <-(take_drop r x) at 1. rewrite select_rows_app by (rewrite length_take; lia).
  rewrite kept_slots_S, !fmap_app. f_equal.
  - rewrite select_rows_lookup by (rewrite length_take; lia).
    rewrite <-list_fmap_compose, Hrow.
    erewrite (list_filter_iff _ (λ j, mask_at (row :: M) 0 j = true)).
    2:{ intros j. unfold mask_at. simpl. destruct (row !! j) as [[]|]; naive_solver. }
    apply list_fmap_ext. intros k j Hj. simpl.
    apply list_elem_of_lookup_2, list_elem_of_filter in Hj as [_ Hj].
    apply elem_of_seq in Hj. rewrite lookup_take_lt by lia. done.
  - rewrite IH by (rewrite length_drop; lia).
    rewrite <-list_fmap_compose. apply list_fmap_ext. intros k [i j] _. simpl.
    rewrite lookup_drop. f_equal. lia.
Qed.

Lemma dense_select (M : list (list bool)) (X : list (list A)) (r : nat) :
  same_shape2 M X →
  Forall (λ row, length row = r) M →
  Some <$> concat (zip_with select_rows X M) =
  (λ p, X !! p.1 ≫= (.!! p.2)) <$> kept_slots (length M) r (mask_at M).
Proof.
  unfold same_shape2. induction 1 as [|row xrow M X Hrow HMX IH]; intros HM; [done|].
  apply Forall_cons in HM as [Hr HM]. simpl.
  rewrite kept_slots_S, !fmap_app. f_equal.
  - rewrite select_rows_lookup by done.
    rewrite <-list_fmap_compose, Hr.
    erewrite (list_filter_iff _ (λ j, mask_at (row :: M) 0 j = true)).
    2:{ intros j. unfold mask_at. simpl. destruct (row !! j) as [[]|]; naive_solver. }
    done.
  - rewrite IH by done. by rewrite <-list_fmap_compose.
Qed.

Lemma same_shape2_of_shape2 {B} n r (M : list (list B)) (X : list (list A)) :
  shape2 n r M → shape2 n r X → same_shape2 M X.
Proof.
  intros [HnM HM] [HnX HX]. unfold same_shape2. subst n.
  revert X HnX HX. induction HM as [|row M Hrow HM IH]; intros [|xrow X] HnX HX;
    simplify_eq/=; [constructor|].
  apply Forall_cons in HX as [? ?]. constructor; [congruence|]. by apply IH.
Qed.

Lemma length_reshape_flat n r (M : list (list A)) :
  shape2 n r M → length (reshape_flat M) = (n * r)%nat.
Proof.
  intros [<- HM]. unfold reshape_flat. induction HM as [|row M Hrow HM IH]; [done|].
  simpl. rewrite length_app. lia.
Qed.
End Grid.

Lemma mask_at_logical_and a b m i j :
  torch_logical_and a b = Returns m →
  mask_at m i j = mask_at a i j && mask_at b i j.
Proof.
  unfold torch_logical_and. case_decide; [|done]. intros [= <-].
  unfold mask_at. rewrite lookup_zip_with.
  destruct (a !! i) as [ra|]; simpl; [|done].
  destruct (b !! i) as [rb|]; simpl; [|by rewrite andb_false_r].
  rewrite lookup_zip_with.
  destruct (ra !! j) as [x|]; simpl; [|done].
  destruct (rb !! j) as [y|]; simpl; [done|by rewrite andb_false_r].
Qed.

Lemma shape2_logical_and n r a b m :
  shape2 n r a → shape2 n r b → torch_logical_and a b = Returns m → shape2 n r m.
Proof.
  intros [Hna Ha] [Hnb Hb]. unfold torch_logical_and. case_decide; [|done]. intros [= <-].
  split; [rewrite length_zip_with; lia|].
  apply Forall_forall. intros row Hrow.
  apply list_elem_of_lookup in Hrow as [i Hi]. rewrite lookup_zip_with in Hi.
  destruct (a !! i) as [ra|] eqn:Hra; simplify_eq/=.
  destruct (b !! i) as [rb|] eqn:Hrb; simplify_eq/=.
  rewrite length_zip_with.
  rewrite Forall_forall in Ha, Hb.
  rewrite (Ha ra), (Hb rb) by (by eapply list_elem_of_lookup_2). lia.
Qed.

Lemma logical_and_returns n r a b :
  shape2 n r a → shape2 n r b → ∃ m, torch_logical_and a b = Returns m.
Proof.
  intros Ha Hb. unfold torch_logical_and.
  rewrite decide_True by (by eapply same_shape2_of_shape2). eauto.
Qed.

Lemma kept_slots_ext n r keep1 keep2 :
  (∀ i j, keep1 i j = keep2 i j) → kept_slots n r keep1 = kept_slots n r keep2.
Proof.
  intros Hk. unfold kept_slots. apply list_filter_iff. intros [i j]. simpl. by rewrite Hk.
Qed.

Lemma compacted_by_lookup {A} slots read (v : list A) :
  compacted_by slots read v →
  length v = length slots ∧
  ∀ k p, slots !! k = Some p → v !! k = read p ∧ is_Some (v !! k).
Proof.
  unfold compacted_by. intros Hv. split.
  - apply (f_equal length) in Hv. by rewrite !length_fmap in Hv.
  - intros k p Hp. apply (f_equal (.!! k)) in Hv.
    rewrite !list_lookup_fmap, Hp in Hv. simpl in Hv.
    destruct (v !! k) as [a|]; simplify_eq/=. split; [done|eauto].
Qed.

Lemma index_mask_spec {A} n r (x : list A) (M : list (list bool)) :
  shape2 n r M → length x = (n * r)%nat →
  ∃ v, index_mask x (reshape_flat M) = Returns v ∧
       compacted_by (kept_slots n r (mask_at M)) (flat_entry r x) v.
Proof.
  intros HM Hx. unfold index_mask.
  rewrite decide_True by (erewrite length_reshape_flat by done; lia).
  eexists; split; [done|]. destruct HM as [<- HM]. by apply flat_select.
Qed.

Lemma index_mask2_spec {A} n r (x : list (list A)) (M : list (list bool)) :
  shape2 n r M → shape2 n r x →
  ∃ v, index_mask2 x M = Returns v ∧
       compacted_by (kept_slots n r (mask_at M)) (dense_entry x) v.
Proof.
  intros HM Hx. unfold index_mask2.
  rewrite decide_True by (by eapply same_shape2_of_shape2).
  eexists; split; [done|]. pose proof (same_shape2_of_shape2 _ _ _ _ HM Hx).
  destruct HM as [<- HM]. by apply dense_select.
Qed.

Lemma kept_slots_nil_iff n r keep :
  kept_slots n r keep = [] ↔ ∀ i j, (i < n)%nat → (j < r)%nat → keep i j = false.
Proof.
  split.
  - intros Hnil i j Hi Hj. destruct (keep i j) eqn:Hk; [|done].
    assert ((i, j) ∈ kept_slots n r keep) as Hin; [|rewrite Hnil in Hin; by apply elem_of_nil in Hin].
    unfold kept_slots, dense_grid. apply list_elem_of_filter. split; [done|].
    apply list_elem_of_bind. exists i. split; [|apply elem_of_seq; lia].
    apply list_elem_of_fmap. exists j. split; [done|apply elem_of_seq; lia].
  - intros Hall. destruct (kept_slots n r keep) as [|p l] eqn:Hl; [done|].
    assert (p ∈ kept_slots n r keep) as Hin by (rewrite Hl; left).
    apply kept_slots_lt in Hin as [[? ?] Hk]. rewrite Hall in Hk by done. done.
Qed.

(** ** The pipeline *)

Lemma silent_returns_bind {E A B} (a : A) (f : A → traced E B) :
  silent (Returns a) ≫= f = f a.
Proof. unfold silent, mbind, traced_bind. by destruct (f a). Qed.

Lemma silent_raises_bind {E A B} (e : exn) (f : A → traced E B) :
  silent (Raises e) ≫= f = ([], Raises e).
Proof. done. Qed.

Lemma recorded_bind_trace {E A B} (ev : E) (m : result A) (f : A → B) :
  (recorded ev m ≫= λ a, mret (f a) : traced E B).1 = [ev].
Proof. by destruct m. Qed.

Lemma recorded_bind_result {E A B} (ev : E) (m : result A) (f : A → B) :
  (recorded ev m ≫= λ a, mret (f a) : traced E B).2 = m ≫= λ a, Returns (f a).
Proof. by destruct m. Qed.

Section PipelineProperties.
Context `{Metrics}.

Lemma training_input_spec n r (cd rhs : mask) (ids : list Ids) (am : list Att)
    (feats : list (list Feature)) :
  shape2 n r cd → shape2 n r rhs → shape2 n r feats →
  length ids = (n * r)%nat → length am = (n * r)%nat →
  ∃ valid v_ids v_am v_feats,
    torch_logical_and cd rhs = Returns valid ∧
    get_valid_decoder_input_for_training cd rhs ids am feats
      = Returns (v_ids, v_am, v_feats) ∧
    let slots := kept_slots n r (λ i j, mask_at cd i j && mask_at rhs i j) in
    compacted_by slots (flat_entry r ids) v_ids ∧
    compacted_by slots (flat_entry r am) v_am ∧
    compacted_by slots (dense_entry feats) v_feats.
Proof.
  intros Hcd Hrhs Hfeats Hids Ham.
  destruct (logical_and_returns _ _ _ _ Hcd Hrhs) as [valid Hvalid].
  pose proof (shape2_logical_and _ _ _ _ _ Hcd Hrhs Hvalid) as Hshape.
  destruct (index_mask_spec n r ids valid Hshape Hids) as (v_ids & Hi & Hci).
  destruct (index_mask_spec n r am valid Hshape Ham) as (v_am & Ha & Hca).
  destruct (index_mask2_spec n r feats valid Hshape Hfeats) as (v_f & Hf & Hcf).
  exists valid, v_ids, v_am, v_f. split; [done|]. split.
  { unfold get_valid_decoder_input_for_training. rewrite Hvalid. simpl.
    rewrite Hi. simpl. rewrite Ha. simpl. rewrite Hf. done. }
  simpl.
  rewrite (kept_slots_ext n r _ (mask_at valid))
    by (intros; symmetry; by apply mask_at_logical_and).
  done.
Qed.

Lemma evaluation_input_spec n r (sel : mask) (ids : list Ids) (am : list Att) :
  shape2 n r sel → length ids = (n * r)%nat → length am = (n * r)%nat →
  ∃ v_ids v_am,
    get_valid_decoder_input_for_evaluation sel ids am = Returns (v_ids, v_am) ∧
    compacted_by (kept_slots n r (mask_at sel)) (flat_entry r ids) v_ids ∧
    compacted_by (kept_slots n r (mask_at sel)) (flat_entry r am) v_am.
Proof.
  intros Hsel Hids Ham.
  destruct (index_mask_spec n r ids sel Hsel Hids) as (v_ids & Hi & Hci).
  destruct (index_mask_spec n r am sel Hsel Ham) as (v_am & Ha & Hca).
  exists v_ids, v_am. split; [|done].
  unfold get_valid_decoder_input_for_evaluation. simpl. rewrite Hi. simpl. by rewrite Ha.
Qed.

Lemma compacted_by_nil {A} slots read (v : list A) :
  compacted_by slots read v → (length v = 0%nat ↔ slots = []).
Proof.
  intros [Hlen _]%compacted_by_lookup. rewrite Hlen. by destruct slots.
Qed.

(** C1 (as amended).  In training mode, on a dense batch of [n] images with
    [r] regions each for which the detector and the selector return, when no
    slot is both detected and marked as having a ground-truth sentence,
    [forward] never calls the language model, and
      - a model built with [pretrain_without_lm_model=False] returns the
        EmptySelection sentinel [-1], which differs from every tuple;
      - a model built with [pretrain_without_lm_model=True] returns the pair
        of the detector and selector losses, as it does on every batch. *)
Theorem empty_subset_short_circuit
    (self : ReportGenerationModel) images image_targets (input_ids : list Ids)
    (attention_mask : list Att) (region_has_sentence region_is_abnormal : mask)
    return_loss past_key_values position_ids use_cache
    obj_detector_loss_dict top_region_features class_detected loss n r :
  training self = true →
  object_detector_train images image_targets
    = Returns (obj_detector_loss_dict, top_region_features, class_detected) →
  classifier_loss top_region_features class_detected region_has_sentence = Returns loss →
  shape2 n r class_detected → shape2 n r region_has_sentence →
  shape2 n r top_region_features →
  length input_ids = (n * r)%nat → length attention_mask = (n * r)%nat →
  (∀ i j, (i < n)%nat → (j < r)%nat →
          mask_at class_detected i j && mask_at region_has_sentence i j = false) →
  forward self images image_targets input_ids attention_mask
    region_has_sentence region_is_abnormal
    return_loss past_key_values position_ids use_cache
  = ([], Returns (if pretrain_without_lm_model self
                  then OutTuple [VLossDict obj_detector_loss_dict; VLoss loss]
                  else EmptySelection)) ∧
  ∀ components, EmptySelection ≠ OutTuple components.
Proof.
  intros Htr Hdet Hloss Hcd Hrhs Hfeats Hids Ham Hnone.
  split; [|done].
  destruct (training_input_spec n r _ _ input_ids attention_mask _ Hcd Hrhs Hfeats Hids Ham)
    as (valid & v_ids & v_am & v_f & _ & Hget & Hci & _ & _).
  unfold forward. rewrite Htr, Hdet, silent_returns_bind.
  unfold binary_classifier_region_selection_train. rewrite Hloss, silent_returns_bind.
  destruct (pretrain_without_lm_model self); [done|].
  rewrite Hget, silent_returns_bind.
  unfold decode_or_return_early. rewrite decide_True; [done|].
  eapply compacted_by_nil; [done|]. apply kept_slots_nil_iff. auto.
Qed.

Lemma shape2_zip_with {A B C} (f : A → B → C) n r (a : list (list A)) (b : list (list B)) :
  shape2 n r a → shape2 n r b → shape2 n r (zip_with (zip_with f) a b).
Proof.
  intros [Hna Ha] [Hnb Hb]. split; [rewrite length_zip_with; lia|].
  apply Forall_forall. intros row Hrow.
  apply list_elem_of_lookup in Hrow as [i Hi]. rewrite lookup_zip_with in Hi.
  destruct (a !! i) as [ra|] eqn:Hra; simplify_eq/=.
  destruct (b !! i) as [rb|] eqn:Hrb; simplify_eq/=.
  rewrite length_zip_with.
  rewrite Forall_forall in Ha. rewrite Forall_forall in Hb.
  rewrite (Ha ra), (Hb rb) by (by eapply list_elem_of_lookup_2). lia.
Qed.

Lemma select_regions_detected (feats : list (list Feature)) (cd sel : mask) vf :
  select_regions feats cd = Returns (sel, vf) →
  ∀ i j, mask_at sel i j = true → mask_at cd i j = true.
Proof.
  unfold select_regions. case_decide; [|done].
  destruct (index_mask2 _ _) as [vf'|]; [|done]. intros [= <- <-] i j.
  unfold mask_at. rewrite lookup_zip_with.
  destruct (feats !! i) as [rf|]; simpl; [|done].
  destruct (cd !! i) as [rc|]; simpl; [|done].
  rewrite lookup_zip_with.
  destruct (rf !! j) as [x|]; simpl; [|done].
  destruct (rc !! j) as [y|]; simpl; [|done].
  by intros [_ ?]%andb_true_iff.
Qed.

Lemma select_regions_spec n r (feats : list (list Feature)) (cd : mask) :
  shape2 n r cd → shape2 n r feats →
  ∃ sel vf,
    select_regions feats cd = Returns (sel, vf) ∧
    shape2 n r sel ∧
    compacted_by (kept_slots n r (mask_at sel)) (dense_entry feats) vf.
Proof.
  intros Hcd Hfeats. unfold select_regions.
  rewrite decide_True by (by eapply same_shape2_of_shape2).
  pose proof (shape2_zip_with (λ f d, classifier_selects f && d) n r feats cd Hfeats Hcd)
    as Hsel.
  destruct (index_mask2_spec n r feats _ Hsel Hfeats) as (vf & Hvf & Hc).
  rewrite Hvf. simpl. eauto.
Qed.

(** C2.  For every [n x r] boolean mask [M] (r = 29 in the source) and every
    dense batch, indexing the flattened token sequences by [M.reshape(-1)]
    and the dense feature tensor by the 2-D mask [M] succeed and keep
    exactly the true positions of [M] in row-major order: the three
    compacted sequences have the length of that list of positions, and at
    every position [k] they hold the entries of the same slot
    [(i_k, r_k)] (flattened row [i_k * r + r_k], dense entry [i_k][r_k]).
    This is what [get_valid_decoder_input_for_training] returns when [M] is
    its mask [valid], and what [get_valid_decoder_input_for_evaluation]
    returns for the token sequences. *)
Theorem compaction_alignment n r (M : mask) (input_ids : list Ids)
    (attention_mask : list Att) (region_features : list (list Feature)) :
  shape2 n r M →
  length input_ids = (n * r)%nat →
  length attention_mask = (n * r)%nat →
  shape2 n r region_features →
  ∃ valid_input_ids valid_attention_mask valid_region_features,
    (∀ class_detected region_has_sentence,
       torch_logical_and class_detected region_has_sentence = Returns M →
       get_valid_decoder_input_for_training class_detected region_has_sentence
         input_ids attention_mask region_features
       = Returns (valid_input_ids, valid_attention_mask, valid_region_features)) ∧
    get_valid_decoder_input_for_evaluation M input_ids attention_mask
      = Returns (valid_input_ids, valid_attention_mask) ∧
    index_mask2 region_features M = Returns valid_region_features ∧
    let slots := kept_slots n r (mask_at M) in
    length valid_input_ids = length slots ∧
    length valid_attention_mask = length slots ∧
    length valid_region_features = length slots ∧
    ∀ k i j, slots !! k = Some (i, j) →
      mask_at M i j = true ∧
      is_Some (valid_input_ids !! k) ∧
      valid_input_ids !! k = input_ids !! (i * r + j)%nat ∧
      valid_attention_mask !! k = attention_mask !! (i * r + j)%nat ∧
      valid_region_features !! k = region_features !! i ≫= (.!! j).
Proof.
  intros HM Hids Ham Hfeats.
  destruct (index_mask_spec n r input_ids M HM Hids) as (v_ids & Hi & Hci).
  destruct (index_mask_spec n r attention_mask M HM Ham) as (v_am & Ha & Hca).
  destruct (index_mask2_spec n r region_features M HM Hfeats) as (v_f & Hf & Hcf).
  exists v_ids, v_am, v_f. split; [|split; [|split; [done|]]].
  - intros cd rhs Hand. unfold get_valid_decoder_input_for_training.
    rewrite Hand. simpl. rewrite Hi. simpl. rewrite Ha. simpl. by rewrite Hf.
  - unfold get_valid_decoder_input_for_evaluation. simpl.
    rewrite Hi. simpl. by rewrite Ha.
  - simpl.
    apply compacted_by_lookup in Hci as [Hli Hki].
    apply compacted_by_lookup in Hca as [Hla Hka].
    apply compacted_by_lookup in Hcf as [Hlf Hkf].
    repeat split; try done.
    + apply list_elem_of_lookup_2, kept_slots_lt in H1. by destruct H1.
    + by destruct (Hki _ _ H1).
    + by destruct (Hki _ _ H1).
    + by destruct (Hka _ _ H1).
    + by destruct (Hkf _ _ H1).
Qed.

(** C3.  In training mode the language model is called at most once, and
    its three inputs are the compactions of [input_ids], [attention_mask]
    and the region features along the slots where the detected mask and the
    has-sentence mask are both true, and along no other condition (the
    selector contributes its loss only).  With the language model enabled
    and at least one such slot, the call takes place. *)
Theorem training_mask_is_logical_and
    (self : ReportGenerationModel) images image_targets (input_ids : list Ids)
    (attention_mask : list Att) (region_has_sentence region_is_abnormal : mask)
    return_loss past_key_values position_ids use_cache
    obj_detector_loss_dict top_region_features class_detected loss n r :
  training self = true →
  object_detector_train images image_targets
    = Returns (obj_detector_loss_dict, top_region_features, class_detected) →
  classifier_loss top_region_features class_detected region_has_sentence = Returns loss →
  shape2 n r class_detected → shape2 n r region_has_sentence →
  shape2 n r top_region_features →
  length input_ids = (n * r)%nat → length attention_mask = (n * r)%nat →
  let slots :=
    kept_slots n r (λ i j, mask_at class_detected i j && mask_at region_has_sentence i j) in
  let trace :=
    (forward self images image_targets input_ids attention_mask
       region_has_sentence region_is_abnormal
       return_loss past_key_values position_ids use_cache).1 in
  ∃ valid_input_ids valid_attention_mask valid_region_features,
    compacted_by slots (flat_entry r input_ids) valid_input_ids ∧
    compacted_by slots (flat_entry r attention_mask) valid_attention_mask ∧
    compacted_by slots (dense_entry top_region_features) valid_region_features ∧
    (trace = [] ∨
     trace = [LMForward valid_input_ids valid_attention_mask valid_region_features]) ∧
    (pretrain_without_lm_model self = false → slots ≠ [] →
     trace = [LMForward valid_input_ids valid_attention_mask valid_region_features]).
Proof.
  intros Htr Hdet Hloss Hcd Hrhs Hfeats Hids Ham slots trace.
  destruct (training_input_spec n r _ _ input_ids attention_mask _ Hcd Hrhs Hfeats Hids Ham)
    as (valid & v_ids & v_am & v_f & _ & Hget & Hci & Hca & Hcf).
  exists v_ids, v_am, v_f. do 3 (split; [done|]).
  subst trace. unfold forward. rewrite Htr, Hdet, silent_returns_bind.
  unfold binary_classifier_region_selection_train. rewrite Hloss, silent_returns_bind.
  destruct (pretrain_without_lm_model self).
  { split; [by left|done]. }
  rewrite Hget, silent_returns_bind. unfold decode_or_return_early.
  destruct (decide (length v_ids = 0%nat)) as [Hz|Hnz].
  - split; [by left|]. intros _ Hne. by apply (compacted_by_nil _ _ _ Hci) in Hz.
  - rewrite recorded_bind_trace. split; [by right|done].
Qed.

(** C4.  In evaluation mode the language model is called at most once, and
    its inputs are the compactions of [input_ids], [attention_mask] and the
    region features along the slots where the selector's [selected_regions]
    is true; the ground-truth has-sentence mask only feeds the selector
    loss.  With the language model enabled and at least one selected slot,
    the call takes place. *)
Theorem evaluation_uses_selected_mask
    (self : ReportGenerationModel) images image_targets (input_ids : list Ids)
    (attention_mask : list Att) (region_has_sentence region_is_abnormal : mask)
    return_loss past_key_values position_ids use_cache
    obj_detector_loss_dict detections top_region_features class_detected loss n r :
  training self = false →
  object_detector_eval images (Some image_targets)
    = Returns (obj_detector_loss_dict, detections, top_region_features, class_detected) →
  classifier_loss top_region_features class_detected region_has_sentence = Returns loss →
  shape2 n r class_detected → shape2 n r top_region_features →
  length input_ids = (n * r)%nat → length attention_mask = (n * r)%nat →
  let trace :=
    (forward self images image_targets input_ids attention_mask
       region_has_sentence region_is_abnormal
       return_loss past_key_values position_ids use_cache).1 in
  ∃ selected_regions valid_input_ids valid_attention_mask valid_region_features,
    binary_classifier_region_selection_eval
      top_region_features class_detected region_has_sentence
    = Returns (loss, selected_regions, valid_region_features) ∧
    let slots := kept_slots n r (mask_at selected_regions) in
    compacted_by slots (flat_entry r input_ids) valid_input_ids ∧
    compacted_by slots (flat_entry r attention_mask) valid_attention_mask ∧
    compacted_by slots (dense_entry top_region_features) valid_region_features ∧
    (trace = [] ∨
     trace = [LMForward valid_input_ids valid_attention_mask valid_region_features]) ∧
    (pretrain_without_lm_model self = false → slots ≠ [] →
     trace = [LMForward valid_input_ids valid_attention_mask valid_region_features]).
Proof.
  intros Htr Hdet Hloss Hcd Hfeats Hids Ham trace.
  destruct (select_regions_spec n r _ _ Hcd Hfeats) as (sel & v_f & Hsel & Hshape & Hcf).
  destruct (evaluation_input_spec n r sel input_ids attention_mask Hshape Hids Ham)
    as (v_ids & v_am & Hget & Hci & Hca).
  assert (binary_classifier_region_selection_eval
            top_region_features class_detected region_has_sentence
          = Returns (loss, sel, v_f)) as Hbc.
  { unfold binary_classifier_region_selection_eval. rewrite Hloss. simpl. by rewrite Hsel. }
  exists sel, v_ids, v_am, v_f. split; [done|]. simpl. do 3 (split; [done|]).
  subst trace. unfold forward. rewrite Htr, Hdet, silent_returns_bind.
  rewrite Hbc, silent_returns_bind.
  destruct (pretrain_without_lm_model self).
  { split; [by left|done]. }
  rewrite Hget, silent_returns_bind. unfold decode_or_return_early.
  destruct (decide (length v_ids = 0%nat)) as [Hz|Hnz].
  - split; [by left|]. intros _ Hne. by apply (compacted_by_nil _ _ _ Hci) in Hz.
  - rewrite recorded_bind_trace. split; [by right|done].
Qed.

(** C8.  Whenever [forward] in evaluation mode, or [generate], returns a
    tuple, the tuple carries the detected mask of the object detector and
    the selected mask, and every slot that is selected is detected.  The
    implication comes from the selector, whose body is modelled from the
    specification. *)
Theorem selected_implies_detected :
  (∀ (self : ReportGenerationModel) images image_targets (input_ids : list Ids)
     (attention_mask : list Att) (region_has_sentence region_is_abnormal : mask)
     return_loss past_key_values position_ids use_cache components,
     training self = false →
     (forward self images image_targets input_ids attention_mask
        region_has_sentence region_is_abnormal
        return_loss past_key_values position_ids use_cache).2
     = Returns (OutTuple components) →
     ∃ loss_dict detections features class_detected selected_regions others,
       object_detector_eval images (Some image_targets)
         = Returns (loss_dict, detections, features, class_detected) ∧
       components = others ++ [VBoolTensor class_detected; VBoolTensor selected_regions] ∧
       ∀ i r, mask_at selected_regions i r = true → mask_at class_detected i r = true) ∧
  (∀ (self : ReportGenerationModel) images args components,
     (generate self images args).2 = Returns (OutTuple components) →
     ∃ loss_dict detections features class_detected selected_regions output_ids,
       object_detector_eval images None
         = Returns (loss_dict, detections, features, class_detected) ∧
       components = [VOutputIds output_ids; VBoolTensor selected_regions;
                     VDetections detections; VBoolTensor class_detected] ∧
       ∀ i r, mask_at selected_regions i r = true → mask_at class_detected i r = true).
Proof.
  split.
  - intros self images targets ids am rhs ria rl pkv pos uc comps Htr.
    unfold forward. rewrite Htr.
    destruct (object_detector_eval images (Some targets)) as [[[[ld det] feats] cd]|e]
      eqn:Hdet; [|done].
    rewrite silent_returns_bind.
    destruct (binary_classifier_region_selection_eval feats cd rhs)
      as [[[loss sel] vf]|e] eqn:Hbc; [|done].
    rewrite silent_returns_bind.
    assert (select_regions feats cd = Returns (sel, vf)) as Hsel.
    { unfold binary_classifier_region_selection_eval in Hbc.
      destruct (classifier_loss feats cd rhs); [|done]. simpl in Hbc.
      destruct (select_regions feats cd) as [[??]|]; [|done].
      cbv in Hbc. by simplify_eq. }
    pose proof (select_regions_detected _ _ _ _ Hsel) as Himp.
    destruct (pretrain_without_lm_model self).
    + intros [= <-]. exists ld, det, feats, cd, sel.
      by exists [VLossDict ld; VLoss loss; VDetections det].
    + destruct (get_valid_decoder_input_for_evaluation sel ids am) as [[v_ids v_am]|e];
        [|done].
      rewrite silent_returns_bind. unfold decode_or_return_early.
      case_decide; [done|]. rewrite recorded_bind_result.
      destruct (language_model _ _ _ _ _ _ _) as [lm_loss|e]; [|done].
      intros [= <-]. exists ld, det, feats, cd, sel.
      by exists [VLossDict ld; VLoss loss; VLoss lm_loss; VDetections det].
  - intros self images args comps. unfold generate.
    destruct (object_detector_eval images None) as [[[[ld det] feats] cd]|e]
      eqn:Hdet; [|done].
    rewrite silent_returns_bind. unfold binary_classifier_region_selection_infer.
    destruct (select_regions feats cd) as [[sel vf]|e] eqn:Hsel; [|done].
    rewrite silent_returns_bind.
    pose proof (select_regions_detected _ _ _ _ Hsel) as Himp.
    case_decide; [done|]. rewrite recorded_bind_result.
    destruct (language_model_generate _ _) as [o|e]; [|done].
    intros [= <-]. by exists ld, det, feats, cd, sel, o.
Qed.
End PipelineProperties.

(** ** The evaluation loop *)

Lemma num_div_zero (x : num) :
  (is_nan (num_div x num_zero) || is_inf (num_div x num_zero) = true)%bool ∧
  (x = num_zero → num_div x num_zero = NaN).
Proof.
  split.
  - destruct x as [a| | |]; try done.
    unfold num_zero. cbn [num_div].
    rewrite bool_decide_eq_true_2 by done.
    destruct (bool_decide (a = 0%Qc)); [done|]. by destruct (bool_decide (0 < a)%Qc).
  - intros ->. unfold num_zero. cbn [num_div]. by rewrite bool_decide_eq_true_2.
Qed.

Lemma bind_Returns {A B} (m : result A) (f : A → result B) (b : B) :
  m ≫= f = Returns b → ∃ a, m = Returns a ∧ f a = Returns b.
Proof. destruct m as [a|e]; [|done]. intros Hf. by exists a. Qed.

Section EvaluationProperties.
Context `{Metrics}.
Implicit Types (model : batch → result model_output) (st : loop_state) (b : batch).

Lemma run_batches_app model st l1 l2 :
  run_batches model st (l1 ++ l2) =
  run_batches model st l1 ≫= λ st', run_batches model st' l2.
Proof.
  revert st. induction l1 as [|b l1 IH]; intros st; [done|].
  simpl. destruct (loop_body model st b) as [st'|e]; [|done]. simpl. apply IH.
Qed.

Lemma loop_body_oom model st b st' :
  loop_body model st b = Returns st' → oom st' = false.
Proof.
  unfold loop_body.
  destruct (model b) as [out|e]; simpl.
  2:{ destruct (is_RuntimeError e); [|done].
      destruct (str_contains _ _); [done|]. simpl.
      destruct (oom st) eqn:Hoom; [by intros [= <-]|].
      destruct (output st) as [out|]; [|done].
      destruct (is_minus_one out); [by intros [= <-]|].
      destruct out as [z|comps]; [done|].
      do 8 (destruct comps as [|? comps]; try done).
      destruct comps; [|done].
      destruct (update_object_detector_metrics _ _ _ _); [|done]. simpl.
      destruct (update_region_selection_metrics _ _ _ _); [|done]. simpl.
      destruct (update_region_abnormal_metrics _ _ _ _); [|done]. simpl.
      by intros [= <-]. }
  destruct (oom st) eqn:Hoom; [by intros [= <-]|].
  destruct (is_minus_one out); [by intros [= <-]|].
  destruct out as [z|comps]; [done|].
  do 8 (destruct comps as [|? comps]; try done).
  destruct comps; [|done].
  destruct (update_object_detector_metrics _ _ _ _); [|done]. simpl.
  destruct (update_region_selection_metrics _ _ _ _); [|done]. simpl.
  destruct (update_region_abnormal_metrics _ _ _ _); [|done]. simpl.
  by intros [= <-].
Qed.

Lemma run_batches_oom model st l st' :
  oom st = false → run_batches model st l = Returns st' → oom st' = false.
Proof.
  revert st. induction l as [|b l IH]; intros st Hst; simpl; [by intros [= <-]|].
  destruct (loop_body model st b) as [st1|e] eqn:Hb; [|done]. simpl.
  apply IH. by eapply loop_body_oom.
Qed.

(** C5 (what the code does).  When the model raises a [RuntimeError] whose
    message contains "out of memory" on a batch, the handler raises it
    again: the loop body, and with it [get_metric_scores], ends with that
    error instead of skipping the batch. *)
Theorem out_of_memory_is_raised model prefix b rest st e :
  run_batches model initial_state prefix = Returns st →
  model b = Raises e →
  is_RuntimeError e = true →
  str_contains "out of memory" (exn_msg e) = true →
  loop_body model st b = Raises e ∧
  get_metric_scores model (prefix ++ b :: rest) = Raises e.
Proof.
  intros Hrun Hb Hrt Hmsg.
  assert (loop_body model st b = Raises e) as Hbody.
  { unfold loop_body. by rewrite Hb, Hrt, Hmsg. }
  split; [done|].
  unfold get_metric_scores. rewrite run_batches_app, Hrun. simpl. by rewrite Hbody.
Qed.

(** C10.  On a batch for which the model returns the sentinel [-1], the loop
    body goes on to the next batch with every accumulator unchanged and the
    image count back at its previous value (the batch size is added and
    subtracted again), so that finalization yields what it would have
    yielded before the batch. *)
Theorem sentinel_batch_is_skipped model st b :
  model b = Returns EmptySelection →
  ∃ st',
    loop_body model st b = Returns st' ∧
    obj_detector_scores st' = obj_detector_scores st ∧
    region_selection_scores st' = region_selection_scores st ∧
    region_abnormal_scores st' = region_abnormal_scores st ∧
    num_images st' = num_images st + Z.of_nat (length (images b))
                     - Z.of_nat (length (images b)) ∧
    num_images st' = num_images st ∧
    finalize st' = finalize st.
Proof.
  intros Hb. unfold loop_body. rewrite Hb. simpl.
  destruct (oom st); eexists; (split; [done|]); simpl;
    (repeat split; try done; try lia);
    unfold finalize; simpl;
    by replace (num_images st + Z.of_nat (length (images b))
                - Z.of_nat (length (images b))) with (num_images st) by lia.
Qed.

Lemma get_metric_scores_returns model test_loader obj sel abn :
  get_metric_scores model test_loader = Returns (obj, sel, abn) →
  ∃ st,
    run_batches model initial_state test_loader = Returns st ∧
    final_sums obj = obj_detector_scores st ∧
    avg_iou obj =
      num_div (torch_sum (sum_intersection_area_per_region (obj_detector_scores st)))
              (torch_sum (sum_union_area_per_region (obj_detector_scores st))) ∧
    tensor_div (sum_intersection_area_per_region (obj_detector_scores st))
               (sum_union_area_per_region (obj_detector_scores st))
      = Returns (avg_iou_per_region obj) ∧
    avg_num_detected_regions_per_image obj =
      torch_sum (tensor_div_scalar (sum_region_detected (obj_detector_scores st))
                   (num_images st)) ∧
    avg_detections_per_region obj =
      tensor_div_scalar (sum_region_detected (obj_detector_scores st)) (num_images st).
Proof.
  unfold get_metric_scores.
  intros (st & Hrun & Hfin)%bind_Returns. exists st. split; [done|].
  unfold finalize in Hfin.
  apply bind_Returns in Hfin as (per_region & Hper & Hfin).
  do 4 (apply bind_Returns in Hfin as (? & _ & Hfin)).
  injection Hfin as <- <- <-. by rewrite Hper.
Qed.

(** C6 (as amended).  At finalization, the IoU reported for a region whose
    accumulated union is zero is the plain quotient [intersection[r] / 0]:
    NaN when the intersection is zero as well, NaN or an infinity in any
    case; no separate marker is produced. *)
Theorem zero_union_gives_nan_or_inf model test_loader obj sel abn r :
  get_metric_scores model test_loader = Returns (obj, sel, abn) →
  sum_union_area_per_region (final_sums obj) !! r = Some num_zero →
  ∃ i x,
    sum_intersection_area_per_region (final_sums obj) !! r = Some i ∧
    avg_iou_per_region obj !! r = Some x ∧
    x = num_div i num_zero ∧
    (is_nan x || is_inf x = true)%bool ∧
    (i = num_zero → x = NaN).
Proof.
  intros (st & Hrun & Hsums & _ & Hper & _)%get_metric_scores_returns Hu.
  rewrite Hsums in *. unfold tensor_div in Hper. case_decide as Hlen; [|done].
  injection Hper as <-.
  destruct (sum_intersection_area_per_region (obj_detector_scores st) !! r) as [i|] eqn:Hi.
  2:{ apply lookup_ge_None in Hi. apply lookup_lt_Some in Hu. lia. }
  exists i, (num_div i num_zero). rewrite lookup_zip_with, Hi, Hu. simpl.
  split; [done|]. split; [done|]. split; [done|]. apply num_div_zero.
Qed.

Lemma forward_eval_output (self : ReportGenerationModel) images image_targets
    (input_ids : list Ids) (attention_mask : list Att)
    (region_has_sentence region_is_abnormal : mask)
    return_loss past_key_values position_ids use_cache out :
  training self = false →
  pretrain_without_lm_model self = false →
  (forward self images image_targets input_ids attention_mask
     region_has_sentence region_is_abnormal
     return_loss past_key_values position_ids use_cache).2 = Returns out →
  out = EmptySelection ∨
  ∃ ld l1 l2 det cd sel,
    out = OutTuple [VLossDict ld; VLoss l1; VLoss l2; VDetections det;
                    VBoolTensor cd; VBoolTensor sel].
Proof.
  intros Htr Hpre. unfold forward. rewrite Htr, Hpre.
  destruct (object_detector_eval _ _) as [[[[ld det] feats] cd]|e]; [|done].
  rewrite silent_returns_bind.
  destruct (binary_classifier_region_selection_eval _ _ _) as [[[loss sel] vf]|e]; [|done].
  rewrite silent_returns_bind.
  destruct (get_valid_decoder_input_for_evaluation _ _ _) as [[v_ids v_am]|e]; [|done].
  rewrite silent_returns_bind. unfold decode_or_return_early.
  case_decide.
  - intros [= <-]. by left.
  - rewrite recorded_bind_result.
    destruct (language_model _ _ _ _ _ _ _) as [lm_loss|e]; [|done].
    intros [= <-]. right. by exists ld, loss, lm_loss, det, cd, sel.
Qed.

(** C9.  For the model of [main], every output of [forward] other than the
    sentinel is a tuple of exactly six components (detector losses,
    selector loss, language-model loss, detections, detected mask, selected
    mask); the loop unpacks eight, so on every such batch the loop body,
    and with it [get_metric_scores], ends with a [ValueError]. *)
Theorem unpacking_fails_on_normal_output (b : batch) out :
  call_model main_model b = Returns out →
  out ≠ EmptySelection →
  (∃ ld l1 l2 det cd sel,
     out = OutTuple [VLossDict ld; VLoss l1; VLoss l2; VDetections det;
                     VBoolTensor cd; VBoolTensor sel]) ∧
  exn_cls (unpack_error 6) = ValueError ∧
  ∀ prefix st rest,
    run_batches (call_model main_model) initial_state prefix = Returns st →
    loop_body (call_model main_model) st b = Raises (unpack_error 6) ∧
    get_metric_scores (call_model main_model) (prefix ++ b :: rest)
      = Raises (unpack_error 6).
Proof.
  intros Hout Hne.
  destruct (forward_eval_output main_model (images b) (image_targets b) (input_ids b)
            (attention_mask b) (region_has_sentence b) (region_is_abnormal b)
            true None None false out eq_refl eq_refl Hout)
    as [->|(ld & l1 & l2 & det & cd & sel & ->)]; [done|].
  split; [by exists ld, l1, l2, det, cd, sel|]. split; [done|].
  intros prefix st rest Hrun.
  assert (loop_body (call_model main_model) st b = Raises (unpack_error 6)) as Hbody.
  { unfold loop_body. rewrite Hout. simpl.
    by rewrite (run_batches_oom _ initial_state _ _ eq_refl Hrun). }
  split; [done|].
  unfold get_metric_scores. rewrite run_batches_app, Hrun. simpl. by rewrite Hbody.
Qed.
End EvaluationProperties.

(** * The properties on the concrete pipeline *)

(** Closing a goal on concrete data by evaluation. *)
Ltac by_evaluation := vm_compute; first [reflexivity | exact I | done].
Ltac shape_holds := apply (bool_decide_unpack _); vm_compute; exact I.

(** Regions 0 and 1 are detected, regions 2 and 3 have a sentence: the
    training pass returns the sentinel without a call of the language model. *)
Lemma empty_subset_short_circuit_witness :
  forward_on toy_training_model (toy_batch [0; 1]%nat [2; 3]%nat)
  = ([], Returns EmptySelection).
Proof.
  eapply proj1, (empty_subset_short_circuit (H:=toy_stages) toy_training_model
           _ _ _ _ _ _ _ _ _ _ () _ _ 0%nat 1%nat 29%nat).
  - reflexivity.
  - reflexivity.
  - reflexivity.
  - shape_holds.
  - shape_holds.
  - shape_holds.
  - reflexivity.
  - reflexivity.
  - apply kept_slots_nil_iff. vm_compute. reflexivity.
Defined.

(** C1 as stated fails: on the same batch a model built with
    [pretrain_without_lm_model=True], in training mode, returns the pair of
    losses instead of the sentinel, although no slot is both detected and
    marked as having a sentence. *)
Lemma pretraining_forward_is_not_the_sentinel :
  let b := toy_batch [0; 1]%nat [2; 3]%nat in
  training toy_pretraining_model = true ∧
  kept_slots 1 29 (λ i j, mask_at (images b) i j && mask_at (region_has_sentence b) i j) = [] ∧
  forward_on toy_pretraining_model b
  = ([], Returns (OutTuple [@VLossDict toy_stages (); @VLoss toy_stages 0%nat])) ∧
  forward_on toy_pretraining_model b ≠ ([], Returns EmptySelection).
Proof. repeat split; by_evaluation. Qed.

(** The mask with regions 0, 1 and 2 of one image: positions 0, 1, 2 of the
    compacted sequences hold the entries of the slots (0,0), (0,1), (0,2). *)
Lemma compaction_alignment_witness :
  let b := toy_batch [0; 1; 2]%nat [] in
  ∃ valid_input_ids valid_attention_mask valid_region_features,
    get_valid_decoder_input_for_training (images b) (images b)
      (input_ids b) (attention_mask b) (toy_features (images b))
    = Returns (valid_input_ids, valid_attention_mask, valid_region_features) ∧
    get_valid_decoder_input_for_evaluation (images b) (input_ids b) (attention_mask b)
    = Returns (valid_input_ids, valid_attention_mask) ∧
    kept_slots 1 29 (mask_at (images b)) = [(0, 0); (0, 1); (0, 2)]%nat ∧
    ∀ k i j, kept_slots 1 29 (mask_at (images b)) !! k = Some (i, j) →
      valid_input_ids !! k = input_ids b !! (i * 29 + j)%nat ∧
      valid_attention_mask !! k = attention_mask b !! (i * 29 + j)%nat ∧
      valid_region_features !! k = toy_features (images b) !! i ≫= (.!! j).
Proof.
  intros b.
  destruct (compaction_alignment (H:=toy_stages) 1 29 (images b)
              (input_ids b) (attention_mask b) (toy_features (images b)))
    as (v_ids & v_am & v_f & Htrain & Heval & _ & _ & _ & _ & Hk).
  - shape_holds.
  - reflexivity.
  - reflexivity.
  - shape_holds.
  - exists v_ids, v_am, v_f. split; [|split; [|split]].
    + apply Htrain. reflexivity.
    + exact Heval.
    + reflexivity.
    + intros k i j Hslot. destruct (Hk k i j Hslot) as (_ & _ & ? & ? & ?). auto.
Defined.

(** Detected 0, 1, 2 and sentences at 1, 2, 3: the language model receives
    the rows of regions 1 and 2. *)
Lemma training_mask_is_logical_and_witness :
  (forward_on toy_training_model (toy_batch [0; 1; 2]%nat [1; 2; 3]%nat)).1
  = [@LMForward toy_stages [[1]; [2]] [[1]; [1]] [1; 2]%nat].
Proof.
  set (b := toy_batch [0; 1; 2]%nat [1; 2; 3]%nat).
  destruct (training_mask_is_logical_and (H:=toy_stages) toy_training_model
              (images b) (image_targets b) (input_ids b) (attention_mask b)
              (region_has_sentence b) (region_is_abnormal b) true None None false
              () (toy_features (images b)) (images b) 0%nat 1%nat 29%nat)
    as (v_ids & v_am & v_f & Hi & Ha & Hf & _ & Htrace).
  - reflexivity.
  - reflexivity.
  - reflexivity.
  - shape_holds.
  - shape_holds.
  - shape_holds.
  - reflexivity.
  - reflexivity.
  - unfold forward_on. rewrite Htrace; [|reflexivity|by vm_compute].
    unfold compacted_by in Hi, Ha, Hf. vm_compute in Hi, Ha, Hf.
    destruct v_ids as [|? [|? [|]]], v_am as [|? [|? [|]]], v_f as [|? [|? [|]]];
      try discriminate.
    by simplify_eq.
Defined.

(** Detected 0, 1, 2, of which the selection head picks 0 and 2, the only
    reference sentence being at region 5: the language model receives the
    rows of regions 0 and 2. *)
Lemma evaluation_uses_selected_mask_witness :
  let b := toy_batch [0; 1; 2]%nat [5]%nat in
  ∃ selected_regions,
    kept_slots 1 29 (mask_at selected_regions) = [(0, 0); (0, 2)]%nat ∧
    (forward_on main_model b).1 = [@LMForward toy_stages [[0]; [2]] [[1]; [1]] [0; 2]%nat].
Proof.
  intros b.
  destruct (evaluation_uses_selected_mask (H:=toy_stages) main_model
              (images b) (image_targets b) (input_ids b) (attention_mask b)
              (region_has_sentence b) (region_is_abnormal b) true None None false
              () () (toy_features (images b)) (images b) 0%nat 1%nat 29%nat)
    as (sel & v_ids & v_am & v_f & Hsel & Hi & Ha & Hf & _ & Htrace).
  - reflexivity.
  - reflexivity.
  - reflexivity.
  - shape_holds.
  - shape_holds.
  - reflexivity.
  - reflexivity.
  - vm_compute in Hsel. injection Hsel as <- <-.
    exists [region_row [0; 2]%nat]. split; [by vm_compute|].
    unfold forward_on. rewrite Htrace; [|reflexivity|by vm_compute].
    unfold compacted_by in Hi, Ha. vm_compute in Hi, Ha.
    destruct v_ids as [|? [|? [|]]], v_am as [|? [|? [|]]]; try discriminate.
    by simplify_eq.
Defined.

(** Both [forward] in evaluation mode and [generate] return masks on that
    batch, and the selected mask implies the detected one. *)
Lemma selected_implies_detected_witness :
  let b := toy_batch [0; 1; 2]%nat [5]%nat in
  (∃ others class_detected selected_regions,
     (forward_on main_model b).2
     = Returns (OutTuple (others ++ [VBoolTensor class_detected;
                                      VBoolTensor selected_regions])) ∧
     ∀ i r, mask_at selected_regions i r = true → mask_at class_detected i r = true) ∧
  (∃ output_ids detections class_detected selected_regions,
     (generate (H:=toy_stages) main_model (images b)
        {| max_length := Some 300; num_beams := 4; num_beam_groups := 1;
           do_sample := false; num_return_sequences := 1; early_stopping := true |}).2
     = Returns (OutTuple [VOutputIds output_ids; VBoolTensor selected_regions;
                          VDetections detections; VBoolTensor class_detected]) ∧
     ∀ i r, mask_at selected_regions i r = true → mask_at class_detected i r = true).
Proof.
  intros b. destruct (selected_implies_detected (H:=toy_stages)) as [Hfwd Hgen]. split.
  - destruct (forward_on main_model b).2 as [[z|comps]|e] eqn:Hres;
      try (vm_compute in Hres; discriminate).
    unfold forward_on in Hres.
    destruct (Hfwd main_model _ _ _ _ _ _ _ _ _ _ comps eq_refl Hres)
      as (_ & _ & _ & cd & sel & others & _ & -> & Himp).
    by exists others, cd, sel.
  - match goal with |- context [(generate ?m ?i ?a).2] =>
      destruct (generate m i a).2 as [[z|comps]|e] eqn:Hres;
        try (vm_compute in Hres; discriminate);
      destruct (Hgen m i a comps Hres) as (_ & det & _ & cd & sel & o & _ & -> & Himp)
    end.
    by exists o, det, cd, sel.
Defined.

(** Seven detected regions, four of them selected: the language model runs
    out of memory on the second batch, and [get_metric_scores] ends with
    that error although two other batches could be processed. *)
Lemma out_of_memory_is_raised_witness :
  let model := call_model (H:=toy_stages) main_model in
  let b := toy_batch [0; 1; 2; 3; 4; 5; 6]%nat [] in
  let e := Exn RuntimeError "CUDA out of memory. Tried to allocate 2.00 GiB" in
  model b = Raises e ∧
  get_metric_scores model [toy_batch [1]%nat []; b; toy_batch [0]%nat []] = Raises e.
Proof.
  intros model b e. split; [reflexivity|].
  refine (proj2 (out_of_memory_is_raised model [toy_batch [1]%nat []] b
                   [toy_batch [0]%nat []] _ e _ _ _ _)); reflexivity.
Defined.

(** Regions 1 and 3 are detected and none is selected: the model returns
    the sentinel and the loop state keeps its sums and its image count. *)
Lemma sentinel_batch_is_skipped_witness :
  let model := call_model (H:=toy_stages) main_model in
  let b := toy_batch [1; 3]%nat [1]%nat in
  model b = Returns EmptySelection ∧
  ∃ st',
    loop_body model initial_state b = Returns st' ∧
    obj_detector_scores st' = obj_detector_scores initial_state ∧
    num_images st' = 0.
Proof.
  intros model b. split; [reflexivity|].
  destruct (sentinel_batch_is_skipped model initial_state b)
    as (st' & Hbody & Hobj & _ & _ & _ & Hnum & _); [reflexivity|].
  by exists st'.
Defined.

(** A batch with selected regions: the output has six components and
    [get_metric_scores] ends with the error of the unpacking. *)
Lemma unpacking_fails_on_normal_output_witness :
  let model := call_model (H:=toy_stages) main_model in
  let b := toy_batch [0; 1; 2]%nat [5]%nat in
  (∃ components, model b = Returns (OutTuple components) ∧ length components = 6%nat) ∧
  get_metric_scores model [toy_batch [1]%nat []; b] = Raises (unpack_error 6).
Proof.
  intros model b.
  destruct (model b) as [out|e] eqn:Hout; [|vm_compute in Hout; discriminate].
  destruct (unpacking_fails_on_normal_output (H0:=toy_metrics) b out Hout)
    as ((ld & l1 & l2 & det & cd & sel & ->) & _ & Hloop).
  { vm_compute in Hout. injection Hout as <-. discriminate. }
  split; [by eexists|].
  refine (proj2 (Hloop [toy_batch [1]%nat []] _ [] _)). reflexivity.
Defined.

(** C6 as stated fails: with the sums (3, 6) for region 0 and (0, 0) for
    region 1, the reported IoU of region 1 is NaN. *)
Lemma zero_union_is_reported_as_nan :
  ∃ obj sel abn,
    get_metric_scores toy_model8 [toy_batch [0]%nat []] = Returns (obj, sel, abn) ∧
    sum_intersection_area_per_region (final_sums obj) !! 0%nat = Some (num_of_Z 3) ∧
    sum_union_area_per_region (final_sums obj) !! 0%nat = Some (num_of_Z 6) ∧
    sum_intersection_area_per_region (final_sums obj) !! 1%nat = Some num_zero ∧
    sum_union_area_per_region (final_sums obj) !! 1%nat = Some num_zero ∧
    avg_iou_per_region obj !! 1%nat = Some NaN.
Proof.
  destruct (get_metric_scores toy_model8 [toy_batch [0]%nat []])
    as [[[obj sel] abn]|e] eqn:Hrun; [|vm_compute in Hrun; discriminate].
  exists obj, sel, abn. split; [done|].
  vm_compute in Hrun. injection Hrun as <- _ _.
  repeat split; try reflexivity;
    cbn; unfold num_of_Z; do 2 f_equal; by apply Qc_is_canon.
Qed.

(** Region 1 is never detected: its union is zero and its IoU is NaN. *)
Lemma zero_union_gives_nan_or_inf_witness :
  ∃ obj sel abn,
    get_metric_scores toy_model8 [toy_batch [0]%nat []] = Returns (obj, sel, abn) ∧
    sum_union_area_per_region (final_sums obj) !! 1%nat = Some num_zero ∧
    avg_iou_per_region obj !! 1%nat = Some NaN.
Proof.
  destruct (get_metric_scores toy_model8 [toy_batch [0]%nat []])
    as [[[obj sel] abn]|e] eqn:Hrun; [|vm_compute in Hrun; discriminate].
  assert (sum_union_area_per_region (final_sums obj) !! 1%nat = Some num_zero) as Hu.
  { vm_compute in Hrun. by injection Hrun as <- _ _. }
  destruct (zero_union_gives_nan_or_inf _ _ _ _ _ 1%nat Hrun Hu)
    as (i & x & Hi & Hx & _ & _ & Hnan).
  exists obj, sel, abn. split; [done|]. split; [done|].
  rewrite Hx. f_equal. apply Hnan.
  vm_compute in Hrun. injection Hrun as <- _ _. by injection Hi as <-.
Defined.

(** * Further properties of the pipeline *)

Section PipelineCalls.
Context `{Stages}.

Lemma length_select_rows {A} (x : list A) (m : list bool) :
  length m = length x → length (select_rows x m) = count_true m.
Proof.
  unfold count_true. revert x.
  induction m as [|b m IH]; intros [|a x] Hlen; simplify_eq/=; [done|].
  destruct b.
  - rewrite filter_cons_True by done. simpl. by rewrite IH.
  - rewrite filter_cons_False by done. by rewrite IH.
Qed.

Lemma count_true_app (m1 m2 : list bool) :
  count_true (m1 ++ m2) = (count_true m1 + count_true m2)%nat.
Proof. unfold count_true. by rewrite filter_app, length_app. Qed.

Lemma length_index_mask {A} (x : list A) (m : list bool) v :
  index_mask x m = Returns v → length v = count_true m.
Proof.
  unfold index_mask. case_decide; [|done]. intros [= <-]. by apply length_select_rows.
Qed.

Lemma length_index_mask2 {A} (x : list (list A)) (m : list (list bool)) v :
  index_mask2 x m = Returns v → length v = count_true (reshape_flat m).
Proof.
  unfold index_mask2, reshape_flat. case_decide as Hs; [|done]. intros [= <-].
  unfold same_shape2 in Hs. induction Hs as [|rm rx m x Hr Hs IH]; [done|].
  simpl. rewrite length_app, count_true_app, IH. f_equal. by apply length_select_rows.
Qed.

Lemma training_input_lengths (cd rhs : mask) (ids : list Ids) (am : list Att)
    (feats : list (list Feature)) v_ids v_am v_f :
  get_valid_decoder_input_for_training cd rhs ids am feats = Returns (v_ids, v_am, v_f) →
  length v_am = length v_ids ∧ length v_f = length v_ids.
Proof.
  unfold get_valid_decoder_input_for_training.
  intros (valid & _ & Hrest)%bind_Returns.
  apply bind_Returns in Hrest as (a & Ha & Hrest).
  apply bind_Returns in Hrest as (b & Hb & Hrest).
  apply bind_Returns in Hrest as (c & Hc & Hrest).
  injection Hrest as <- <- <-.
  apply length_index_mask in Ha, Hb. apply length_index_mask2 in Hc. lia.
Qed.

Lemma evaluation_input_lengths (sel : mask) (ids : list Ids) (am : list Att) v_ids v_am :
  get_valid_decoder_input_for_evaluation sel ids am = Returns (v_ids, v_am) →
  length v_ids = count_true (reshape_flat sel) ∧ length v_am = count_true (reshape_flat sel).
Proof.
  unfold get_valid_decoder_input_for_evaluation.
  intros (a & Ha & Hrest)%bind_Returns.
  apply bind_Returns in Hrest as (b & Hb & Hrest).
  injection Hrest as <- <-.
  apply length_index_mask in Ha, Hb. done.
Qed.

Lemma select_regions_length (feats : list (list Feature)) (cd sel : mask) vf :
  select_regions feats cd = Returns (sel, vf) → length vf = count_true (reshape_flat sel).
Proof.
  unfold select_regions. case_decide; [|done].
  intros (v & Hv & Hrest)%bind_Returns. injection Hrest as <- <-.
  by apply length_index_mask2 in Hv.
Qed.

Lemma selection_eval_returns (feats : list (list Feature)) (cd rhs sel : mask) loss vf :
  binary_classifier_region_selection_eval feats cd rhs = Returns (loss, sel, vf) →
  select_regions feats cd = Returns (sel, vf).
Proof.
  unfold binary_classifier_region_selection_eval.
  intros (l & _ & Hrest)%bind_Returns.
  apply bind_Returns in Hrest as ([s f] & Hs & Hrest).
  by injection Hrest as <- <- <-.
Qed.

Lemma decode_trace (v_ids : list Ids) (v_am : list Att) (v_f : list Feature)
    rl pkv pos uc (pack : Loss → model_output) :
  (decode_or_return_early v_ids v_am v_f rl pkv pos uc pack).1 =
  if decide (length v_ids = 0%nat) then [] else [LMForward v_ids v_am v_f].
Proof.
  unfold decode_or_return_early. case_decide; [done|]. by rewrite recorded_bind_trace.
Qed.

Lemma decode_result (v_ids : list Ids) (v_am : list Att) (v_f : list Feature)
    rl pkv pos uc (pack : Loss → model_output) :
  (decode_or_return_early v_ids v_am v_f rl pkv pos uc pack).2 =
  if decide (length v_ids = 0%nat) then Returns EmptySelection
  else language_model v_ids v_am v_f rl pkv pos uc ≫= λ l, Returns (pack l).
Proof.
  unfold decode_or_return_early. case_decide; [done|]. by rewrite recorded_bind_result.
Qed.

(** What [forward] computes before the language model comes into play:
    either it is done (with an empty trace), or it goes on with the inputs
    of the decoder. *)
Lemma forward_cases (self : ReportGenerationModel) images image_targets
    (input_ids : list Ids) (attention_mask : list Att)
    (region_has_sentence region_is_abnormal : mask) rl pkv pos uc :
  let run := forward self images image_targets input_ids attention_mask
               region_has_sentence region_is_abnormal rl pkv pos uc in
  (∃ e, run = ([], Raises e)) ∨
  (pretrain_without_lm_model self = true ∧
   ∃ comps, run = ([], Returns (OutTuple comps)) ∧
            length comps = if training self then 2%nat else 5%nat) ∨
  (pretrain_without_lm_model self = false ∧
   ∃ v_ids v_am v_f pack,
     run = decode_or_return_early v_ids v_am v_f rl pkv pos uc pack ∧
     length v_am = length v_ids ∧ length v_f = length v_ids ∧
     ∀ l, ∃ comps, pack l = OutTuple comps ∧
                   length comps = if training self then 3%nat else 6%nat).
Proof.
  intros run. subst run. unfold forward. destruct (training self).
  - destruct (object_detector_train images image_targets) as [[[ld feats] cd]|e];
      [|left; by eexists].
    rewrite silent_returns_bind.
    destruct (binary_classifier_region_selection_train feats cd region_has_sentence)
      as [loss|e]; [|left; by eexists].
    rewrite silent_returns_bind.
    destruct (pretrain_without_lm_model self).
    { right; left. split; [done|]. by eexists. }
    destruct (get_valid_decoder_input_for_training cd region_has_sentence
                input_ids attention_mask feats) as [[[v_ids v_am] v_f]|e] eqn:Hget;
      [|left; by eexists].
    rewrite silent_returns_bind. right; right. split; [done|].
    apply training_input_lengths in Hget as [? ?].
    eexists v_ids, v_am, v_f, _. split; [done|]. split; [done|]. split; [done|].
    intros l. by eexists.
  - destruct (object_detector_eval images (Some image_targets))
      as [[[[ld det] feats] cd]|e]; [|left; by eexists].
    rewrite silent_returns_bind.
    destruct (binary_classifier_region_selection_eval feats cd region_has_sentence)
      as [[[loss sel] vf]|e] eqn:Hbc; [|left; by eexists].
    rewrite silent_returns_bind.
    destruct (pretrain_without_lm_model self).
    { right; left. split; [done|]. by eexists. }
    destruct (get_valid_decoder_input_for_evaluation sel input_ids attention_mask)
      as [[v_ids v_am]|e] eqn:Hget; [|left; by eexists].
    rewrite silent_returns_bind. right; right. split; [done|].
    apply evaluation_input_lengths in Hget as [? ?].
    apply selection_eval_returns, select_regions_length in Hbc.
    eexists v_ids, v_am, vf, _. split; [done|]. split; [lia|]. split; [lia|].
    intros l. by eexists.
Qed.

(** X1.  Whenever [forward] calls the language model, in either mode, the
    token sequences, the attention masks and the region features it passes
    have the same number of rows, and that number is not zero: the language
    model is never called on an empty selection. *)
Theorem language_model_inputs_are_aligned (self : ReportGenerationModel)
    images image_targets (input_ids : list Ids) (attention_mask : list Att)
    (region_has_sentence region_is_abnormal : mask) rl pkv pos uc v_ids v_am v_f :
  LMForward v_ids v_am v_f ∈
    (forward self images image_targets input_ids attention_mask
       region_has_sentence region_is_abnormal rl pkv pos uc).1 →
  length v_ids ≠ 0%nat ∧ length v_am = length v_ids ∧ length v_f = length v_ids.
Proof.
  destruct (forward_cases self images image_targets input_ids attention_mask
              region_has_sentence region_is_abnormal rl pkv pos uc)
    as [[e ->]|[(_ & comps & -> & _)|(_ & a & b & c & pack & -> & Hb & Hc & _)]];
    simpl; [by intros ?%elem_of_nil..|].
  rewrite decode_trace. case_decide as Hlen; [by intros ?%elem_of_nil|].
  intros [= <- <- <-]%list_elem_of_singleton. done.
Qed.

(** X2.  [forward] calls the language model at most once; it does not call
    it at all when the model was built with [pretrain_without_lm_model] or
    when it returns the sentinel, and it has called it exactly once when it
    returns a tuple with the language model enabled. *)
Theorem language_model_called_at_most_once (self : ReportGenerationModel)
    images image_targets (input_ids : list Ids) (attention_mask : list Att)
    (region_has_sentence region_is_abnormal : mask) rl pkv pos uc :
  let run := forward self images image_targets input_ids attention_mask
               region_has_sentence region_is_abnormal rl pkv pos uc in
  (length run.1 ≤ 1)%nat ∧
  (pretrain_without_lm_model self = true → run.1 = []) ∧
  (run.2 = Returns EmptySelection → run.1 = []) ∧
  (∀ comps, pretrain_without_lm_model self = false →
            run.2 = Returns (OutTuple comps) → length run.1 = 1%nat).
Proof.
  intros run. subst run.
  destruct (forward_cases self images image_targets input_ids attention_mask
              region_has_sentence region_is_abnormal rl pkv pos uc)
    as [[e ->]|[(Hpre & comps & -> & _)|(Hpre & a & b & c & pack & -> & _ & _ & Hpack)]];
    simpl.
  - repeat split; try done; lia.
  - repeat split; try done; try lia. intros ?. by rewrite Hpre.
  - rewrite decode_trace, decode_result. case_decide as Hlen; simpl.
    + repeat split; try done; lia.
    + repeat split; try done.
      * by rewrite Hpre.
      * destruct (language_model _ _ _ _ _ _ _) as [l|e]; [|done]. simpl.
        destruct (Hpack l) as (comps & -> & _). done.
Qed.

Lemma forward_arity (self : ReportGenerationModel)
    images image_targets (input_ids : list Ids) (attention_mask : list Att)
    (region_has_sentence region_is_abnormal : mask) rl pkv pos uc out :
  (forward self images image_targets input_ids attention_mask
     region_has_sentence region_is_abnormal rl pkv pos uc).2 = Returns out →
  (out = EmptySelection ∧ pretrain_without_lm_model self = false) ∨
  ∃ comps,
    out = OutTuple comps ∧
    length comps =
      match training self, pretrain_without_lm_model self with
      | true, true => 2%nat
      | true, false => 3%nat
      | false, true => 5%nat
      | false, false => 6%nat
      end.
Proof.
  destruct (forward_cases self images image_targets input_ids attention_mask
              region_has_sentence region_is_abnormal rl pkv pos uc)
    as [[e ->]|[(Hpre & comps & -> & Hlen)|(Hpre & a & b & c & pack & -> & _ & _ & Hpack)]];
    simpl; [done| |].
  - intros [= <-]. right. exists comps. split; [done|]. rewrite Hpre, Hlen.
    by destruct (training self).
  - rewrite decode_result. case_decide.
    + intros [= <-]. by left.
    + destruct (language_model _ _ _ _ _ _ _) as [l|e]; [|done]. simpl.
      intros [= <-]. right. destruct (Hpack l) as (comps & -> & Hlen).
      exists comps. split; [done|]. rewrite Hpre, Hlen. by destruct (training self).
Qed.

(** X3.  The result of [forward] is the sentinel or a tuple whose number of
    components is fixed by the mode and the constructor flag: 2 or 3 in
    training mode, 5 or 6 in evaluation mode, the smaller number (and never
    the sentinel) with [pretrain_without_lm_model]. *)
Theorem forward_output_arity (self : ReportGenerationModel)
    images image_targets (input_ids : list Ids) (attention_mask : list Att)
    (region_has_sentence region_is_abnormal : mask) rl pkv pos uc out :
  (forward self images image_targets input_ids attention_mask
     region_has_sentence region_is_abnormal rl pkv pos uc).2 = Returns out →
  (out = EmptySelection ∧ pretrain_without_lm_model self = false) ∨
  ∃ comps,
    out = OutTuple comps ∧
    length comps =
      match training self, pretrain_without_lm_model self with
      | true, true => 2%nat
      | true, false => 3%nat
      | false, true => 5%nat
      | false, false => 6%nat
      end.
Proof. apply forward_arity. Qed.

Local Ltac empty_trace :=
  simpl; split; [done|];
  split; [by intros ? ?%elem_of_nil|];
  split; [by intros ??? ?%elem_of_nil|done].

(** X4.  [generate] calls the language model at most once and never on an
    empty set of features: when it returns the sentinel it has not called
    it, and when it returns a tuple, the tuple has four components and the
    one call received a non-empty set of features. *)
Theorem generate_calls (self : ReportGenerationModel) images args :
  let run := generate self images args in
  (run.2 = Returns EmptySelection → run.1 = []) ∧
  (∀ features, LMGenerate features ∈ run.1 →
               features ≠ [] ∧ run.1 = [LMGenerate features]) ∧
  (∀ v_ids v_am v_f, LMForward v_ids v_am v_f ∉ run.1) ∧
  (∀ comps, run.2 = Returns (OutTuple comps) →
            length comps = 4%nat ∧ ∃ features, run.1 = [LMGenerate features]).
Proof.
  intros run. subst run. unfold generate.
  destruct (object_detector_eval images None) as [[[[ld det] feats] cd]|e].
  2:{ empty_trace. }
  rewrite silent_returns_bind.
  destruct (binary_classifier_region_selection_infer feats cd) as [[sel vf]|e].
  2:{ empty_trace. }
  rewrite silent_returns_bind. case_decide as Hlen.
  { empty_trace. }
  rewrite recorded_bind_trace, recorded_bind_result.
  split; [|split; [|split]].
  - by destruct (language_model_generate vf args).
  - intros features [= <-]%list_elem_of_singleton. split; [|done]. by destruct features.
  - intros a b c Hin%list_elem_of_singleton. done.
  - intros comps. destruct (language_model_generate vf args) as [o|e]; [|done].
    simpl. intros [= <-]. split; [done|]. by eexists.
Qed.

End PipelineCalls.

(** * Further properties of the evaluation loop *)

Section EvaluationLoop.
Context `{Metrics}.
Implicit Types (model : batch → result model_output) (st : loop_state) (b : batch).

(** What the loop body does once [output] is bound to [out] and the
    out-of-memory flag is down. *)
Lemma loop_body_returned model st b out :
  oom st = false →
  model b = Returns out →
  loop_body model st b =
  if is_minus_one out then
    Returns {| obj_detector_scores := obj_detector_scores st;
               region_selection_scores := region_selection_scores st;
               region_abnormal_scores := region_abnormal_scores st;
               oom := false;
               num_images := num_images st + Z.of_nat (length (images b))
                             - Z.of_nat (length (images b));
               output := Some out |}
  else
    match out with
    | OutTuple [_; _; _; _; detections; class_detected; selected_regions;
                predicted_abnormal_regions] =>
        obj ← update_object_detector_metrics (obj_detector_scores st)
                detections (image_targets b) class_detected;
        sel ← update_region_selection_metrics (region_selection_scores st)
                selected_regions (region_has_sentence b) (region_is_abnormal b);
        abn ← update_region_abnormal_metrics (region_abnormal_scores st)
                predicted_abnormal_regions (region_is_abnormal b) class_detected;
        mret {| obj_detector_scores := obj;
                region_selection_scores := sel;
                region_abnormal_scores := abn;
                oom := false;
                num_images := num_images st + Z.of_nat (length (images b));
                output := Some out |}
    | OutTuple components => Raises (unpack_error (length components))
    | OutInt _ => Raises (Exn TypeError "cannot unpack non-iterable int object")
    end.
Proof. intros Hoom Hb. unfold loop_body. rewrite Hb. simpl. by rewrite Hoom. Qed.

(** X5.  A [RuntimeError] that is not an out-of-memory error is swallowed
    by the handler, and the batch is then processed with the output of the
    previous batch, which [output] still holds: the loop body behaves as if
    the model had returned that output for this batch. *)
Theorem swallowed_error_reuses_previous_output model st b e out :
  output st = Some out →
  model b = Raises e →
  is_RuntimeError e = true →
  str_contains "out of memory" (exn_msg e) = false →
  loop_body model st b = loop_body (λ _, Returns out) st b.
Proof.
  intros Hout Hb Hrt Hmsg. unfold loop_body. rewrite Hb, Hrt, Hmsg. simpl.
  by rewrite Hout.
Qed.

(** X6.  When the model raises a [RuntimeError] other than out of memory
    before any call of it has returned, [output] is unbound and
    [get_metric_scores] ends with an [UnboundLocalError]. *)
Theorem early_runtime_error_is_unbound_local model b rest e :
  model b = Raises e →
  is_RuntimeError e = true →
  str_contains "out of memory" (exn_msg e) = false →
  get_metric_scores model (b :: rest) =
  Raises (Exn UnboundLocalError "local variable 'output' referenced before assignment").
Proof.
  intros Hb Hrt Hmsg. unfold get_metric_scores. simpl.
  unfold loop_body. by rewrite Hb, Hrt, Hmsg.
Qed.

(** X7.  An exception of the model that is not a [RuntimeError] is not
    caught: it ends [get_metric_scores]. *)
Theorem other_exceptions_propagate model prefix b rest st e :
  run_batches model initial_state prefix = Returns st →
  model b = Raises e →
  is_RuntimeError e = false →
  get_metric_scores model (prefix ++ b :: rest) = Raises e.
Proof.
  intros Hrun Hb Hrt. unfold get_metric_scores. rewrite run_batches_app, Hrun. simpl.
  unfold loop_body. by rewrite Hb, Hrt.
Qed.

Lemma loop_body_num_images model st b st' :
  loop_body model st b = Returns st' →
  num_images st ≤ num_images st' ≤ num_images st + Z.of_nat (length (images b)).
Proof.
  unfold loop_body.
  destruct (model b) as [out|e]; simpl.
  2:{ destruct (is_RuntimeError e); [|done].
      destruct (str_contains _ _); [done|]. simpl.
      destruct (oom st); [intros [= <-]; simpl; lia|].
      destruct (output st) as [out|]; [|done].
      destruct (is_minus_one out); [intros [= <-]; simpl; lia|].
      destruct out as [z|comps]; [done|].
      do 8 (destruct comps as [|? comps]; try done).
      destruct comps; [|done].
      destruct (update_object_detector_metrics _ _ _ _); [|done]. simpl.
      destruct (update_region_selection_metrics _ _ _ _); [|done]. simpl.
      destruct (update_region_abnormal_metrics _ _ _ _); [|done]. simpl.
      intros [= <-]. simpl. lia. }
  destruct (oom st); [intros [= <-]; simpl; lia|].
  destruct (is_minus_one out); [intros [= <-]; simpl; lia|].
  destruct out as [z|comps]; [done|].
  do 8 (destruct comps as [|? comps]; try done).
  destruct comps; [|done].
  destruct (update_object_detector_metrics _ _ _ _); [|done]. simpl.
  destruct (update_region_selection_metrics _ _ _ _); [|done]. simpl.
  destruct (update_region_abnormal_metrics _ _ _ _); [|done]. simpl.
  intros [= <-]. simpl. lia.
Qed.

(** The number of images of a test loader. *)
Lemma run_batches_num_images model st loader st' :
  run_batches model st loader = Returns st' →
  num_images st ≤ num_images st'
    ≤ num_images st + Z.of_nat (length (loader ≫= images)).
Proof.
  revert st. induction loader as [|b loader IH]; intros st.
  - intros [= <-]. change (length ([] ≫= images)) with 0%nat. lia.
  - rewrite bind_cons, length_app. cbn [run_batches].
    intros (st1 & Hb & Hrest)%bind_Returns.
    apply loop_body_num_images in Hb. apply IH in Hrest. lia.
Qed.

(** X8.  The image count by which the detections are averaged is never
    negative and never exceeds the number of images of the test loader:
    every batch adds its size or leaves the count unchanged. *)
Theorem num_images_bounds model loader st :
  run_batches model initial_state loader = Returns st →
  0 ≤ num_images st ≤ Z.of_nat (length (loader ≫= images)).
Proof. intros Hrun%run_batches_num_images. simpl in Hrun. lia. Qed.

(** X9.  The out-of-memory flag is down at the start of every iteration:
    the block that would skip a batch after an out-of-memory error (empty
    the cache, take the batch out of the image count, continue) never
    runs. *)
Theorem out_of_memory_recovery_never_runs model prefix st :
  run_batches model initial_state prefix = Returns st → oom st = false.
Proof. by apply run_batches_oom. Qed.

Lemma is_minus_one_spec (out : model_output) :
  is_minus_one out = true ↔ out = EmptySelection.
Proof.
  destruct out as [z|comps]; simpl; [|done].
  rewrite bool_decide_eq_true. unfold EmptySelection. naive_solver.
Qed.

Lemma unpack_fails model st b comps :
  oom st = false →
  model b = Returns (OutTuple comps) →
  length comps ≠ 8%nat →
  loop_body model st b = Raises (unpack_error (length comps)).
Proof.
  intros Hoom Hb Hlen. rewrite (loop_body_returned _ _ _ _ Hoom Hb). simpl.
  do 8 (destruct comps as [|? comps]; [done|]).
  destruct comps; [done|]. done.
Qed.

(** X10.  No output of a [ReportGenerationModel] other than the sentinel can
    be unpacked by the loop, whatever the mode and the constructor flag:
    the tuple has 2, 3, 5 or 6 components instead of 8, and
    [get_metric_scores] ends with a [ValueError] on that batch. *)
Theorem no_model_output_is_unpacked (self : ReportGenerationModel) b out :
  call_model self b = Returns out →
  out ≠ EmptySelection →
  ∃ got,
    got ∈ [2; 3; 5; 6]%nat ∧
    exn_cls (unpack_error got) = ValueError ∧
    ∀ prefix st rest,
      run_batches (call_model self) initial_state prefix = Returns st →
      get_metric_scores (call_model self) (prefix ++ b :: rest)
        = Raises (unpack_error got).
Proof.
  intros Hout Hne. pose proof Hout as Harity.
  unfold call_model, forward_on in Harity. apply forward_arity in Harity.
  destruct Harity as [[-> _]|(comps & -> & Hlen)]; [done|].
  exists (length comps). split; [|split; [done|]].
  - rewrite Hlen. destruct (training self), (pretrain_without_lm_model self);
      repeat (constructor; try done).
  - intros prefix st rest Hrun.
    unfold get_metric_scores. rewrite run_batches_app, Hrun. simpl.
    rewrite (unpack_fails _ st b comps); [done| |done|].
    + exact (run_batches_oom _ initial_state prefix st eq_refl Hrun).
    + rewrite Hlen. by destruct (training self), (pretrain_without_lm_model self).
Qed.

Lemma finalize_untouched st obj sel abn :
  untouched st → finalize st = Returns (obj, sel, abn) → undefined_scores obj.
Proof.
  intros (Hobj & _ & _ & Hnum & _). unfold finalize. rewrite Hobj, Hnum.
  intros (per_region & Hper & Hfin)%bind_Returns.
  do 4 (apply bind_Returns in Hfin as (? & _ & Hfin)).
  injection Hfin as <- _ _. unfold undefined_scores. simpl.
  split; [done|]. split; [by vm_compute|].
  split; [vm_compute in Hper; by injection Hper as <-|].
  split; by vm_compute.
Qed.

Lemma run_batches_invariant (P : loop_state → Prop) model st loader st' :
  (∀ st1 st2 b, b ∈ loader → P st1 → loop_body model st1 b = Returns st2 → P st2) →
  P st → run_batches model st loader = Returns st' → P st'.
Proof.
  revert st. induction loader as [|b loader IH]; intros st Hstep Hst; simpl.
  - by intros [= <-].
  - intros (st1 & Hb & Hrest)%bind_Returns.
    eapply IH; [|by eapply Hstep; [left|..]|done].
    intros st2 st3 b' Hin. apply Hstep. by right.
Qed.

(** X11.  If the model returns the sentinel for every batch of the test
    loader (in particular if the loader is empty), the batches are all
    skipped, and the detector scores that [get_metric_scores] returns are
    all undefined: the overall IoU, the 29 per-region IoUs and the detection
    averages are [0 / 0], that is NaN. *)
Theorem skipped_batches_give_undefined_scores model loader obj sel abn :
  Forall (λ b, model b = Returns EmptySelection) loader →
  get_metric_scores model loader = Returns (obj, sel, abn) →
  undefined_scores obj.
Proof.
  intros Hall. unfold get_metric_scores. intros (st & Hrun & Hfin)%bind_Returns.
  eapply finalize_untouched; [|done].
  eapply (run_batches_invariant untouched); [|by repeat split|done].
  intros st1 st2 b Hin (Hobj & Hsel & Habn & Hnum & Hoom).
  rewrite Forall_forall in Hall.
  rewrite (loop_body_returned _ _ _ _ Hoom (Hall b Hin)). simpl.
  intros [= <-]. repeat split; simpl; try done. lia.
Qed.

(** A run of the loop on a [ReportGenerationModel] that reaches the end of
    the test loader has processed no batch: every batch was skipped. *)
Lemma model_runs_skip_every_batch (self : ReportGenerationModel) loader st :
  run_batches (call_model self) initial_state loader = Returns st → untouched st.
Proof.
  intros Hrun.
  enough (untouched st ∧ (output st = None ∨ output st = Some EmptySelection)) as [? _];
    [done|].
  eapply (run_batches_invariant
            (λ st, untouched st ∧ (output st = None ∨ output st = Some EmptySelection)));
    [|by repeat split; auto|done].
  clear. intros st1 st2 b _ [(Hobj & Hsel & Habn & Hnum & Hoom) Hout].
  destruct (call_model self b) as [out|e] eqn:Hb.
  - rewrite (loop_body_returned _ _ _ _ Hoom Hb).
    destruct (is_minus_one out) eqn:Hm.
    + apply is_minus_one_spec in Hm as ->. intros [= <-].
      repeat split; simpl; try done; [lia|by right].
    + assert (out ≠ EmptySelection) as Hne.
      { intros ->. by rewrite (proj2 (is_minus_one_spec _) eq_refl) in Hm. }
      pose proof Hb as Harity.
      unfold call_model, forward_on in Harity. apply forward_arity in Harity.
      destruct Harity as [[-> _]|(comps & -> & Hlen)]; [done|].
      assert (length comps ≠ 8%nat) as Hlen8.
      { rewrite Hlen. by destruct (training self), (pretrain_without_lm_model self). }
      do 8 (destruct comps as [|? comps]; [done|]). by destruct comps.
  - unfold loop_body. rewrite Hb.
    destruct (is_RuntimeError e); [|done].
    destruct (str_contains _ _); [done|]. simpl. rewrite Hoom.
    destruct Hout as [->| ->]; [done|]. simpl. intros [= <-].
    repeat split; simpl; try done; [lia|by right].
Qed.


(** X12.  [get_metric_scores] applied to a [ReportGenerationModel] returns
    scores only if every batch was skipped, so the detector scores it
    returns are all undefined (NaN): a batch with a regular output ends the
    function with an error instead. *)
Theorem model_scores_are_undefined (self : ReportGenerationModel) loader obj sel abn :
  get_metric_scores (call_model self) loader = Returns (obj, sel, abn) →
  undefined_scores obj.
Proof.
  unfold get_metric_scores. intros (st & Hrun & Hfin)%bind_Returns.
  eapply finalize_untouched; [|done]. by eapply model_runs_skip_every_batch.
Qed.

End EvaluationLoop.

(** * Checkpoint keys *)

Section Checkpoints.
Context {V : Type}.
Implicit Types (d : gmap string V).

Lemma rename_key_Done new old d d' :
  rename_key new old d = Done d' ↔
  ∃ v, d !! old = Some v ∧ d' = <[new := v]> (delete old d).
Proof.
  unfold rename_key, dict_pop. destruct (d !! old) as [v|]; simpl.
  - split; [intros [= <-]; by exists v|]. by intros (? & [= <-] & ->).
  - split; [done|]. by intros (? & ? & ?).
Qed.

Lemma rename_key_Failed new old d :
  d !! old = None → rename_key new old d = Failed (KeyError old).
Proof. intros Hd. unfold rename_key, dict_pop. by rewrite Hd. Qed.

(** X13.  When the renaming of [ReportGenerationModel.__init__] succeeds,
    the new keys [rpn.head.conv.weight] and [rpn.head.conv.bias] hold the
    entries that were stored under [rpn.head.conv.0.0.weight] and
    [rpn.head.conv.0.0.bias], these two old keys are gone, and every other
    entry of the state dict is as before. *)
Theorem renamed_keys_hold_the_old_entries d d' :
  rename_object_detector_keys d = Done d' →
  is_Some (d !! "rpn.head.conv.0.0.weight") ∧
  is_Some (d !! "rpn.head.conv.0.0.bias") ∧
  d' !! "rpn.head.conv.weight" = d !! "rpn.head.conv.0.0.weight" ∧
  d' !! "rpn.head.conv.bias" = d !! "rpn.head.conv.0.0.bias" ∧
  d' !! "rpn.head.conv.0.0.weight" = None ∧
  d' !! "rpn.head.conv.0.0.bias" = None ∧
  ∀ key,
    key ∉ ["rpn.head.conv.weight"; "rpn.head.conv.bias";
           "rpn.head.conv.0.0.weight"; "rpn.head.conv.0.0.bias"] →
    d' !! key = d !! key.
Proof.
  unfold rename_object_detector_keys.
  destruct (rename_key "rpn.head.conv.weight" "rpn.head.conv.0.0.weight" d)
    as [d1|] eqn:H1; [|done]. simpl.
  apply rename_key_Done in H1 as (w & Hw & ->).
  intros (b & Hb & ->)%rename_key_Done.
  rewrite lookup_insert_ne, lookup_delete_ne in Hb by done.
  rewrite Hw, Hb. repeat split; try by eauto.
  - by rewrite lookup_insert_ne, lookup_delete_ne, lookup_insert_eq.
  - by rewrite lookup_insert_eq.
  - by rewrite lookup_insert_ne, lookup_delete_ne, lookup_insert_ne, lookup_delete_eq.
  - by rewrite lookup_insert_ne, lookup_delete_eq.
  - intros key Hkey. apply not_elem_of_cons in Hkey as [? Hkey].
    apply not_elem_of_cons in Hkey as [? Hkey].
    apply not_elem_of_cons in Hkey as [? Hkey].
    apply not_elem_of_cons in Hkey as [? _].
    by rewrite lookup_insert_ne, lookup_delete_ne, lookup_insert_ne, lookup_delete_ne
      by congruence.
Qed.

(** X14.  The renaming of [__init__] succeeds exactly on state dicts that
    hold both old keys, and otherwise raises a [KeyError] for the first one
    that is missing; in particular it cannot be applied to a state dict it
    has already converted. *)
Theorem renaming_needs_the_old_keys d :
  (d !! "rpn.head.conv.0.0.weight" = None →
   rename_object_detector_keys d = Failed (KeyError "rpn.head.conv.0.0.weight")) ∧
  (is_Some (d !! "rpn.head.conv.0.0.weight") →
   d !! "rpn.head.conv.0.0.bias" = None →
   rename_object_detector_keys d = Failed (KeyError "rpn.head.conv.0.0.bias")) ∧
  (is_Some (d !! "rpn.head.conv.0.0.weight") →
   is_Some (d !! "rpn.head.conv.0.0.bias") →
   ∃ d', rename_object_detector_keys d = Done d') ∧
  (∀ d', rename_object_detector_keys d = Done d' →
         rename_object_detector_keys d'
         = Failed (KeyError "rpn.head.conv.0.0.weight")).
Proof.
  unfold rename_object_detector_keys. repeat split.
  - intros Hw. by rewrite (rename_key_Failed _ _ _ Hw).
  - intros [w Hw] Hb.
    rewrite (proj2 (rename_key_Done _ _ d _) (ex_intro _ w (conj Hw eq_refl))). simpl.
    apply rename_key_Failed. by rewrite lookup_insert_ne, lookup_delete_ne.
  - intros [w Hw] [b Hb].
    rewrite (proj2 (rename_key_Done _ _ d _) (ex_intro _ w (conj Hw eq_refl))). simpl.
    eexists. apply rename_key_Done. exists b. split; [|done].
    by rewrite lookup_insert_ne, lookup_delete_ne.
  - intros d'.
    destruct (rename_key "rpn.head.conv.weight" "rpn.head.conv.0.0.weight" d)
      as [d1|] eqn:H1; [|done]. simpl.
    apply rename_key_Done in H1 as (w & Hw & ->).
    intros (b & Hb & ->)%rename_key_Done.
    rewrite rename_key_Failed; [done|].
    by rewrite lookup_insert_ne, lookup_delete_ne, lookup_insert_ne, lookup_delete_eq.
Qed.

(** X15.  When the renaming of [main] succeeds, it has changed nothing but
    the state dict stored under ["model"], in which the two new keys hold
    the entries of the two old keys, which are gone. *)
Theorem full_model_keys_are_renamed (checkpoint checkpoint' : gmap string (gmap string V)) :
  rename_full_model_keys checkpoint = Done checkpoint' →
  ∃ model model',
    checkpoint !! "model" = Some model ∧
    checkpoint' !! "model" = Some model' ∧
    (∀ key, key ≠ "model" → checkpoint' !! key = checkpoint !! key) ∧
    is_Some (model !! "object_detector.rpn.head.conv.0.0.weight") ∧
    is_Some (model !! "object_detector.rpn.head.conv.0.0.bias") ∧
    model' !! "object_detector.rpn.head.conv.weight"
      = model !! "object_detector.rpn.head.conv.0.0.weight" ∧
    model' !! "object_detector.rpn.head.conv.bias"
      = model !! "object_detector.rpn.head.conv.0.0.bias" ∧
    model' !! "object_detector.rpn.head.conv.0.0.weight" = None ∧
    model' !! "object_detector.rpn.head.conv.0.0.bias" = None.
Proof.
  unfold rename_full_model_keys, checkpoint_model.
  destruct (checkpoint !! "model") as [model|] eqn:Hm; [|done]. simpl.
  destruct (rename_key "object_detector.rpn.head.conv.weight"
              "object_detector.rpn.head.conv.0.0.weight" model) as [m1|] eqn:H1;
    [|done]. simpl.
  rewrite lookup_insert_eq. simpl.
  apply rename_key_Done in H1 as (w & Hw & ->).
  destruct (rename_key "object_detector.rpn.head.conv.bias" _ _) as [m2|] eqn:H2;
    [|done]. simpl.
  apply rename_key_Done in H2 as (b & Hb & ->).
  intros [= <-].
  rewrite lookup_insert_ne, lookup_delete_ne in Hb by done.
  eexists model, _. split; [done|]. split; [by rewrite lookup_insert_eq|].
  rewrite Hw, Hb. repeat split; try by eauto.
  - intros key Hkey. by rewrite !lookup_insert_ne by congruence.
  - by rewrite lookup_insert_ne, lookup_delete_ne, lookup_insert_eq.
  - by rewrite lookup_insert_eq.
  - by rewrite lookup_insert_ne, lookup_delete_ne, lookup_insert_ne, lookup_delete_eq.
  - by rewrite lookup_insert_ne, lookup_delete_eq.
Qed.

End Checkpoints.

(** * The phrases of the dataset *)

Lemma replace_empty_phrases_lookup phrases j :
  replace_empty_phrases phrases !! j =
  (λ phrase, if decide (phrase = "") then "#" else phrase) <$> phrases !! j.
Proof.
  unfold replace_empty_phrases. rewrite list_lookup_fmap.
  destruct (phrases !! j) as [p|]; [|done]. simpl. f_equal.
  destruct p; by repeat case_decide.
Qed.

Lemma get_dataset_lookup rows i row' :
  get_dataset rows !! i = Some row' →
  ∃ row, rows !! i = Some row ∧
         bbox_phrases row' = replace_empty_phrases (bbox_phrases row).
Proof.
  unfold get_dataset. intros [Hrow' _]%lookup_take_Some.
  rewrite list_lookup_fmap in Hrow'.
  destruct (rows !! i) as [row|]; simplify_eq/=. by exists row.
Qed.

Lemma replace_empty_phrases_nonempty phrases : "" ∉ replace_empty_phrases phrases.
Proof.
  intros (j & Hj)%list_elem_of_lookup_1. rewrite replace_empty_phrases_lookup in Hj.
  destruct (phrases !! j) as [p|]; simplify_eq/=. by case_decide.
Qed.

(** X16.  [get_dataset] keeps the first 5000 rows in their order, and in
    each of them every column but the phrases; the phrases keep their number
    and their positions, an empty phrase has become "#", and every other
    phrase is as it was, so that no phrase of the dataset is empty. *)
Theorem get_dataset_phrases rows :
  length (get_dataset rows) = Nat.min (length rows) 5000 ∧
  ∀ i row', get_dataset rows !! i = Some row' →
    ∃ row,
      rows !! i = Some row ∧
      study_id row' = study_id row ∧
      mimic_image_file_path row' = mimic_image_file_path row ∧
      bbox_coordinates row' = bbox_coordinates row ∧
      bbox_labels row' = bbox_labels row ∧
      bbox_phrase_exists row' = bbox_phrase_exists row ∧
      bbox_is_abnormal row' = bbox_is_abnormal row ∧
      length (bbox_phrases row') = length (bbox_phrases row) ∧
      ("" ∉ bbox_phrases row') ∧
      ∀ j phrase, bbox_phrases row !! j = Some phrase →
        bbox_phrases row' !! j = Some (if decide (phrase = "") then "#" else phrase).
Proof.
  unfold get_dataset, NUM_IMAGES_TO_USE_IN_TEST_SET. split.
  - rewrite length_take, length_fmap. lia.
  - intros i row' Hrow'. apply lookup_take_Some in Hrow' as [Hrow' _].
    rewrite list_lookup_fmap in Hrow'.
    destruct (rows !! i) as [row|]; simplify_eq/=.
    exists row. repeat split.
    + unfold replace_empty_phrases. by rewrite length_fmap.
    + apply replace_empty_phrases_nonempty.
    + intros j phrase Hj. by rewrite replace_empty_phrases_lookup, Hj.
Qed.

(** X17.  Writing a reference sentence undoes the replacement of
    [get_dataset]: for phrases among which none is a literal "#", the
    references written by [write_sentences] are the original phrases, the
    empty ones included; a literal "#" is written as the empty string. *)
Theorem written_references_are_the_original_phrases phrases :
  "#" ∉ phrases →
  written_reference <$> replace_empty_phrases phrases = phrases ∧
  written_reference "#" = "".
Proof.
  intros Hno. split; [|done].
  unfold replace_empty_phrases. rewrite <-list_fmap_compose.
  rewrite <-(list_fmap_id phrases) at 2. apply list_fmap_ext.
  intros i p Hp. simpl. unfold written_reference.
  assert (p ≠ "#") by (intros ->; by apply list_elem_of_lookup_2 in Hp).
  destruct p; by repeat case_decide.
Qed.

Lemma length_append (s1 s2 : string) :
  String.length (s1 +:+ s2) = (String.length s1 + String.length s2)%nat.
Proof. induction s1 as [|c s1 IH]; simpl; [done|]. by rewrite IH. Qed.

Lemma prefix_append (s t : string) : String.prefix s (s +:+ t) = true.
Proof.
  induction s as [|c s IH]; simpl; [by destruct t|].
  destruct (Ascii.ascii_dec c c); [done|congruence].
Qed.

(** X18.  For a row of [get_dataset], no string that [tokenize_function]
    hands to the tokenizer is the bare pair of special tokens: each one
    starts with the 13 characters of the begin token, and is longer than the
    two tokens together by the length of its phrase, which is not zero. *)
Theorem tokenizer_never_gets_an_empty_phrase rows row s :
  row ∈ get_dataset rows →
  s ∈ phrases_with_special_tokens (bbox_phrases row) →
  s ≠ bos_token +:+ eos_token ∧
  String.prefix bos_token s = true ∧
  ∃ phrase,
    phrase ∈ bbox_phrases row ∧
    s = bos_token +:+ phrase +:+ eos_token ∧
    String.length s = (26 + String.length phrase)%nat ∧
    (0 < String.length phrase)%nat.
Proof.
  intros (i & Hrow)%list_elem_of_lookup_1 Hs.
  apply get_dataset_lookup in Hrow as (row0 & _ & Hphrases).
  unfold phrases_with_special_tokens in Hs.
  apply list_elem_of_fmap in Hs as (phrase & -> & Hin).
  assert (0 < String.length phrase)%nat as Hlen.
  { destruct phrase; [|simpl; lia].
    rewrite Hphrases in Hin. by apply replace_empty_phrases_nonempty in Hin. }
  split; [|split].
  - intros Heq. apply (f_equal String.length) in Heq.
    rewrite !length_append in Heq. simpl in Heq. lia.
  - apply prefix_append.
  - exists phrase. split; [done|]. split; [done|]. split; [|done].
    rewrite !length_append. simpl. lia.
Qed.

(** * Names without white space *)

Lemma append_cons (c : ascii) (a b : string) : String c a +:+ b = String c (a +:+ b).
Proof. reflexivity. Qed.

Lemma append_empty_l (a : string) : "" +:+ a = a.
Proof. reflexivity. Qed.

Lemma append_empty_r (a : string) : a +:+ "" = a.
Proof. induction a as [|c a IH]; [done|]. by rewrite append_cons, IH. Qed.

Lemma append_assoc (a b c : string) : (a +:+ b) +:+ c = a +:+ (b +:+ c).
Proof. induction a as [|x a IH]; [done|]. by rewrite !append_cons, IH. Qed.

Lemma append_nonempty (a : string) (c : ascii) : a +:+ String c "" ≠ "".
Proof. destruct a; [by rewrite append_empty_l|by rewrite append_cons]. Qed.

Lemma contains_space_append (a b : string) :
  contains_space (a +:+ b) = contains_space a || contains_space b.
Proof.
  induction a as [|c a IH]; [done|]. rewrite append_cons. simpl.
  by rewrite IH, orb_assoc.
Qed.

Lemma split_from_words (s : string) (word : option string) :
  (∀ w, word = Some w → is_word w) → Forall is_word (split_from word s).
Proof.
  revert word. induction s as [|c s IH]; intros word Hword; simpl.
  - destruct word as [w|]; [|done]. constructor; [by apply Hword|done].
  - destruct (isspace c) eqn:Hc.
    + destruct word as [w|]; [constructor; [by apply Hword|]|]; by apply IH.
    + apply IH. intros w [= <-]. split; [apply append_nonempty|].
      rewrite contains_space_append. simpl. rewrite Hc.
      destruct word as [w|]; simpl; [|done]. by destruct (Hword w eq_refl) as [_ ->].
Qed.

Lemma split_from_without_space (s : string) :
  contains_space s = false →
  (∀ w, split_from (Some w) s = [w +:+ s]) ∧
  split_from None s = if decide (s = "") then [] else [s].
Proof.
  induction s as [|c s IH]; simpl.
  - intros _. split; [|done]. intros w. by rewrite append_empty_r.
  - intros [Hc Hs]%orb_false_elim. rewrite Hc. destruct (IH Hs) as [IHw _].
    split; [intros w|]; rewrite IHw; simpl.
    + by rewrite append_assoc, append_cons, append_empty_l.
    + by rewrite !append_empty_l, append_cons, append_empty_l.
Qed.

Lemma contains_space_concat (sep : string) (words : list string) :
  contains_space sep = false →
  Forall (λ w, contains_space w = false) words →
  contains_space (String.concat sep words) = false.
Proof.
  intros Hsep. induction 1 as [|w words Hw Hwords IH]; simpl; [done|].
  destruct words as [|w' words]; [done|].
  by rewrite !contains_space_append, Hw, Hsep, IH.
Qed.

Lemma underscored_without_space (name : string) :
  contains_space (underscored name) = false.
Proof.
  unfold underscored, str_join, str_split. apply contains_space_concat; [done|].
  eapply Forall_impl; [by apply split_from_words|]. by intros w [_ ?].
Qed.

Lemma underscored_fixed (name : string) :
  contains_space name = false → underscored name = name.
Proof.
  intros Hname. unfold underscored, str_join, str_split.
  destruct (split_from_without_space name Hname) as [_ ->].
  case_decide; by subst.
Qed.

(** X19.  The names written to the file of scores contain no white space:
    ["_".join(name.split())] has none, whatever the name; it is the name
    itself when the name has none, and applying it twice is applying it
    once. *)
Theorem underscored_names_have_no_white_space (name : string) :
  contains_space (underscored name) = false ∧
  (contains_space name = false → underscored name = name) ∧
  underscored (underscored name) = underscored name.
Proof.
  split; [apply underscored_without_space|]. split; [apply underscored_fixed|].
  apply underscored_fixed, underscored_without_space.
Qed.

Lemma isspace_lower_char (c : ascii) : isspace (lower_char c) = isspace c.
Proof. by destruct c as [[] [] [] [] [] [] [] []]. Qed.

Lemma lower_char_idemp (c : ascii) : lower_char (lower_char c) = lower_char c.
Proof. by destruct c as [[] [] [] [] [] [] [] []]. Qed.

Lemma str_lower_idemp (s : string) : str_lower (str_lower s) = str_lower s.
Proof. induction s as [|c s IH]; simpl; [done|]. by rewrite lower_char_idemp, IH. Qed.

Lemma str_lower_append (a b : string) :
  str_lower (a +:+ b) = str_lower a +:+ str_lower b.
Proof.
  induction a as [|c a IH]; [done|]. rewrite !append_cons. simpl.
  by rewrite append_cons, IH.
Qed.

Lemma contains_space_lower (s : string) : contains_space (str_lower s) = contains_space s.
Proof. induction s as [|c s IH]; simpl; [done|]. by rewrite isspace_lower_char, IH. Qed.

Lemma split_from_lower (s : string) (word : option string) :
  split_from (str_lower <$> word) (str_lower s) = str_lower <$> split_from word s.
Proof.
  revert word. induction s as [|c s IH]; intros word; simpl.
  - by destruct word.
  - rewrite isspace_lower_char. destruct (isspace c).
    + pose proof (IH None) as IHn. simpl in IHn.
      destruct word as [w|]; simpl; by rewrite IHn.
    + pose proof (IH (Some (default "" word +:+ String c ""))) as IHw. simpl in IHw.
      rewrite <-IHw, str_lower_append. by destruct word.
Qed.

Lemma str_lower_concat (sep : string) (words : list string) :
  str_lower (String.concat sep words) = String.concat (str_lower sep) (str_lower <$> words).
Proof.
  induction words as [|w words IH]; simpl; [done|].
  destruct words as [|w' words]; [done|].
  rewrite !str_lower_append, IH. done.
Qed.

(** X20.  The name of a condition in the file of scores,
    ["_".join(k.lower().split())], contains no white space and no capital
    letter, and lowering the key before or after the white space is replaced
    gives the same name. *)
Theorem condition_names_are_lower_case (k : string) :
  let condition_name := str_join "_" (str_split (str_lower k)) in
  contains_space condition_name = false ∧
  str_lower condition_name = condition_name ∧
  condition_name = str_lower (underscored k).
Proof.
  intros condition_name. subst condition_name.
  assert (str_join "_" (str_split (str_lower k)) = str_lower (underscored k)) as Heq.
  { unfold underscored, str_join, str_split. rewrite str_lower_concat.
    by rewrite <-(split_from_lower k None). }
  split; [apply (underscored_without_space (str_lower k))|].
  split; [|done]. by rewrite Heq, str_lower_idemp.
Qed.

(** * The reports of MIMIC-CXR *)

Lemma reference_reports_loop_step (fs : files) (acc : mimic_reports)
    (study_id : string) (study_ids : list string) :
  reference_reports_loop fs acc (study_id :: study_ids) =
  match fs !! main_report_path study_id with
  | Some text =>
      reference_reports_loop fs
        {| report_mimic := report_mimic acc ++ [readline text];
           report_mimic_findings_only :=
             report_mimic_findings_only acc
             ++ [readline <$> fs !! findings_report_path study_id] |}
        study_ids
  | None => Failed (FileNotFoundError (main_report_path study_id))
  end.
Proof.
  simpl. unfold read_text, main_report_path, findings_report_path.
  destruct (fs !! study_txt_file_path path_to_test_mimic_reports_folder study_id)
    as [text|]; simpl; [|done].
  case_bool_decide as Hex; simpl.
  - destruct Hex as [text' ->]. done.
  - apply eq_None_not_Some in Hex. by rewrite Hex.
Qed.

Lemma reference_reports_loop_Done (fs : files) (acc r : mimic_reports)
    (study_ids : list string) :
  reference_reports_loop fs acc study_ids = Done r →
  Forall (λ study_id, is_Some (fs !! main_report_path study_id)) study_ids ∧
  report_mimic r =
    report_mimic acc
    ++ ((λ study_id, readline (default "" (fs !! main_report_path study_id)))
          <$> study_ids) ∧
  report_mimic_findings_only r =
    report_mimic_findings_only acc
    ++ ((λ study_id, readline <$> fs !! findings_report_path study_id) <$> study_ids).
Proof.
  revert acc. induction study_ids as [|study_id study_ids IH]; intros acc.
  - intros [= <-]. by rewrite !app_nil_r.
  - rewrite reference_reports_loop_step.
    destruct (fs !! main_report_path study_id) as [text|] eqn:Htext; [|done].
    intros (Hall & Hmain & Hfind)%IH. simpl in *.
    split; [constructor; [by rewrite Htext|done]|].
    rewrite Htext. simpl. by rewrite Hmain, Hfind, <-!app_assoc.
Qed.

(** X21.  When [get_reference_reports_mimic] returns, its two lists have
    one entry for every study id, in the order of the study ids: the first
    line of the report of the study, and the first line of its report with
    the findings only, which is [None] exactly when that file does not
    exist. *)
Theorem reference_reports_are_aligned (fs : files) (study_ids : list string)
    (r : mimic_reports) :
  get_reference_reports_mimic fs study_ids = Done r →
  length (report_mimic r) = length study_ids ∧
  length (report_mimic_findings_only r) = length study_ids ∧
  ∀ i study_id, study_ids !! i = Some study_id →
    ∃ text,
      fs !! study_txt_file_path path_to_test_mimic_reports_folder study_id = Some text ∧
      report_mimic r !! i = Some (readline text) ∧
      report_mimic_findings_only r !! i =
        Some (readline <$>
                fs !! study_txt_file_path path_to_test_mimic_reports_folder_findings_only
                        study_id).
Proof.
  unfold get_reference_reports_mimic.
  intros (Hall & -> & ->)%reference_reports_loop_Done. simpl.
  rewrite !length_fmap. split; [done|]. split; [done|].
  intros i study_id Hi. rewrite Forall_lookup in Hall.
  destruct (Hall i study_id Hi) as [text Htext]. exists text. split; [done|].
  rewrite !list_lookup_fmap, Hi. simpl. unfold main_report_path in Htext.
  unfold main_report_path. by rewrite Htext.
Qed.

(** X22.  [get_reference_reports_mimic] returns if the report of every
    study exists, and otherwise fails with a [FileNotFoundError] for the
    first study without a report; a missing report with the findings only
    is never an error. *)
Theorem missing_report_is_an_error (fs : files) (study_ids : list string) :
  (Forall (λ study_id,
             is_Some (fs !! study_txt_file_path path_to_test_mimic_reports_folder study_id))
     study_ids →
   ∃ r, get_reference_reports_mimic fs study_ids = Done r) ∧
  (∀ e, get_reference_reports_mimic fs study_ids = Failed e →
     ∃ before study_id after,
       study_ids = before ++ study_id :: after ∧
       Forall (λ study_id,
                 is_Some (fs !! study_txt_file_path path_to_test_mimic_reports_folder
                                  study_id)) before ∧
       fs !! study_txt_file_path path_to_test_mimic_reports_folder study_id = None ∧
       e = FileNotFoundError
             (study_txt_file_path path_to_test_mimic_reports_folder study_id)).
Proof.
  unfold get_reference_reports_mimic.
  generalize {| report_mimic := []; report_mimic_findings_only := [] |}.
  induction study_ids as [|study_id study_ids IH]; intros acc.
  - split; [by eexists|done].
  - rewrite reference_reports_loop_step. unfold main_report_path. split.
    + intros [[text ->] Hall]%Forall_cons. by apply IH.
    + intros e.
      destruct (fs !! study_txt_file_path path_to_test_mimic_reports_folder study_id)
        as [text|] eqn:Htext.
      * intros (before & id & after & -> & Hbefore & Hid & ->)%IH.
        exists (study_id :: before), id, after. split; [done|].
        split; [constructor; [by rewrite Htext|done]|done].
      * intros [= <-]. by exists [], study_id, study_ids.
Qed.

(** * Files that are written *)

Lemma appended_refl (path : string) (fs : files) : appended path fs fs.
Proof. split; [done|]. split; [done|]. exists "". by rewrite append_empty_r. Qed.

Lemma appended_trans (path : string) (fs1 fs2 fs3 : files) :
  appended path fs1 fs2 → appended path fs2 fs3 → appended path fs1 fs3.
Proof.
  intros (Hframe1 & Hex1 & t1 & Ht1) (Hframe2 & Hex2 & t2 & Ht2).
  split; [|split; [by auto|]].
  - intros p Hp. by rewrite Hframe2, Hframe1.
  - exists (t1 +:+ t2). by rewrite Ht2, Ht1, append_assoc.
Qed.

Lemma appends_ret {A} (path : string) (a : A) : appends path (mret a).
Proof. intros fs. apply appended_refl. Qed.

Lemma appends_lift {A} (path : string) (o : outcome A) : appends path (lift o).
Proof. intros fs. apply appended_refl. Qed.

Lemma appends_bind {A B} (path : string) (m : io A) (f : A → io B) :
  appends path m → (∀ a, appends path (f a)) → appends path (m ≫= f).
Proof.
  intros Hm Hf fs. unfold mbind, io_bind. specialize (Hm fs).
  destruct (m fs) as [fs1 [a|e]]; simpl in *; [|done].
  eapply appended_trans; [done|apply Hf].
Qed.

Lemma appends_open_a (path : string) : appends path (open_a path).
Proof.
  intros fs. unfold open_a. simpl. split; [|split].
  - intros p Hp. by rewrite lookup_insert_ne.
  - intros _. by rewrite lookup_insert_eq.
  - exists "". by rewrite lookup_insert_eq, append_empty_r.
Qed.

Lemma appends_write (path text : string) : appends path (write path text).
Proof.
  intros fs. unfold write. simpl. split; [|split].
  - intros p Hp. by rewrite lookup_insert_ne.
  - intros _. by rewrite lookup_insert_eq.
  - exists text. by rewrite lookup_insert_eq.
Qed.

Lemma appends_for_each {A} (path : string) (l : list A) (body : A → io unit) :
  (∀ x, appends path (body x)) → appends path (for_each l body).
Proof.
  intros Hbody. induction l as [|x l IH]; simpl; [apply appends_ret|].
  apply appends_bind; [apply Hbody|]. by intros _.
Qed.

Lemma emits_ret (path : string) : emits path "" (mret ()).
Proof.
  intros fs old Hold. unfold mret, io_ret.
  by rewrite append_empty_r, insert_id.
Qed.

Lemma emits_write (path text : string) : emits path text (write path text).
Proof. intros fs old Hold. unfold write. by rewrite Hold. Qed.

Lemma emits_bind (path t1 t2 : string) (m1 m2 : io unit) :
  emits path t1 m1 → emits path t2 m2 → emits path (t1 +:+ t2) (m1;; m2).
Proof.
  intros H1 H2 fs old Hold. unfold mbind, io_bind. rewrite (H1 fs old Hold).
  rewrite (H2 _ (old +:+ t1)) by apply lookup_insert_eq.
  by rewrite insert_insert_eq, append_assoc.
Qed.

Lemma emitting_write (path text : string) : emitting path (write path text).
Proof. eexists. apply emits_write. Qed.

Lemma emitting_bind (path : string) (m1 m2 : io unit) :
  emitting path m1 → emitting path m2 → emitting path (m1;; m2).
Proof. intros [t1 H1] [t2 H2]. eexists. by apply emits_bind. Qed.

Lemma emitting_for_each {A} (path : string) (l : list A) (body : A → io unit) :
  (∀ x, emitting path (body x)) → emitting path (for_each l body).
Proof.
  intros Hbody. induction l as [|x l IH]; simpl.
  - eexists. apply emits_ret.
  - by apply emitting_bind.
Qed.

(** A file that is opened for writing and then written holds the text
    written, whatever it held before. *)
Lemma overwrite_then {A} (path : string) (m : io unit) (k : io A) :
  emitting path m →
  ∃ text, ∀ fs, (open_w path;; m;; k) fs = k (<[path := text]> fs).
Proof.
  intros [text Hm]. exists text. intros fs. unfold mbind, io_bind, open_w.
  rewrite (Hm _ "") by apply lookup_insert_eq.
  by rewrite insert_insert_eq.
Qed.

Lemma overwrite_last (path : string) (m : io unit) :
  emitting path m →
  ∃ text, ∀ fs, (open_w path;; m) fs = (<[path := text]> fs, Done ()).
Proof.
  intros [text Hm]. exists text. intros fs. unfold mbind, io_bind, open_w.
  rewrite (Hm _ "") by apply lookup_insert_eq.
  by rewrite insert_insert_eq.
Qed.

Lemma open_a_then {A} (path : string) (k : io A) (fs : files) :
  (open_a path;; k) fs = k (<[path := default "" (fs !! path)]> fs).
Proof. done. Qed.

Lemma write_then {A} (path text : string) (k : io A) (fs : files) (old : string) :
  fs !! path = Some old →
  (write path text;; k) fs = k (<[path := old +:+ text]> fs).
Proof. intros Hold. unfold mbind, io_bind, write. by rewrite Hold. Qed.

Section Scores.
Context `{Reporting}.

Local Ltac appending :=
  repeat (cbv beta;
          lazymatch goal with
          | |- appends _ (open_a _) => apply appends_open_a
          | |- appends _ (write _ _) => apply appends_write
          | |- appends _ (lift _) => apply appends_lift
          | |- appends _ (mret _) => apply appends_ret
          | |- appends _ (for_each _ _) => apply appends_for_each; intros ?
          | |- appends _ (_ ≫= _) => apply appends_bind; [|intros ?]
          | |- appends _ (let '(_, _) := ?x in _) => destruct x
          | |- appends _ (if ?b then _ else _) => destruct b
          end).

Lemma write_obj_detector_scores_appends obj :
  appends final_scores_txt_file (write_obj_detector_scores obj).
Proof. unfold write_obj_detector_scores. appending. Qed.

Lemma write_region_selection_scores_appends sel :
  appends final_scores_txt_file (write_region_selection_scores sel).
Proof. unfold write_region_selection_scores. appending. Qed.

Lemma write_region_abnormal_scores_appends abn :
  appends final_scores_txt_file (write_region_abnormal_scores abn).
Proof. unfold write_region_abnormal_scores. appending. Qed.

Lemma write_clinical_efficacy_scores_appends subset ce_score_dict :
  appends final_scores_txt_file (write_clinical_efficacy_scores subset ce_score_dict).
Proof. unfold write_clinical_efficacy_scores. appending. Qed.

Lemma write_language_model_scores_appends lm :
  appends final_scores_txt_file (write_language_model_scores lm).
Proof.
  unfold write_language_model_scores. appending.
  apply write_clinical_efficacy_scores_appends.
Qed.


Local Ltac emitting_text :=
  repeat (cbv beta;
          lazymatch goal with
          | |- emitting _ (write _ _) => apply emitting_write
          | |- emitting _ (for_each _ _) => apply emitting_for_each; intros ?
          | |- emitting _ (_ ≫= _) => apply emitting_bind
          | |- emitting _ (let '(_, _) := ?x in _) => destruct x
          end).

Lemma write_sentences_overwrites gs gsa rs rsa :
  ∃ t1 t2, ∀ fs,
    write_sentences gs gsa rs rsa fs
    = (<[generated_abnormal_sentences_txt := t2]> (<[generated_sentences_txt := t1]> fs),
       Done ()).
Proof.
  unfold write_sentences.
  match goal with |- context [open_w ?p1;; ?m1;; open_w ?p2;; ?m2] =>
    destruct (overwrite_then p1 m1 (open_w p2;; m2)) as [t1 H1]; [emitting_text|];
    destruct (overwrite_last p2 m2) as [t2 H2]; [emitting_text|]
  end.
  exists t1, t2. intros fs. by rewrite H1, H2.
Qed.

Lemma write_reports_overwrites gr rr rm rf rem :
  ∃ t3, ∀ fs, write_reports gr rr rm rf rem fs = (<[generated_reports_txt := t3]> fs, Done ()).
Proof. unfold write_reports. apply overwrite_last. emitting_text. Qed.


(** * The evaluation of the language model *)

Lemma language_model_loop_app self tok n s r (l1 l2 : list test_batch) (fs : files) :
  language_model_loop self tok n s r (l1 ++ l2) fs =
  '(s', r') ← language_model_loop self tok n s r l1 fs;
  language_model_loop self tok (n + length l1) s' r' l2 fs.
Proof.
  revert n s r. induction l1 as [|b l1 IH]; intros n s r; simpl.
  - by rewrite Nat.add_0_r.
  - case_decide as Hn; simpl.
    + destruct l2 as [|b' l2]; simpl; [done|]. case_decide; [done|lia].
    + destruct (language_model_step self tok s r b fs) as [[s1 r1]|e]; simpl; [|done].
      rewrite IH. by rewrite Nat.add_succ_r.
Qed.

Lemma language_model_loop_take self tok n s r (l : list test_batch) (fs : files) :
  language_model_loop self tok n s r l fs =
  language_model_loop self tok n s r
    (take (NUM_BATCHES_TO_PROCESS_FOR_LANGUAGE_MODEL_EVALUATION - n) l) fs.
Proof.
  revert n s r. induction l as [|b l IH]; intros n s r.
  - by rewrite take_nil.
  - simpl. case_decide as Hn.
    + replace (NUM_BATCHES_TO_PROCESS_FOR_LANGUAGE_MODEL_EVALUATION - n)%nat with 0%nat
        by lia. done.
    + replace (NUM_BATCHES_TO_PROCESS_FOR_LANGUAGE_MODEL_EVALUATION - n)%nat
        with (S (NUM_BATCHES_TO_PROCESS_FOR_LANGUAGE_MODEL_EVALUATION - S n)) by lia.
      simpl. case_decide; [lia|].
      destruct (language_model_step self tok s r b fs) as [[s1 r1]|e]; simpl; [|done].
      apply IH.
Qed.

(** X25.  [evaluate_language_model] does not handle the sentinel of
    [generate]: if, for one of the first 500 batches, no region is selected
    and [generate] returns -1, the unpacking of its output fails with a
    [TypeError]; the function ends there, with no sentence, report or score
    written to any file. *)
Theorem generate_sentinel_ends_the_language_model_evaluation
    (self : ReportGenerationModel) tok (before after : list test_batch) b s r (fs : files) :
  spacy_load "en_core_web_trf" = Done tok →
  (length before < NUM_BATCHES_TO_PROCESS_FOR_LANGUAGE_MODEL_EVALUATION)%nat →
  language_model_loop self tok 0 empty_sentences empty_reports before fs = Done (s, r) →
  (generate self (images (metric_inputs b)) evaluation_generation_args).2
    = Returns EmptySelection →
  evaluate_language_model self (before ++ b :: after) fs
  = (fs, Failed (ModelError (Exn TypeError "cannot unpack non-iterable int object"))).
Proof.
  intros Htok Hlen Hbefore Hgen. unfold evaluate_language_model.
  unfold mbind at 1. unfold io_bind, lift. rewrite Htok.
  unfold mbind at 1. unfold io_bind, reading.
  rewrite language_model_loop_app, Hbefore. simpl.
  case_decide; [lia|]. unfold language_model_step. by rewrite Hgen.
Qed.

(** X26.  [evaluate_language_model] looks at the first 500 batches of the
    test loader only: the batches after them change neither its result nor
    the files it writes. *)
Theorem language_model_evaluation_uses_500_batches
    (self : ReportGenerationModel) (test_loader : list test_batch) (fs : files) :
  evaluate_language_model self test_loader fs
  = evaluate_language_model self (take 500 test_loader) fs.
Proof.
  unfold evaluate_language_model, mbind, io_bind, lift, reading.
  destruct (spacy_load "en_core_web_trf") as [tok|e]; [|done].
  by rewrite language_model_loop_take.
Qed.

End Scores.

(** * The whole evaluation *)

Section WholeEvaluation.
Context `{HS : Stages} {HM : Metrics} {HR : Reporting}.


(** X28.  If some batch of the test loader has a selected region, so that
    the output of the model is not the sentinel, [evaluate_model] ends with
    the [ValueError] of the unpacking in [get_metric_scores], before any
    sentence is generated and with no file written. *)
Theorem evaluate_model_fails_on_a_regular_output
    (self : ReportGenerationModel) (before after : list test_batch) b st out (fs : files) :
  run_batches (call_model self) initial_state (metric_inputs <$> before) = Returns st →
  call_model self (metric_inputs b) = Returns out →
  out ≠ EmptySelection →
  ∃ got,
    got ∈ [2; 3; 5; 6]%nat ∧
    evaluate_model self (before ++ b :: after) fs
    = (fs, Failed (ModelError (unpack_error got))).
Proof.
  intros Hrun Hout Hne. pose proof Hout as Harity.
  unfold call_model, forward_on in Harity. apply forward_arity in Harity.
  destruct Harity as [[-> _]|(comps & -> & Hlen)]; [done|].
  exists (length comps). split.
  - rewrite Hlen. destruct (training self), (pretrain_without_lm_model self);
      repeat (constructor; try done).
  - unfold evaluate_model, mbind at 1, io_bind, lift.
    rewrite fmap_app, fmap_cons. unfold get_metric_scores.
    rewrite run_batches_app, Hrun. simpl.
    rewrite (unpack_fails _ st (metric_inputs b) comps); [done| |done|].
    + exact (run_batches_oom _ initial_state _ st eq_refl Hrun).
    + rewrite Hlen. by destruct (training self), (pretrain_without_lm_model self).
Qed.

End WholeEvaluation.

(** * The further properties on the concrete pipeline *)

(** Detected 0, 1, 2 and sentences at 1, 2, 3: the one call of the language
    model receives two rows of each kind. *)
Lemma language_model_inputs_are_aligned_witness :
  let b := toy_batch [0; 1; 2]%nat [1; 2; 3]%nat in
  @LMForward toy_stages [[1]; [2]] [[1]; [1]] [1; 2]%nat
    ∈ (forward_on toy_training_model b).1 ∧
  length [[1]; [2]] ≠ 0%nat ∧
  length [[1]; [1]] = length [[1]; [2]] ∧
  length [1; 2]%nat = length [[1]; [2]].
Proof.
  intros b.
  assert (@LMForward toy_stages [[1]; [2]] [[1]; [1]] [1; 2]%nat
            ∈ (forward_on toy_training_model b).1) as Hin by (vm_compute; left).
  split; [exact Hin|].
  exact (language_model_inputs_are_aligned (H:=toy_stages) _ _ _ _ _ _ _ _ _ _ _ _ _ _ Hin).
Defined.

(** The same batch: one call with the language model, none without it. *)
Lemma language_model_called_at_most_once_witness :
  let b := toy_batch [0; 1; 2]%nat [1; 2; 3]%nat in
  length (forward_on toy_training_model b).1 = 1%nat ∧
  (forward_on toy_pretraining_model b).1 = [].
Proof.
  intros b. split.
  - destruct (forward_on toy_training_model b).2 as [[z|comps]|e] eqn:Hres;
      try (vm_compute in Hres; discriminate).
    unfold forward_on in *.
    destruct (language_model_called_at_most_once (H:=toy_stages) toy_training_model
                (images b) (image_targets b) (input_ids b) (attention_mask b)
                (region_has_sentence b) (region_is_abnormal b) true None None false)
      as (_ & _ & _ & Hone).
    exact (Hone comps eq_refl Hres).
  - destruct (language_model_called_at_most_once (H:=toy_stages) toy_pretraining_model
                (images b) (image_targets b) (input_ids b) (attention_mask b)
                (region_has_sentence b) (region_is_abnormal b) true None None false)
      as (_ & Hnone & _).
    exact (Hnone eq_refl).
Defined.

(** The model of [main] on a batch with selected regions: six components. *)
Lemma forward_output_arity_witness :
  let b := toy_batch [0; 1; 2]%nat [5]%nat in
  ∃ comps, (forward_on main_model b).2 = Returns (OutTuple comps) ∧ length comps = 6%nat.
Proof.
  intros b.
  destruct (forward_on main_model b).2 as [out|e] eqn:Hres;
    [|vm_compute in Hres; discriminate].
  unfold forward_on in Hres.
  destruct (forward_output_arity (H:=toy_stages) _ _ _ _ _ _ _ _ _ _ _ _ Hres)
    as [[-> _]|(comps & -> & Hlen)].
  - vm_compute in Hres. discriminate.
  - exists comps. split; [reflexivity|exact Hlen].
Defined.

(** [generate] on the same images: four components after one call of the
    language model. *)
Lemma generate_calls_witness :
  let b := toy_batch [0; 1; 2]%nat [5]%nat in
  let run := generate (H:=toy_stages) main_model (images b) evaluation_generation_args in
  ∃ comps features,
    run.2 = Returns (OutTuple comps) ∧ length comps = 4%nat ∧
    run.1 = [LMGenerate features].
Proof.
  intros b run.
  destruct run.2 as [[z|comps]|e] eqn:Hres; try (vm_compute in Hres; discriminate).
  destruct (generate_calls (H:=toy_stages) main_model (images b) evaluation_generation_args)
    as (_ & _ & _ & Htuple).
  destruct (Htuple comps Hres) as (Hlen & features & Htrace).
  by exists comps, features.
Defined.

(** After a batch without selected regions, a batch on which the model
    fails is handled with the sentinel of the batch before. *)
Lemma swallowed_error_reuses_previous_output_witness :
  ∃ st,
    loop_body toy_flaky_model initial_state (toy_batch [1; 3]%nat [1]%nat) = Returns st ∧
    output st = Some EmptySelection ∧
    loop_body toy_flaky_model st toy_pair_batch
    = loop_body (λ _, Returns EmptySelection) st toy_pair_batch.
Proof.
  destruct (loop_body toy_flaky_model initial_state (toy_batch [1; 3]%nat [1]%nat))
    as [st|e] eqn:Hst; [|vm_compute in Hst; discriminate].
  assert (output st = Some EmptySelection) as Hout.
  { vm_compute in Hst. by injection Hst as <-. }
  exists st. split; [reflexivity|]. split; [exact Hout|].
  by apply (swallowed_error_reuses_previous_output (H0:=toy_metrics) toy_flaky_model st
              toy_pair_batch
              (Exn RuntimeError "CUDA error: an illegal memory access was encountered")
              EmptySelection).
Defined.

(** The same failure on the first batch. *)
Lemma early_runtime_error_is_unbound_local_witness :
  get_metric_scores (H0:=toy_metrics) toy_flaky_model [toy_pair_batch; toy_batch [1]%nat []]
  = Raises (Exn UnboundLocalError "local variable 'output' referenced before assignment").
Proof.
  by apply (early_runtime_error_is_unbound_local (H0:=toy_metrics) toy_flaky_model
              toy_pair_batch [toy_batch [1]%nat []]
              (Exn RuntimeError "CUDA error: an illegal memory access was encountered")).
Defined.

(** A [ValueError] of the model on the second batch. *)
Lemma other_exceptions_propagate_witness :
  get_metric_scores (H0:=toy_metrics) toy_strict_model
    [toy_batch [0]%nat []; toy_pair_batch; toy_batch [1]%nat []]
  = Raises (Exn ValueError "Expected input batch_size (2) to match target batch_size (1).").
Proof.
  destruct (run_batches (H0:=toy_metrics) toy_strict_model initial_state
              [toy_batch [0]%nat []]) as [st|e] eqn:Hst;
    [|vm_compute in Hst; discriminate].
  by apply (other_exceptions_propagate (H0:=toy_metrics) toy_strict_model
              [toy_batch [0]%nat []] toy_pair_batch [toy_batch [1]%nat []] st).
Defined.

(** Two batches of one image and one of two. *)
Lemma num_images_bounds_witness :
  ∃ st,
    run_batches (H0:=toy_metrics) toy_model8 initial_state
      [toy_batch [0]%nat []; toy_pair_batch; toy_batch [0; 4]%nat []] = Returns st ∧
    0 ≤ num_images st ≤ 4.
Proof.
  destruct (run_batches (H0:=toy_metrics) toy_model8 initial_state
              [toy_batch [0]%nat []; toy_pair_batch; toy_batch [0; 4]%nat []])
    as [st|e] eqn:Hst; [|vm_compute in Hst; discriminate].
  exists st. split; [reflexivity|].
  exact (num_images_bounds (H0:=toy_metrics) toy_model8 _ st Hst).
Defined.

(** The flag after two batches. *)
Lemma out_of_memory_recovery_never_runs_witness :
  ∃ st,
    run_batches (H0:=toy_metrics) toy_model8 initial_state
      [toy_batch [0]%nat []; toy_pair_batch] = Returns st ∧
    oom st = false.
Proof.
  destruct (run_batches (H0:=toy_metrics) toy_model8 initial_state
              [toy_batch [0]%nat []; toy_pair_batch])
    as [st|e] eqn:Hst; [|vm_compute in Hst; discriminate].
  exists st. split; [reflexivity|].
  exact (out_of_memory_recovery_never_runs (H0:=toy_metrics) toy_model8 _ st Hst).
Defined.

(** A training-mode model built without the language model: its pair of
    losses cannot be unpacked either. *)
Lemma no_model_output_is_unpacked_witness :
  let model := call_model (H:=toy_stages) toy_pretraining_model in
  let b := toy_batch [0; 1]%nat [2; 3]%nat in
  ∃ got, got ∈ [2; 3; 5; 6]%nat ∧
         get_metric_scores (H0:=toy_metrics) model [b] = Raises (unpack_error got).
Proof.
  intros model b.
  destruct (model b) as [out|e] eqn:Hout; [|vm_compute in Hout; discriminate].
  destruct (no_model_output_is_unpacked (H0:=toy_metrics) toy_pretraining_model b out Hout)
    as (got & Hgot & _ & Hloop).
  { vm_compute in Hout. injection Hout as <-. discriminate. }
  exists got. split; [exact Hgot|].
  exact (Hloop [] initial_state [] eq_refl).
Defined.

(** Two batches without selected regions. *)
Lemma skipped_batches_give_undefined_scores_witness :
  let model := call_model (H:=toy_stages) main_model in
  ∃ obj sel abn,
    get_metric_scores (H0:=toy_metrics) model
      [toy_batch [1; 3]%nat [1]%nat; toy_batch [5]%nat []] = Returns (obj, sel, abn) ∧
    avg_iou obj = NaN ∧
    avg_num_detected_regions_per_image obj = NaN.
Proof.
  intros model.
  destruct (get_metric_scores (H0:=toy_metrics) model
              [toy_batch [1; 3]%nat [1]%nat; toy_batch [5]%nat []])
    as [[[obj sel] abn]|e] eqn:Hrun; [|vm_compute in Hrun; discriminate].
  destruct (skipped_batches_give_undefined_scores (H0:=toy_metrics) model
              [toy_batch [1; 3]%nat [1]%nat; toy_batch [5]%nat []] obj sel abn)
    as (_ & Hiou & _ & Hnum & _); [|exact Hrun|by exists obj, sel, abn].
  repeat constructor.
Defined.

(** The same loader, for the model of [main]. *)
Lemma model_scores_are_undefined_witness :
  ∃ obj sel abn,
    get_metric_scores (H0:=toy_metrics) (call_model (H:=toy_stages) main_model)
      [toy_batch [1; 3]%nat [1]%nat; toy_batch [5]%nat []] = Returns (obj, sel, abn) ∧
    avg_iou_per_region obj = replicate 29 NaN.
Proof.
  destruct (get_metric_scores (H0:=toy_metrics) (call_model (H:=toy_stages) main_model)
              [toy_batch [1; 3]%nat [1]%nat; toy_batch [5]%nat []])
    as [[[obj sel] abn]|e] eqn:Hrun; [|vm_compute in Hrun; discriminate].
  destruct (model_scores_are_undefined (H0:=toy_metrics) main_model _ obj sel abn Hrun)
    as (_ & _ & Hper & _).
  by exists obj, sel, abn.
Defined.


(** The state dict of a detector with one other entry. *)
Lemma renamed_keys_hold_the_old_entries_witness :
  let d' : gmap string nat :=
    <["rpn.head.conv.bias" := 3%nat]>
      (<["rpn.head.conv.weight" := 2%nat]> {[ "backbone.0.weight" := 1%nat ]}) in
  rename_object_detector_keys toy_state_dict = Done d' ∧
  d' !! "rpn.head.conv.weight" = toy_state_dict !! "rpn.head.conv.0.0.weight" ∧
  d' !! "rpn.head.conv.0.0.weight" = None ∧
  d' !! "backbone.0.weight" = toy_state_dict !! "backbone.0.weight".
Proof.
  intros d'.
  assert (rename_object_detector_keys toy_state_dict = Done d') as Hd
    by (vm_compute; reflexivity).
  destruct (renamed_keys_hold_the_old_entries toy_state_dict d' Hd)
    as (_ & _ & Hw & _ & Hw0 & _ & Hother).
  split; [exact Hd|]. split; [exact Hw|]. split; [exact Hw0|].
  apply Hother. apply (bool_decide_unpack _). vm_compute. exact I.
Defined.

(** A state dict without the old keys, and the converted state dict. *)
Lemma renaming_needs_the_old_keys_witness :
  let d' : gmap string nat :=
    <["rpn.head.conv.bias" := 3%nat]>
      (<["rpn.head.conv.weight" := 2%nat]> {[ "backbone.0.weight" := 1%nat ]}) in
  rename_object_detector_keys (∅ : gmap string nat)
  = Failed (KeyError "rpn.head.conv.0.0.weight") ∧
  rename_object_detector_keys toy_state_dict = Done d' ∧
  rename_object_detector_keys d' = Failed (KeyError "rpn.head.conv.0.0.weight").
Proof.
  intros d'. split.
  - apply (proj1 (renaming_needs_the_old_keys (∅ : gmap string nat))). reflexivity.
  - assert (rename_object_detector_keys toy_state_dict = Done d') as Hd
      by (vm_compute; reflexivity).
    split; [exact Hd|].
    destruct (renaming_needs_the_old_keys toy_state_dict) as (_ & _ & _ & Hagain).
    exact (Hagain d' Hd).
Defined.

(** A checkpoint with the state of the model and of the optimizer. *)
Lemma full_model_keys_are_renamed_witness :
  let model' : gmap string nat :=
    <["object_detector.rpn.head.conv.bias" := 3%nat]>
      (<["object_detector.rpn.head.conv.weight" := 2%nat]>
         {[ "object_detector.backbone.0.weight" := 1%nat ]}) in
  let checkpoint' := <["model" := model']> toy_checkpoint in
  rename_full_model_keys toy_checkpoint = Done checkpoint' ∧
  ∃ model model',
    toy_checkpoint !! "model" = Some model ∧
    checkpoint' !! "model" = Some model' ∧
    checkpoint' !! "optimizer" = toy_checkpoint !! "optimizer" ∧
    model' !! "object_detector.rpn.head.conv.weight"
      = model !! "object_detector.rpn.head.conv.0.0.weight" ∧
    model' !! "object_detector.rpn.head.conv.0.0.weight" = None.
Proof.
  intros model' checkpoint'.
  assert (rename_full_model_keys toy_checkpoint = Done checkpoint') as Hc
    by (vm_compute; reflexivity).
  split; [exact Hc|].
  destruct (full_model_keys_are_renamed toy_checkpoint checkpoint' Hc)
    as (m & m' & Hm & Hm' & Hother & _ & _ & Hw & _ & Hw0 & _).
  exists m, m'. split; [exact Hm|]. split; [exact Hm'|].
  split; [by apply Hother|]. split; [exact Hw|exact Hw0].
Defined.

(** Two rows, one empty phrase. *)
Lemma get_dataset_phrases_witness :
  length (get_dataset toy_rows) = 2%nat ∧
  ∃ row', get_dataset toy_rows !! 0%nat = Some row' ∧
          bbox_phrases row' = ["The lungs are clear."; "#"] ∧
          bbox_phrase_exists row' = [true; false].
Proof.
  destruct (get_dataset_phrases toy_rows) as [Hlen Hrows]. split; [exact Hlen|].
  destruct (get_dataset toy_rows !! 0%nat) as [row'|] eqn:Hrow';
    [|vm_compute in Hrow'; discriminate].
  destruct (Hrows 0%nat row' Hrow') as (row & Hrow & _ & _ & _ & _ & Hex & _).
  exists row'. split; [reflexivity|]. split.
  - vm_compute in Hrow'. by injection Hrow' as <-.
  - rewrite Hex. vm_compute in Hrow. by injection Hrow as <-.
Defined.

(** The phrases of the first row. *)
Lemma written_references_are_the_original_phrases_witness :
  written_reference <$> replace_empty_phrases ["The lungs are clear."; ""]
  = ["The lungs are clear."; ""].
Proof.
  apply (written_references_are_the_original_phrases ["The lungs are clear."; ""]).
  apply (bool_decide_unpack _). vm_compute. exact I.
Defined.

(** The string of the missing phrase of the first row. *)
Lemma tokenizer_never_gets_an_empty_phrase_witness :
  ∃ row,
    get_dataset toy_rows !! 0%nat = Some row ∧
    "<|endoftext|>#<|endoftext|>" ∈ phrases_with_special_tokens (bbox_phrases row) ∧
    "<|endoftext|>#<|endoftext|>" ≠ bos_token +:+ eos_token ∧
    String.prefix bos_token "<|endoftext|>#<|endoftext|>" = true.
Proof.
  destruct (get_dataset toy_rows !! 0%nat) as [row|] eqn:Hrow;
    [|vm_compute in Hrow; discriminate].
  assert ("<|endoftext|>#<|endoftext|>" ∈ phrases_with_special_tokens (bbox_phrases row))
    as Hin.
  { vm_compute in Hrow. injection Hrow as <-. vm_compute. right. left. }
  destruct (tokenizer_never_gets_an_empty_phrase toy_rows row
              "<|endoftext|>#<|endoftext|>") as (Hne & Hpre & _).
  - by apply list_elem_of_lookup_2 in Hrow.
  - exact Hin.
  - by exists row.
Defined.

(** A name of three words and a name of one. *)
Lemma underscored_names_have_no_white_space_witness :
  contains_space (underscored "right upper lung zone") = false ∧
  underscored "trachea" = "trachea".
Proof.
  destruct (underscored_names_have_no_white_space "right upper lung zone") as (Hno & _ & _).
  destruct (underscored_names_have_no_white_space "trachea") as (_ & Hfix & _).
  split; [exact Hno|]. apply Hfix. reflexivity.
Defined.

(** One of the five conditions. *)
Lemma condition_names_are_lower_case_witness :
  str_join "_" (str_split (str_lower "Pleural Effusion")) = str_lower (underscored "Pleural Effusion").
Proof. by destruct (condition_names_are_lower_case "Pleural Effusion") as (_ & _ & Heq). Defined.

(** The reports of the two studies. *)
Lemma reference_reports_are_aligned_witness :
  ∃ r,
    get_reference_reports_mimic toy_files ["50414267"; "53189527"] = Done r ∧
    length (report_mimic r) = 2%nat ∧
    report_mimic_findings_only r !! 1%nat = Some None.
Proof.
  destruct (get_reference_reports_mimic toy_files ["50414267"; "53189527"])
    as [r|e] eqn:Hr; [|vm_compute in Hr; discriminate].
  destruct (reference_reports_are_aligned toy_files _ r Hr) as (Hlen & _ & Hrows).
  exists r. split; [reflexivity|]. split; [exact Hlen|].
  destruct (Hrows 1%nat "53189527" eq_refl) as (text & _ & _ & Hfind).
  rewrite Hfind. reflexivity.
Defined.

(** Both reports exist. *)
Lemma missing_report_is_an_error_witness :
  ∃ r, get_reference_reports_mimic toy_files ["50414267"; "53189527"] = Done r.
Proof.
  apply (proj1 (missing_report_is_an_error toy_files ["50414267"; "53189527"])).
  repeat constructor; by eexists.
Defined.

(** The second batch has no selected region. *)
Lemma generate_sentinel_ends_the_language_model_evaluation_witness :
  evaluate_language_model (H0:=toy_reporting) main_model
    [toy_test_batch [0; 1; 2]%nat; toy_test_batch [1; 3]%nat; toy_test_batch [0]%nat]
    toy_files
  = (toy_files, Failed (ModelError (Exn TypeError "cannot unpack non-iterable int object"))).
Proof.
  destruct (language_model_loop (H0:=toy_reporting) main_model () 0 empty_sentences
              empty_reports [toy_test_batch [0; 1; 2]%nat] toy_files)
    as [[s r]|e] eqn:Hbefore; [|vm_compute in Hbefore; discriminate].
  apply (generate_sentinel_ends_the_language_model_evaluation (H0:=toy_reporting)
           main_model () [toy_test_batch [0; 1; 2]%nat] [toy_test_batch [0]%nat]
           (toy_test_batch [1; 3]%nat) s r toy_files).
  - reflexivity.
  - vm_compute. lia.
  - exact Hbefore.
  - reflexivity.
Defined.

(** A loader of one batch. *)
Lemma language_model_evaluation_uses_500_batches_witness :
  evaluate_language_model (H0:=toy_reporting) main_model [toy_test_batch [0]%nat] toy_files
  = evaluate_language_model (H0:=toy_reporting) main_model
      (take 500 [toy_test_batch [0]%nat]) toy_files.
Proof.
  apply (language_model_evaluation_uses_500_batches (H0:=toy_reporting)).
Defined.




(** The second batch has selected regions. *)
Lemma evaluate_model_fails_on_a_regular_output_witness :
  ∃ got,
    got ∈ [2; 3; 5; 6]%nat ∧
    evaluate_model (HM:=toy_metrics) (HR:=toy_reporting) main_model
      [toy_test_batch [1; 3]%nat; toy_test_batch [0; 1; 2]%nat] toy_files
    = (toy_files, Failed (ModelError (unpack_error got))).
Proof.
  destruct (run_batches (H0:=toy_metrics) (call_model (H:=toy_stages) main_model)
              initial_state (metric_inputs <$> [toy_test_batch [1; 3]%nat]))
    as [st|e] eqn:Hst; [|vm_compute in Hst; discriminate].
  destruct (call_model (H:=toy_stages) main_model
              (metric_inputs (toy_test_batch [0; 1; 2]%nat)))
    as [out|e] eqn:Hout; [|vm_compute in Hout; discriminate].
  apply (evaluate_model_fails_on_a_regular_output
           (HM:=toy_metrics) (HR:=toy_reporting) main_model
           [toy_test_batch [1; 3]%nat] [] (toy_test_batch [0; 1; 2]%nat) st out toy_files
           Hst Hout).
  vm_compute in Hout. injection Hout as <-. discriminate.
Defined.
